(** * Identity translation of the vcluster syncer: names, labels, metadata

    A shallow embedding of package [translate]: the naming helpers
    ([SafeConcatName], [hostNamespace], [hostLabelCluster]), the
    multi-namespace translator, the metadata merge ([applyMaps] and its
    callers), the label-selector rewriters, the owner-reference builder and
    the CRD reconciler, together with the properties of them that the
    specification states.

    Go strings are byte sequences: they are modelled by [string] (a list of
    8-bit [ascii]), [len] by [String.length].  Go maps are [gmap string
    string]; a map value that may be [nil] is an [option] of one. *)

From Stdlib Require Import ZArith List Ascii String Lia Bool.
From stdpp Require Import base option list strings gmap fin_maps.

Local Open Scope Z_scope.

(** ** crypto/sha256 (FIPS 180-4), on 32-bit words held in [Z] *)

Module SHA256.

Definition wrap (x : Z) : Z := x mod 4294967296.
Definition add32 (a b : Z) : Z := wrap (a + b).
Definition rotr (n x : Z) : Z :=
  wrap (Z.lor (Z.shiftr x n) (Z.shiftl x (32 - n))).
Definition shr (n x : Z) : Z := Z.shiftr x n.
Definition not32 (x : Z) : Z := Z.lxor x 4294967295.

Definition Ch (x y z : Z) : Z := Z.lxor (Z.land x y) (Z.land (not32 x) z).
Definition Maj (x y z : Z) : Z :=
  Z.lxor (Z.lxor (Z.land x y) (Z.land x z)) (Z.land y z).
Definition bsig0 (x : Z) : Z := Z.lxor (Z.lxor (rotr 2 x) (rotr 13 x)) (rotr 22 x).
Definition bsig1 (x : Z) : Z := Z.lxor (Z.lxor (rotr 6 x) (rotr 11 x)) (rotr 25 x).
Definition ssig0 (x : Z) : Z := Z.lxor (Z.lxor (rotr 7 x) (rotr 18 x)) (shr 3 x).
Definition ssig1 (x : Z) : Z := Z.lxor (Z.lxor (rotr 17 x) (rotr 19 x)) (shr 10 x).

Definition K : list Z :=
  [ 1116352408; 1899447441; 3049323471; 3921009573; 961987163; 1508970993;
    2453635748; 2870763221; 3624381080; 310598401; 607225278; 1426881987;
    1925078388; 2162078206; 2614888103; 3248222580; 3835390401; 4022224774;
    264347078; 604807628; 770255983; 1249150122; 1555081692; 1996064986;
    2554220882; 2821834349; 2952996808; 3210313671; 3336571891; 3584528711;
    113926993; 338241895; 666307205; 773529912; 1294757372; 1396182291;
    1695183700; 1986661051; 2177026350; 2456956037; 2730485921; 2820302411;
    3259730800; 3345764771; 3516065817; 3600352804; 4094571909; 275423344;
    430227734; 506948616; 659060556; 883997877; 958139571; 1322822218;
    1537002063; 1747873779; 1955562222; 2024104815; 2227730452; 2361852424;
    2428436474; 2756734187; 3204031479; 3329325298 ].

(** The eight working variables / chaining values (constants in decimal). *)
Record digest_state : Set := DS {
  h0 : Z; h1 : Z; h2 : Z; h3 : Z; h4 : Z; h5 : Z; h6 : Z; h7 : Z }.

Definition init : digest_state :=
  DS 1779033703 3144134277 1013904242 2773480762
     1359893119 2600822924 528734635 1541459225.

(** Padding: a 1 bit, zeros up to 56 mod 64, then the bit length on 64 bits,
    big endian. *)
Definition be_bytes (n : nat) (x : Z) : list Z :=
  List.map (fun i => Z.shiftr x (8 * Z.of_nat i) mod 256) (List.rev (List.seq 0 n)).

Definition pad (msg : list Z) : list Z :=
  let len := Z.of_nat (List.length msg) in
  let zeros := Z.to_nat ((55 - len) mod 64) in
  msg ++ [128] ++ List.repeat 0 zeros ++ be_bytes 8 (8 * len).

Fixpoint words (bs : list Z) : list Z :=
  match bs with
  | a :: b :: c :: d :: rest =>
      (Z.shiftl a 24 + Z.shiftl b 16 + Z.shiftl c 8 + d) :: words rest
  | _ => []
  end.

(** The message schedule, kept newest word first: after [t] steps the list
    holds W[t-1], W[t-2], ..., W[0]. *)
Definition next_w (w : list Z) : Z :=
  add32 (add32 (ssig1 (List.nth 1 w 0)) (List.nth 6 w 0))
        (add32 (ssig0 (List.nth 14 w 0)) (List.nth 15 w 0)).

Fixpoint extend (n : nat) (w : list Z) : list Z :=
  match n with
  | O => w
  | S n' => extend n' (next_w w :: w)
  end.

Definition schedule (block : list Z) : list Z :=
  List.rev (extend 48 (List.rev block)).

Definition round (s : digest_state) (kw : Z * Z) : digest_state :=
  let '(k, w) := kw in
  let t1 := add32 (add32 (add32 (h7 s) (bsig1 (h4 s))) (Ch (h4 s) (h5 s) (h6 s)))
                  (add32 k w) in
  let t2 := add32 (bsig0 (h0 s)) (Maj (h0 s) (h1 s) (h2 s)) in
  DS (add32 t1 t2) (h0 s) (h1 s) (h2 s) (add32 (h3 s) t1) (h4 s) (h5 s) (h6 s).

Definition compress (s : digest_state) (block : list Z) : digest_state :=
  let r := List.fold_left round (List.combine K (schedule block)) s in
  DS (add32 (h0 s) (h0 r)) (add32 (h1 s) (h1 r)) (add32 (h2 s) (h2 r))
     (add32 (h3 s) (h3 r)) (add32 (h4 s) (h4 r)) (add32 (h5 s) (h5 r))
     (add32 (h6 s) (h6 r)) (add32 (h7 s) (h7 r)).

(** Sixteen-word blocks of the padded message; [fuel] bounds their number. *)
Fixpoint blocks (fuel : nat) (ws : list Z) : list (list Z) :=
  match fuel, ws with
  | S f, _ :: _ => List.firstn 16 ws :: blocks f (List.skipn 16 ws)
  | _, _ => []
  end.

Definition state_bytes (s : digest_state) : list Z :=
  be_bytes 4 (h0 s) ++ be_bytes 4 (h1 s) ++ be_bytes 4 (h2 s) ++ be_bytes 4 (h3 s) ++
  be_bytes 4 (h4 s) ++ be_bytes 4 (h5 s) ++ be_bytes 4 (h6 s) ++ be_bytes 4 (h7 s).

(** [Sum256]: the 32-byte digest of a byte sequence. *)
Definition Sum256 (msg : list Z) : list Z :=
  let ws := words (pad msg) in
  state_bytes (List.fold_left compress (blocks (List.length ws) ws) init).

End SHA256.

(** ** Bytes of a string, encoding/hex *)

Definition bytes_of_string (s : string) : list Z :=
  List.map (fun c => Z.of_N (N_of_ascii c)) (list_ascii_of_string s).

Definition hex_digit (n : Z) : ascii :=
  List.nth (Z.to_nat n)
    ["0"; "1"; "2"; "3"; "4"; "5"; "6"; "7"; "8"; "9"; "a"; "b"; "c"; "d"; "e"; "f"]%char
    "0"%char.

(** hex.EncodeToString: two lower-case digits per byte. *)
Fixpoint EncodeToString (bs : list Z) : string :=
  match bs with
  | [] => EmptyString
  | b :: rest =>
      String (hex_digit (Z.shiftr b 4)) (String (hex_digit (Z.land b 15)) (EncodeToString rest))
  end.

(** [hex.EncodeToString(sha256.Sum256([]byte(s))[0:])]. *)
Definition sha256_hex (s : string) : string :=
  EncodeToString (SHA256.Sum256 (bytes_of_string s)).

(** ** Package strings *)

Local Open Scope nat_scope.

(** [strings.Join(elems, sep)]. *)
Definition Join (elems : list string) (sep : string) : string := String.concat sep elems.

(** [strings.HasPrefix(s, prefix)]. *)
Definition HasPrefix (s pre : string) : bool := String.prefix pre s.

(** [strings.Contains(s, substr)]. *)
Fixpoint Contains (s sub : string) : bool :=
  String.prefix sub s ||
  match s with
  | EmptyString => false
  | String _ s' => Contains s' sub
  end.

(** [strings.ReplaceAll(s, old, new)] for a non-empty [old]: the leftmost
    occurrences are replaced and never overlap; [skip] counts the bytes of
    the occurrence just replaced that are still to be stepped over. *)
Fixpoint replace_from (skip : nat) (old new s : string) : string :=
  match s with
  | EmptyString => EmptyString
  | String c s' =>
      match skip with
      | S k => replace_from k old new s'
      | O =>
          if String.prefix old s
          then new +:+ replace_from (String.length old - 1) old new s'
          else String c (replace_from 0 old new s')
      end
  end.

Definition ReplaceAll (s old new : string) : string := replace_from 0 old new s.

(** [s[lo:hi]] of a string, for [lo <= hi <= len(s)] (Go panics otherwise;
    every slice below is taken under a guard that excludes the panic). *)
Definition slice (s : string) (lo hi : nat) : string := String.substring lo (hi - lo) s.

(** What [ReplaceAll s ".-" "-"] computes, by direct recursion. *)
Fixpoint strip_dot_dash (s : string) : string :=
  match s with
  | EmptyString => EmptyString
  | String c s' =>
      match s' with
      | String d s'' =>
          if Ascii.eqb c "." && Ascii.eqb d "-"
          then String "-" (strip_dot_dash s'')
          else String c (strip_dot_dash s')
      | EmptyString => String c EmptyString
      end
  end.

(** Every byte of the string satisfies [p]. *)
Fixpoint all_bytes (p : ascii -> bool) (s : string) : bool :=
  match s with
  | EmptyString => true
  | String c s' => p c && all_bytes p s'
  end.

Definition is_hex_digit (c : ascii) : bool :=
  existsb (Ascii.eqb c)
    ["0"; "1"; "2"; "3"; "4"; "5"; "6"; "7"; "8"; "9"; "a"; "b"; "c"; "d"; "e"; "f"]%char.

(** ** Naming helpers (translate package) *)

(** [[
func SafeConcatName(name ...string) string {
	fullPath := strings.Join(name, "-")
	if len(fullPath) > 63 {
		digest := sha256.Sum256([]byte(fullPath))
		return strings.ReplaceAll(fullPath[0:52]+"-"+hex.EncodeToString(digest[0:])[0:10], ".-", "-")
	}
	return fullPath
}
]] *)
Definition SafeConcatName (name : list string) : string :=
  let fullPath := Join name "-" in
  if 63 <? String.length fullPath
  then ReplaceAll (slice fullPath 0 52 +:+ "-" +:+ slice (sha256_hex fullPath) 0 10) ".-" "-"
  else fullPath.


(** ** More of package strings, package sort, Go maps *)

(** The one-byte string "\n". *)
Definition nl : string := String "010" EmptyString.

(** [strings.Split(s, sep)] for a non-empty [sep]; [cur] is the piece being
    read, [skip] as in [replace_from]. *)
Fixpoint split_from (skip : nat) (sep cur s : string) : list string :=
  match s with
  | EmptyString => [cur]
  | String c s' =>
      match skip with
      | S k => split_from k sep cur s'
      | O =>
          if String.prefix sep s
          then cur :: split_from (String.length sep - 1) sep EmptyString s'
          else split_from 0 sep (cur +:+ String c EmptyString) s'
      end
  end.

Definition Split (s sep : string) : list string := split_from 0 sep EmptyString s.

(** [sort.Strings]: ascending in Go's string order, which compares bytes. *)
Fixpoint insert_sorted (x : string) (l : list string) : list string :=
  match l with
  | [] => [x]
  | y :: l' => if String.leb x y then x :: l else y :: insert_sorted x l'
  end.

Definition sort_Strings (l : list string) : list string :=
  List.fold_right insert_sorted [] l.

(** [[
func exists(a []string, k string) bool {
	for _, i := range a {
		if i == k {
			return true
		}
	}
	return false
}
]] *)
Fixpoint exists_ (a : list string) (k : string) : bool :=
  match a with
  | [] => false
  | i :: a' => if String.eqb i k then true else exists_ a' k
  end.

(** A [map[string]string] value: [None] is the nil map.  Reading a nil map
    behaves as reading an empty one. *)
Definition GoMap : Type := option (gmap string string).

Definition entries (m : GoMap) : list (string * string) :=
  match m with
  | None => []
  | Some g => map_to_list g
  end.

(** [m[k]], the zero value when the key is absent. *)
Definition index (m : GoMap) (k : string) : string :=
  match m with
  | None => EmptyString
  | Some g => default EmptyString (g !! k)
  end.

(** [for k, v := range m { acc = body(k, v, acc) }].  Go leaves the order of
    the iteration unspecified: [range_list] runs the body over the entries in
    a given order, [range] in the order of [map_to_list]. *)
Definition range_list {A : Type} (l : list (string * string))
    (body : string -> string -> A -> A) (acc : A) : A :=
  List.fold_left (fun a kv => body (fst kv) (snd kv) a) l acc.

Definition range {A : Type} (m : GoMap) (body : string -> string -> A -> A) (acc : A) : A :=
  range_list (entries m) body acc.

(** ** Metadata merge *)

(** [[
func copyMaps(fromMap, toMap map[string]string, excludeKey func(string) bool) map[string]string {
	retMap := map[string]string{}
	for k, v := range fromMap {
		if excludeKey != nil && excludeKey(k) {
			continue
		}
		retMap[k] = v
	}
	for key := range toMap {
		if excludeKey != nil && excludeKey(key) {
			value, ok := toMap[key]
			if ok {
				retMap[key] = value
			}
		}
	}
	return retMap
}
]] *)
Definition excludes (excludeKey : option (string -> bool)) (k : string) : bool :=
  match excludeKey with
  | None => false
  | Some f => f k
  end.

Definition copyMaps (fromMap toMap : GoMap) (excludeKey : option (string -> bool))
  : gmap string string :=
  let retMap :=
    range fromMap (fun k v ret => if excludes excludeKey k then ret else <[k := v]> ret) ∅ in
  range toMap (fun key value ret => if excludes excludeKey key then <[key := value]> ret else ret)
    retMap.

Record ApplyMapsOptions : Type := {
  ManagedKeys : list string;
  ExcludeKeys : list string }.

(** [[
func applyMaps(fromMap, toMap map[string]string, opts ApplyMapsOptions) (map[string]string, string) {
	retMap := map[string]string{}
	managedKeys := []string{}
	for k, v := range fromMap {
		if exists(opts.ExcludeKeys, k) {
			continue
		}
		retMap[k] = v
		managedKeys = append(managedKeys, k)
	}
	for key, value := range toMap {
		if exists(opts.ExcludeKeys, key) {
			retMap[key] = value
			continue
		} else if exists(managedKeys, key) || exists(opts.ManagedKeys, key) {
			continue
		}
		retMap[key] = value
	}
	sort.Strings(managedKeys)
	managedKeysStr := strings.Join(managedKeys, "\n")
	return retMap, managedKeysStr
}
]] *)
Definition applyMaps_in_order (fromEntries toEntries : list (string * string))
    (opts : ApplyMapsOptions) : gmap string string * string :=
  let '(retMap, managedKeys) :=
    range_list fromEntries
      (fun k v '(ret, managed) =>
         if exists_ (ExcludeKeys opts) k then (ret, managed)
         else (<[k := v]> ret, managed ++ [k]))
      (∅, []) in
  let retMap :=
    range_list toEntries
      (fun key value ret =>
         if exists_ (ExcludeKeys opts) key then <[key := value]> ret
         else if exists_ managedKeys key || exists_ (ManagedKeys opts) key then ret
         else <[key := value]> ret)
      retMap in
  (retMap, Join (sort_Strings managedKeys) nl).

Definition applyMaps (fromMap toMap : GoMap) (opts : ApplyMapsOptions)
  : gmap string string * string :=
  applyMaps_in_order (entries fromMap) (entries toMap) opts.

(** ** Kubernetes objects (the fields this package reads and writes) *)

Record OwnerReference : Type := {
  ref_APIVersion : string;
  ref_Kind : string;
  ref_Name : string;
  ref_UID : string;
  ref_Controller : option bool }.          (* *bool *)

(** A [client.Object]: type meta and object meta. *)
Record Object : Type := {
  obj_APIVersion : string;
  obj_Kind : string;
  obj_Name : string;
  obj_Namespace : string;
  obj_UID : string;
  obj_Labels : GoMap;
  obj_Annotations : GoMap;
  obj_OwnerReferences : list OwnerReference }.

(** [metav1.GetControllerOf]: the first owner reference whose [Controller]
    pointer is set and true. *)
Fixpoint GetControllerOf (refs : list OwnerReference) : option OwnerReference :=
  match refs with
  | [] => None
  | r :: refs' =>
      match ref_Controller r with
      | Some true => Some r
      | _ => GetControllerOf refs'
      end
  end.

Record LabelSelectorRequirement : Type := {
  req_Key : string;
  req_Operator : string;
  req_Values : list string }.

Record LabelSelector : Type := {
  MatchLabels : GoMap;
  MatchExpressions : list LabelSelectorRequirement }.

(** ** The sync context and its mapping store *)

(** Modelled from the spec: the mapping store is declared outside src/.  The
    specification gives its contract as [RecordForwardKey(direction,
    sourceKey, derivedKey)] and [LookupReverseKey(direction, hostKey) ->
    (virtualKey, found)] with read-your-writes and last-write-wins; for
    cluster-scoped label keys that is a table from host key to virtual key. *)
Record Store : Type := {
  labelsCluster : gmap string string }.

Definition RecordLabelCluster (st : Store) (virtualLabel hostLabel : string) : Store :=
  {| labelsCluster := <[hostLabel := virtualLabel]> (labelsCluster st) |}.

Definition HostToVirtualLabelCluster (st : Store) (pLabel : string) : string * bool :=
  match labelsCluster st !! pLabel with
  | Some vLabel => (vLabel, true)
  | None => (EmptyString, false)
  end.

(** What a [*synccontext.SyncContext] points to, as far as this package
    reads it: the store behind [ctx.Mappings.Store()] ([None] when
    [ctx.Mappings] or the store is nil) and the configured always-synced
    label keys. *)
Record SyncContext : Type := {
  Mappings : option Store;
  SyncedLabels : list string }.

(** A [ctx] argument: [None] is the nil pointer.  Code that writes through
    the pointer is a state transformer on it. *)
Definition Ctx : Type := option SyncContext.

Definition Sync (A : Type) : Type := Ctx -> A * Ctx.

Definition ret {A : Type} (a : A) : Sync A := fun ctx => (a, ctx).

Definition bind {A B : Type} (m : Sync A) (k : A -> Sync B) : Sync B :=
  fun ctx => let '(a, ctx') := m ctx in k a ctx'.

Notation "x <- m ;; k" := (bind m (fun x => k))
  (at level 100, m at next level, right associativity).

(** Modelled from the spec: [keyMatchesSyncedLabels] is declared outside
    src/.  The specification describes it as the test whether the key
    "already matches a small set of always-synced system labels"; the set is
    read from the context. *)
Definition keyMatchesSyncedLabels (ctx : Ctx) (key : string) : bool :=
  match ctx with
  | None => false
  | Some c => exists_ (SyncedLabels c) key
  end.

(** Modelled from the spec: [recordLabelCluster] is declared outside src/.
    It records the pair in the mapping store when there is a context with a
    store, and does nothing otherwise.  A pair with an empty side is no
    mapping and is not recorded: the reverse translation calls it with an
    empty virtual key after a miss, and the specification has the forward
    translation as "the only place new store entries are created". *)
Definition recordLabelCluster (virtualLabel hostLabel : string) : Sync unit :=
  fun ctx =>
    match ctx with
    | Some c =>
        match Mappings c with
        | Some st =>
            if String.eqb virtualLabel "" || String.eqb hostLabel "" then (tt, ctx)
            else
              (tt, Some {| Mappings := Some (RecordLabelCluster st virtualLabel hostLabel);
                           SyncedLabels := SyncedLabels c |})
        | None => (tt, ctx)
        end
    | None => (tt, ctx)
    end.

(** The methods of the [Translator] interface that this package calls on
    [Default]. *)
Class Translator (T : Type) : Type := {
  SingleNamespaceTarget : T -> bool;
  MarkerLabelCluster : T -> string;
  HostLabel : T -> string -> string -> Sync string;
  VirtualLabel : T -> string -> string -> Sync (string * bool);
  HostLabelCluster : T -> string -> Sync string;
  VirtualLabelCluster : T -> string -> Sync (string * bool) }.

(** [[
type multiNamespace struct {
	currentNamespace string
}
]] *)
Record multiNamespace : Type := {
  currentNamespace : string }.

Definition NewMultiNamespaceTranslator (currentNamespace : string) : multiNamespace :=
  {| currentNamespace := currentNamespace |}.

(** [[
func getNamespaceSuffix(currentNamespace, suffix string) string {
	sha := sha256.Sum256([]byte(currentNamespace + "x" + suffix))
	return hex.EncodeToString(sha[0:])[0:8]
}
]] *)
Definition getNamespaceSuffix (currentNamespace suffix : string) : string :=
  slice (sha256_hex (currentNamespace +:+ "x" +:+ suffix)) 0 8.

(** [[
func hostNamespace(currentNamespace, vNamespace, prefix, suffix string) string {
	sha := sha256.Sum256([]byte(vNamespace))
	return fmt.Sprintf("%s-%s-%s", prefix, hex.EncodeToString(sha[0:])[0:8], getNamespaceSuffix(currentNamespace, suffix))
}
]] *)
Definition hostNamespace (currentNamespace vNamespace pre suffix : string) : string :=
  pre +:+ "-" +:+ slice (sha256_hex vNamespace) 0 8 +:+ "-" +:+
  getNamespaceSuffix currentNamespace suffix.

Definition multiNamespace_SingleNamespaceTarget (s : multiNamespace) : bool := false.

Definition multiNamespace_getNamespacePrefix (s : multiNamespace) : string := "vcluster".

Definition multiNamespace_HostName (s : multiNamespace) (name _ns : string) : string := name.

Definition multiNamespace_HostNameShort (s : multiNamespace) (name _ns : string) : string := name.

Definition multiNamespace_VirtualLabel (s : multiNamespace) (pLabel _ns : string)
  : Sync (string * bool) := ret (pLabel, true).

Definition multiNamespace_HostLabel (s : multiNamespace) (vLabel _ns : string)
  : Sync string := ret vLabel.

(** [for k, v := range m { ... }] with a body that may write through [ctx],
    over the entries in a given order. *)
Fixpoint range_sync {A : Type} (l : list (string * string))
    (body : string -> string -> A -> Sync A) (acc : A) : Sync A :=
  match l with
  | [] => ret acc
  | kv :: l' => a <- body (fst kv) (snd kv) acc ;; range_sync l' body a
  end.

(** ** Errors *)

Inductive StatusReason : Set :=
  | StatusReasonNotFound
  | StatusReasonAlreadyExists
  | StatusReasonOther.

(** Go [error] values, as far as this package tells them apart. *)
Inductive error : Set :=
  | StatusError (reason : StatusReason) (msg : string)   (* *kerrors.StatusError *)
  | errorString (msg : string)                           (* errors.New, fmt.Errorf without %w *)
  | wrapError (msg : string) (err : error).              (* fmt.Errorf("msg: %w"), errors.Wrap *)

(** [err.Error()]. *)
Fixpoint Error (e : error) : string :=
  match e with
  | StatusError _ msg => msg
  | errorString msg => msg
  | wrapError msg err => msg +:+ ": " +:+ Error err
  end.

(** [kerrors.IsNotFound] and [kerrors.IsAlreadyExists] look for a status
    error through the chain of wrapped errors. *)
Fixpoint ReasonForError (e : error) : StatusReason :=
  match e with
  | StatusError reason _ => reason
  | errorString _ => StatusReasonOther
  | wrapError _ err => ReasonForError err
  end.

Definition IsNotFound (e : error) : bool :=
  match ReasonForError e with StatusReasonNotFound => true | _ => false end.

Definition IsAlreadyExists (e : error) : bool :=
  match ReasonForError e with StatusReasonAlreadyExists => true | _ => false end.

Inductive result (A : Type) : Type :=
  | Ok (a : A)
  | Err (e : error).
Arguments Ok {A} a.
Arguments Err {A} e.

(** ** Group, version, kind *)

Record GroupVersionKind : Type := {
  gvk_Group : string;
  gvk_Version : string;
  gvk_Kind : string }.

Record GroupVersionResource : Type := {
  gvr_Group : string;
  gvr_Version : string;
  gvr_Resource : string }.

(** [gvk.String()]. *)
Definition GroupVersionKind_String (gvk : GroupVersionKind) : string :=
  gvk_Group gvk +:+ "/" +:+ gvk_Version gvk +:+ ", Kind=" +:+ gvk_Kind gvk.

(** [gvk.GroupVersion().String()]. *)
Definition GroupVersion_String (gvk : GroupVersionKind) : string :=
  if 0 <? String.length (gvk_Group gvk)
  then gvk_Group gvk +:+ "/" +:+ gvk_Version gvk
  else gvk_Version gvk.

(** [gvr.GroupResource().String()]. *)
Definition GroupResource_String (group resource : string) : string :=
  if String.length group =? 0 then resource else resource +:+ "." +:+ group.

(** [kerrors.NewNotFound(schema.GroupResource{Group: group}, name)]. *)
Definition NewNotFound (group name : string) : error :=
  StatusError StatusReasonNotFound
    (GroupResource_String group "" +:+ " " +:+ String "034" name +:+ String "034" " not found").

(** ** Custom resource definitions and the API servers *)

Record APIResource : Type := {
  res_Name : string;
  res_Namespaced : bool;
  res_Group : string;
  res_Kind : string }.

Record CustomResourceSubresources : Type := {
  sub_Status : option unit;          (* *CustomResourceSubresourceStatus *)
  sub_Scale : option unit }.

Record CustomResourceDefinitionVersion : Type := {
  ver_Name : string;
  ver_Served : bool;
  ver_Storage : bool;
  ver_Subresources : option CustomResourceSubresources }.

Inductive ResourceScope : Set := ClusterScoped | NamespaceScoped.

Record CustomResourceDefinitionCondition : Type := {
  cond_Type : string;
  cond_Status : string;
  cond_Message : string }.

Record CustomResourceDefinition : Type := {
  crd_Name : string;
  crd_UID : string;
  crd_ResourceVersion : string;
  crd_ManagedFields : list string;
  crd_OwnerReferences : list OwnerReference;
  crd_Scope : ResourceScope;
  crd_PreserveUnknownFields : bool;
  crd_Conversion : option string;            (* *CustomResourceConversion *)
  crd_Versions : list CustomResourceDefinitionVersion;
  crd_Conditions : list CustomResourceDefinitionCondition }.

(** What a [*rest.Config] gives access to: the answers of the API server
    behind it.  [crd_Get n name] is the answer to the [n]-th [Get] of a
    definition made through the client during one run (the answers change
    while the definition is being established). *)
Record Cluster : Type := {
  NewForConfig : option error;
  NewDiscoveryClientForConfig : option error;
  ServerResourcesForGroupVersion : string -> result (list APIResource);
  crd_Get : nat -> string -> result CustomResourceDefinition;
  crd_Create : CustomResourceDefinition -> option error }.

(** A [context.Context]: [ctx_Err i] is [ctx.Err()] when the wait looks at
    the context for the [i]-th time ([None] while it is not done). *)
Record Context : Type := {
  ctx_Err : nat -> option error }.

Inductive LogEntry : Type :=
  | LogInfo (msg : string)
  | LogError (err : error) (msg : string).

(** [[
func KindExists(config *rest.Config, groupVersionKind schema.GroupVersionKind) (metav1.APIResource, error) {
	discoveryClient, err := discovery.NewDiscoveryClientForConfig(config)
	if err != nil {
		return metav1.APIResource{}, err
	}
	resources, err := discoveryClient.ServerResourcesForGroupVersion(groupVersionKind.GroupVersion().String())
	if err != nil {
		return metav1.APIResource{}, err
	}
	for _, r := range resources.APIResources {
		if r.Kind == groupVersionKind.Kind {
			return r, nil
		}
	}
	return metav1.APIResource{}, kerrors.NewNotFound(schema.GroupResource{Group: groupVersionKind.Group}, groupVersionKind.Kind)
}
]] *)
Definition KindExists (config : Cluster) (groupVersionKind : GroupVersionKind)
  : result APIResource :=
  match NewDiscoveryClientForConfig config with
  | Some err => Err err
  | None =>
      match ServerResourcesForGroupVersion config (GroupVersion_String groupVersionKind) with
      | Err err => Err err
      | Ok resources =>
          match List.find (fun r => String.eqb (res_Kind r) (gvk_Kind groupVersionKind)) resources with
          | Some r => Ok r
          | None => Err (NewNotFound (gvk_Group groupVersionKind) (gvk_Kind groupVersionKind))
          end
      end
  end.

(** [ConvertKindToResource]: the same search, returning
    [groupVersionKind.GroupVersion().WithResource(r.Name)]. *)
Definition ConvertKindToResource (config : Cluster) (groupVersionKind : GroupVersionKind)
  : result GroupVersionResource :=
  match NewDiscoveryClientForConfig config with
  | Some err => Err err
  | None =>
      match ServerResourcesForGroupVersion config (GroupVersion_String groupVersionKind) with
      | Err err => Err err
      | Ok resources =>
          match List.find (fun r => String.eqb (res_Kind r) (gvk_Kind groupVersionKind)) resources with
          | Some r => Ok {| gvr_Group := gvk_Group groupVersionKind;
                            gvr_Version := gvk_Version groupVersionKind;
                            gvr_Resource := res_Name r |}
          | None => Err (NewNotFound (gvk_Group groupVersionKind) (gvk_Kind groupVersionKind))
          end
      end
  end.

(** ** Waiting for a condition *)

(** Run [body] up to [p] times, threading the state, until it returns a
    result; the number of rounds is held in binary. *)
Fixpoint iterate {St R : Type} (p : positive) (body : St -> St + R) (s : St) : St + R :=
  match p with
  | xH => body s
  | xO p' =>
      match iterate p' body s with
      | inl s' => iterate p' body s'
      | inr r => inr r
      end
  | xI p' =>
      match body s with
      | inl s' =>
          match iterate p' body s' with
          | inl s'' => iterate p' body s''
          | inr r => inr r
          end
      | inr r => inr r
      end
  end.


Definition ErrWaitTimeout : error := errorString "timed out waiting for the condition".

Definition MaxInt32 : Z := 2147483647.

(** [wait.ExponentialBackoffWithContext(ctx, backoff, condition)]:
[[
	for backoff.Steps > 0 {
		select {
		case <-ctx.Done():
			return ctx.Err()
		default:
		}
		if ok, err := runConditionWithCrashProtectionWithContext(ctx, condition); err != nil || ok {
			return err
		}
		if backoff.Steps == 1 {
			break
		}
		waitBeforeRetry := backoff.Step()
		select {
		case <-ctx.Done():
			return ctx.Err()
		case <-time.After(waitBeforeRetry):
		}
	}
	return ErrWaitTimeout
]]
    Time is not modelled: the delays of the backoff (one second, factor 1.5,
    capped at a minute) do not appear, and a context that ends during a delay
    is seen at the next look at it.  [condition i] is the [i]-th call of the
    condition, with the lines it logs. *)
Definition wait_round (ctx : Context)
    (condition : nat -> list LogEntry * (bool * option error))
    (s : nat * list LogEntry) : (nat * list LogEntry) + (list LogEntry * option error) :=
  let '(i, logs) := s in
  match ctx_Err ctx i with
  | Some e => inr (logs, Some e)
  | None =>
      let '(lines, (ok, err)) := condition i in
      match err with
      | Some e => inr (logs ++ lines, Some e)
      | None => if ok then inr (logs ++ lines, None) else inl (S i, logs ++ lines)
      end
  end.

Definition ExponentialBackoffWithContext (ctx : Context) (steps : Z)
    (condition : nat -> list LogEntry * (bool * option error))
  : list LogEntry * option error :=
  if (steps <=? 0)%Z then ([], Some ErrWaitTimeout)
  else
    match iterate (Z.to_pos steps) (wait_round ctx condition) (0, []) with
    | inl (_, logs) => (logs, Some ErrWaitTimeout)
    | inr r => r
    end.
Arguments ExponentialBackoffWithContext : simpl never.


(** ** The schema reconciler *)

Definition hasStatus (version : CustomResourceDefinitionVersion) : bool :=
  match ver_Subresources version with
  | Some sub => match sub_Status sub with Some _ => true | None => false end
  | None => false
  end.

(** The first version of the definition with the requested name (the loops
    over [crdDefinition.Spec.Versions] stop at it). *)
Definition findVersion (crd : CustomResourceDefinition) (name : string)
  : option CustomResourceDefinitionVersion :=
  List.find (fun version => String.eqb (ver_Name version) name) (crd_Versions crd).

Definition Established : string := "Established".
Definition ConditionTrue : string := "True".

(** The condition polled while waiting:
[[
		crdDefinition, err := vClient.ApiextensionsV1().CustomResourceDefinitions().Get(ctx, groupVersionResource.GroupResource().String(), metav1.GetOptions{})
		if err != nil {
			return false, errors.Wrap(err, "retrieve crd in virtual cluster")
		}
		message := ""
		for _, cond := range crdDefinition.Status.Conditions {
			if cond.Type == apiextensionsv1.Established && cond.Status == apiextensionsv1.ConditionTrue {
				return true, nil
			} else if cond.Type == apiextensionsv1.Established {
				message = cond.String()
			}
		}
		klog.FromContext(ctx).Info("CRD is not ready yet", "crd", groupVersionKind.String(), "message", message)
		return false, nil
]] *)
Definition isEstablished (crd : CustomResourceDefinition) : bool :=
  existsb (fun cond => String.eqb (cond_Type cond) Established
                       && String.eqb (cond_Status cond) ConditionTrue)
    (crd_Conditions crd).

Definition crdReady (vConfig : Cluster) (name : string) (i : nat)
  : list LogEntry * (bool * option error) :=
  match crd_Get vConfig i name with
  | Err err => ([], (false, Some (wrapError "retrieve crd in virtual cluster" err)))
  | Ok crdDefinition =>
      if isEstablished crdDefinition then ([], (true, None))
      else ([LogInfo "CRD is not ready yet"], (false, None))
  end.

(** The definition sent to the virtual cluster:
[[
	crdDefinition.UID = ""
	crdDefinition.ResourceVersion = ""
	crdDefinition.ManagedFields = nil
	crdDefinition.OwnerReferences = nil
	crdDefinition.Status = apiextensionsv1.CustomResourceDefinitionStatus{}
	crdDefinition.Spec.PreserveUnknownFields = false
	crdDefinition.Spec.Conversion = nil

	// make sure we only store the version we care about
	newVersions := []apiextensionsv1.CustomResourceDefinitionVersion{}
	for _, version := range crdDefinition.Spec.Versions {
		if version.Name == groupVersionKind.Version {
			version.Served = true
			version.Storage = true
			newVersions = append(newVersions, version)
			...
			break
		}
	}
	crdDefinition.Spec.Versions = newVersions
]] *)
Definition mirroredDefinition (crd : CustomResourceDefinition) (version : string)
  : CustomResourceDefinition :=
  {| crd_Name := crd_Name crd;
     crd_UID := "";
     crd_ResourceVersion := "";
     crd_ManagedFields := [];
     crd_OwnerReferences := [];
     crd_Scope := crd_Scope crd;
     crd_PreserveUnknownFields := false;
     crd_Conversion := None;
     crd_Versions :=
       match findVersion crd version with
       | Some v => [ {| ver_Name := ver_Name v; ver_Served := true; ver_Storage := true;
                        ver_Subresources := ver_Subresources v |} ]
       | None => []
       end;
     crd_Conditions := [] |}.

(** The name under which an existing kind's definition is fetched:
[[
		crdName := apiResource.Name
		if apiResource.Group != "" {
			crdName += "." + apiResource.Group
		} else if groupVersionKind.Group != "" {
			crdName += "." + groupVersionKind.Group
		}
]] *)
Definition existingCRDName (apiResource : APIResource) (groupVersionKind : GroupVersionKind)
  : string :=
  if negb (String.eqb (res_Group apiResource) "")
  then res_Name apiResource +:+ "." +:+ res_Group apiResource
  else if negb (String.eqb (gvk_Group groupVersionKind) "")
  then res_Name apiResource +:+ "." +:+ gvk_Group groupVersionKind
  else res_Name apiResource.

(** [groupVersionResource.GroupResource().String()]. *)
Definition hostCRDName (groupVersionResource : GroupVersionResource) : string :=
  GroupResource_String (gvr_Group groupVersionResource) (gvr_Resource groupVersionResource).

(** [func EnsureCRDFromPhysicalCluster(ctx context.Context, pConfig *rest.Config, vConfig *rest.Config, groupVersionKind schema.GroupVersionKind) (bool, bool, error)],
    with the lines it logs.  The three results are [isClusterScoped],
    [hasStatusSubresource] and the error ([None] is nil). *)
Definition EnsureCRDFromPhysicalCluster (ctx : Context) (pConfig vConfig : Cluster)
    (groupVersionKind : GroupVersionKind) : (bool * bool * option error) * list LogEntry :=
  match NewForConfig vConfig with
  | Some err => ((false, false, Some err), [])
  | None =>
  match KindExists vConfig groupVersionKind with
  | Ok apiResource =>
      let isClusterScoped := negb (res_Namespaced apiResource) in
      let logs := [LogInfo "CRD already exists in virtual cluster, checking for status subresource."] in
      let crdName := existingCRDName apiResource groupVersionKind in
      match crd_Get vConfig 0 crdName with
      | Err err =>
          ((isClusterScoped, false, None),
           logs ++ [LogError err "Error getting CRD in the virtual cluster"])
      | Ok crdDefinition =>
          let hasStatusSubresource :=
            match findVersion crdDefinition (gvk_Version groupVersionKind) with
            | Some version => hasStatus version
            | None => false
            end in
          ((isClusterScoped, hasStatusSubresource, None), logs)
      end
  | Err err =>
  if negb (IsNotFound err)
  then ((false, false, Some (wrapError "check virtual cluster kind" err)), [])
  else
  (* get resource from kind name in physical cluster *)
  match ConvertKindToResource pConfig groupVersionKind with
  | Err err =>
      if IsNotFound err
      then ((false, false,
             Some (errorString ("seems like resource " +:+ GroupVersionKind_String groupVersionKind
                                +:+ " is not available in the physical cluster or vcluster has no access to it"))),
            [])
      else ((false, false, Some err), [])
  | Ok groupVersionResource =>
  (* get crd in physical cluster *)
  match NewForConfig pConfig with
  | Some err => ((false, false, Some err), [])
  | None =>
  let name := hostCRDName groupVersionResource in
  match crd_Get pConfig 0 name with
  | Err err => ((false, false, Some (wrapError "retrieve crd in host cluster" err)), [])
  | Ok hostDefinition =>
  (* now create crd in virtual cluster *)
  let hasStatusSubresource :=
    match findVersion hostDefinition (gvk_Version groupVersionKind) with
    | Some version => hasStatus version
    | None => false
    end in
  let crdDefinition := mirroredDefinition hostDefinition (gvk_Version groupVersionKind) in
  let logs := [LogInfo "Create crd in virtual cluster"] in
  let createErr :=
    match crd_Create vConfig crdDefinition with
    | Some err => if negb (IsAlreadyExists err) then Some err else None
    | None => None
    end in
  match createErr with
  | Some err =>
      ((false, hasStatusSubresource, Some (wrapError "create crd in virtual cluster" err)), logs)
  | None =>
  (* wait for crd to become ready *)
  let logs := logs ++ [LogInfo "Wait for crd to become ready in virtual cluster"] in
  let '(lines, err) :=
    ExponentialBackoffWithContext ctx MaxInt32 (crdReady vConfig name) in
  match err with
  | Some err =>
      ((false, hasStatusSubresource,
        Some (wrapError ("failed to wait for CRD " +:+ GroupVersionKind_String groupVersionKind
                         +:+ " to become ready") err)),
       logs ++ lines)
  | None =>
      (* check if crd is cluster scoped *)
      let isClusterScoped :=
        match crd_Scope crdDefinition with ClusterScoped => true | NamespaceScoped => false end in
      ((isClusterScoped, hasStatusSubresource, None), logs ++ lines)
  end
  end
  end end end end end.


(** Sorted lists and permutations, for [sort.Strings]. *)
From Stdlib Require Import Sorted.
From stdpp Require sorting.

(** ** Suffixes, white space, bounded splitting *)

(** [strings.HasSuffix(s, suffix)]:
    [len(s) >= len(suffix) && s[len(s)-len(suffix):] == suffix]. *)
Definition HasSuffix (s suffix : string) : bool :=
  (String.length suffix <=? String.length s)
  && String.eqb (slice s (String.length s - String.length suffix) (String.length s)) suffix.

(** The UTF-8 encodings of the code points for which [unicode.IsSpace]
    holds: U+0009 to U+000D, U+0020, U+0085, U+00A0, U+1680, U+2000 to
    U+200A, U+2028, U+2029, U+202F, U+205F and U+3000.  No encoding is a
    prefix of another one. *)
Definition utf8_2 (a b : ascii) : string := String a (String b EmptyString).
Definition utf8_3 (a b c : ascii) : string := String a (String b (String c EmptyString)).

Definition unicode_spaces : list string :=
  [ String "009" EmptyString; String "010" EmptyString; String "011" EmptyString;
    String "012" EmptyString; String "013" EmptyString; String "032" EmptyString;
    utf8_2 "194" "133"; utf8_2 "194" "160";
    utf8_3 "225" "154" "128";
    utf8_3 "226" "128" "128"; utf8_3 "226" "128" "129"; utf8_3 "226" "128" "130";
    utf8_3 "226" "128" "131"; utf8_3 "226" "128" "132"; utf8_3 "226" "128" "133";
    utf8_3 "226" "128" "134"; utf8_3 "226" "128" "135"; utf8_3 "226" "128" "136";
    utf8_3 "226" "128" "137"; utf8_3 "226" "128" "138";
    utf8_3 "226" "128" "168"; utf8_3 "226" "128" "169"; utf8_3 "226" "128" "175";
    utf8_3 "226" "129" "159";
    utf8_3 "227" "128" "128" ].

(** The number of bytes of the white-space character that [s] starts with,
    0 when it starts with none. *)
Definition space_width (spaces : list string) (s : string) : nat :=
  match List.find (fun w => String.prefix w s) spaces with
  | Some w => String.length w
  | None => 0
  end.

(** Drop the leading characters of [s] that are in [spaces]; [skip] counts
    the bytes of the character being dropped that are still to be stepped
    over. *)
Fixpoint trim_from (spaces : list string) (skip : nat) (s : string) : string :=
  match s with
  | EmptyString => EmptyString
  | String _ s' =>
      match skip with
      | S k => trim_from spaces k s'
      | O =>
          match space_width spaces s with
          | O => s
          | S k => trim_from spaces k s'
          end
      end
  end.

Fixpoint string_rev (s : string) : string :=
  match s with
  | EmptyString => EmptyString
  | String c s' => string_rev s' +:+ String c EmptyString
  end.

(** [strings.TrimSpace(s)]: leading and trailing white space removed, "as
    defined by Unicode".  A string ends with a white-space character exactly
    when its reversal starts with the reversed encoding of one. *)
Definition TrimLeft (s : string) : string := trim_from unicode_spaces 0 s.

Definition TrimRight (s : string) : string :=
  string_rev (trim_from (List.map string_rev unicode_spaces) 0 (string_rev s)).

Definition TrimSpace (s : string) : string := TrimRight (TrimLeft s).

(** [strings.SplitN(s, sep, n)] for a non-empty [sep] and [n >= 0]: nil for
    [n = 0], otherwise at most [n] pieces, the last one the unsplit rest.
    [budget] is the number of cuts still allowed; [cur] and [skip] as in
    [split_from]. *)
Fixpoint splitN_from (budget skip : nat) (sep cur s : string) : list string :=
  match s with
  | EmptyString => [cur]
  | String c s' =>
      match skip with
      | S k => splitN_from budget k sep cur s'
      | O =>
          match budget with
          | O => [cur +:+ s]
          | S b =>
              if String.prefix sep s
              then cur :: splitN_from b (String.length sep - 1) sep EmptyString s'
              else splitN_from budget 0 sep (cur +:+ String c EmptyString) s'
          end
      end
  end.

Definition SplitN (s sep : string) (n : nat) : list string :=
  match n with
  | O => []
  | S b => splitN_from b 0 sep EmptyString s
  end.

(** [[
func safeIndex(parts []string, idx int) string {
	if len(parts) <= idx {
		return ""
	}
	return parts[idx]
}
]] *)
Definition safeIndex (parts : list string) (idx : nat) : string :=
  if List.length parts <=? idx then EmptyString else List.nth idx parts EmptyString.

(** The package's own [Split] (the [Split] above is [strings.Split]):
[[
func Split(s, sep string) (string, string) {
	parts := strings.SplitN(s, sep, 2)
	return strings.TrimSpace(parts[0]), strings.TrimSpace(safeIndex(parts, 1))
}
]]
    For a non-empty separator [parts] has one or two elements, so [parts[0]]
    does not panic. *)
Module translate.

Definition Split (s sep : string) : string * string :=
  let parts := SplitN s sep 2 in
  (TrimSpace (List.nth 0 parts EmptyString), TrimSpace (safeIndex parts 1)).

End translate.

(** ** Merging label selectors *)

(** [len(m)] of a map; 0 for the nil map. *)
Definition len (m : GoMap) : nat :=
  match m with
  | None => 0
  | Some g => size g
  end.

(** One round of the loop of [MergeLabelSelectors]:
[[
	for _, selector := range elems {
		if selector == nil {
			continue
		}
		if len(selector.MatchLabels) > 0 {
			if out.MatchLabels == nil {
				out.MatchLabels = make(map[string]string, len(selector.MatchLabels))
			}
			for k, v := range selector.MatchLabels {
				out.MatchLabels[k] = v
			}
		}
		out.MatchExpressions = append(out.MatchExpressions, selector.MatchExpressions...)
	}
]] *)
Definition mergeOne (out : LabelSelector) (selector : option LabelSelector) : LabelSelector :=
  match selector with
  | None => out
  | Some sel =>
      {| MatchLabels :=
           if 0 <? len (MatchLabels sel)
           then
             let outLabels : gmap string string :=
               match MatchLabels out with None => ∅ | Some g => g end in
             Some (range (MatchLabels sel) (fun k v m => <[k := v]> m) outLabels)
           else MatchLabels out;
         MatchExpressions := MatchExpressions out ++ MatchExpressions sel |}
  end.

(** [func MergeLabelSelectors(elems ...*metav1.LabelSelector) *metav1.LabelSelector]:
    the result is never nil; it starts as [&metav1.LabelSelector{}]. *)
Definition MergeLabelSelectors (elems : list (option LabelSelector)) : LabelSelector :=
  List.fold_left mergeOne elems {| MatchLabels := None; MatchExpressions := [] |}.

(** ** Objects with all their metadata *)

(** The fields of [metav1.ObjectMeta] that [ResetObjectMetadata] writes and
    [Object] does not hold.  A [metav1.Time] is a number of seconds, its
    zero value 0; the two pointers are [None] when nil. *)
Record ObjectMetaRest : Type := {
  om_GenerateName : string;
  om_SelfLink : string;
  om_ResourceVersion : string;
  om_Generation : Z;
  om_CreationTimestamp : Z;
  om_DeletionTimestamp : option Z;
  om_DeletionGracePeriodSeconds : option Z;
  om_Finalizers : list string;
  om_ManagedFields : list string }.

(** A value of a concrete type [T client.Object]: what the package reads
    through the interface ([r_Object]), the rest of its object meta, and
    everything else it holds (spec, status, ...) as [r_Body]. *)
Record Resource (Body : Type) : Type := {
  r_Object : Object;
  r_Meta : ObjectMetaRest;
  r_Body : Body }.
Arguments r_Object {Body} r.
Arguments r_Meta {Body} r.
Arguments r_Body {Body} r.

(** [types.NamespacedName]. *)
Record NamespacedName : Type := {
  nn_Namespace : string;
  nn_Name : string }.

(** [[
func ResetObjectMetadata(obj metav1.Object) {
	obj.SetGenerateName("")
	obj.SetSelfLink("")
	obj.SetUID("")
	obj.SetResourceVersion("")
	obj.SetGeneration(0)
	obj.SetCreationTimestamp(metav1.Time{})
	obj.SetDeletionTimestamp(nil)
	obj.SetDeletionGracePeriodSeconds(nil)
	obj.SetOwnerReferences(nil)
	obj.SetFinalizers(nil)
	obj.SetManagedFields(nil)
}
]] *)
Definition ResetObjectMetadata {Body : Type} (obj : Resource Body) : Resource Body :=
  let o := r_Object obj in
  {| r_Object :=
       {| obj_APIVersion := obj_APIVersion o;
          obj_Kind := obj_Kind o;
          obj_Name := obj_Name o;
          obj_Namespace := obj_Namespace o;
          obj_UID := EmptyString;
          obj_Labels := obj_Labels o;
          obj_Annotations := obj_Annotations o;
          obj_OwnerReferences := [] |};
     r_Meta :=
       {| om_GenerateName := EmptyString;
          om_SelfLink := EmptyString;
          om_ResourceVersion := EmptyString;
          om_Generation := 0%Z;
          om_CreationTimestamp := 0%Z;
          om_DeletionTimestamp := None;
          om_DeletionGracePeriodSeconds := None;
          om_Finalizers := [];
          om_ManagedFields := [] |};
     r_Body := r_Body obj |}.

(** The setters of [metav1.Object] used below. *)
Definition SetName {Body : Type} (obj : Resource Body) (name : string) : Resource Body :=
  let o := r_Object obj in
  {| r_Object :=
       {| obj_APIVersion := obj_APIVersion o; obj_Kind := obj_Kind o;
          obj_Name := name; obj_Namespace := obj_Namespace o; obj_UID := obj_UID o;
          obj_Labels := obj_Labels o; obj_Annotations := obj_Annotations o;
          obj_OwnerReferences := obj_OwnerReferences o |};
     r_Meta := r_Meta obj; r_Body := r_Body obj |}.

Definition SetNamespace {Body : Type} (obj : Resource Body) (namespace : string)
  : Resource Body :=
  let o := r_Object obj in
  {| r_Object :=
       {| obj_APIVersion := obj_APIVersion o; obj_Kind := obj_Kind o;
          obj_Name := obj_Name o; obj_Namespace := namespace; obj_UID := obj_UID o;
          obj_Labels := obj_Labels o; obj_Annotations := obj_Annotations o;
          obj_OwnerReferences := obj_OwnerReferences o |};
     r_Meta := r_Meta obj; r_Body := r_Body obj |}.

Definition SetOwnerReferences {Body : Type} (obj : Resource Body)
    (refs : list OwnerReference) : Resource Body :=
  let o := r_Object obj in
  {| r_Object :=
       {| obj_APIVersion := obj_APIVersion o; obj_Kind := obj_Kind o;
          obj_Name := obj_Name o; obj_Namespace := obj_Namespace o; obj_UID := obj_UID o;
          obj_Labels := obj_Labels o; obj_Annotations := obj_Annotations o;
          obj_OwnerReferences := refs |};
     r_Meta := r_Meta obj; r_Body := r_Body obj |}.

Definition SetAnnotations {Body : Type} (obj : Resource Body) (annotations : GoMap)
  : Resource Body :=
  let o := r_Object obj in
  {| r_Object :=
       {| obj_APIVersion := obj_APIVersion o; obj_Kind := obj_Kind o;
          obj_Name := obj_Name o; obj_Namespace := obj_Namespace o; obj_UID := obj_UID o;
          obj_Labels := obj_Labels o; obj_Annotations := annotations;
          obj_OwnerReferences := obj_OwnerReferences o |};
     r_Meta := r_Meta obj; r_Body := r_Body obj |}.

Definition SetLabels {Body : Type} (obj : Resource Body) (labels : GoMap) : Resource Body :=
  let o := r_Object obj in
  {| r_Object :=
       {| obj_APIVersion := obj_APIVersion o; obj_Kind := obj_Kind o;
          obj_Name := obj_Name o; obj_Namespace := obj_Namespace o; obj_UID := obj_UID o;
          obj_Labels := labels; obj_Annotations := obj_Annotations o;
          obj_OwnerReferences := obj_OwnerReferences o |};
     r_Meta := r_Meta obj; r_Body := r_Body obj |}.

(** ** Reading maps, ordering keys *)

(** Reading a map value that may be nil. *)
Definition lookupGo (m : GoMap) (k : string) : option string :=
  match m with
  | None => None
  | Some g => g !! k
  end.

(** Go's order on strings, byte by byte: what [sort.Strings] sorts by. *)
Definition leb_rel (a b : string) : Prop := String.leb a b = true.

(** ** Selectors as the merge builds them *)

(** The labels of a selector that count for a merge: none when the map is
    nil or empty. *)
Definition labelsOf (sel : LabelSelector) : gmap string string :=
  match MatchLabels sel with
  | None => ∅
  | Some g => g
  end.

(** A selector whose label map is nil whenever it is empty, as the merge
    builds them. *)
Definition tidy (sel : LabelSelector) : Prop := MatchLabels sel <> Some ∅.

(** The second result of [applyMaps]: the keys of the source map that are
    not excluded, sorted and joined by "\n". *)
Definition managedKeysOf (fromMap : GoMap) (excluded : list string) : string :=
  Join (sort_Strings
          (List.filter (fun k => negb (exists_ excluded k)) (entries fromMap).*1)) nl.

(** What is stored under a bookkeeping key for a list of managed keys: the
    key is deleted when the list is the empty string. *)
Definition recorded (managedKeys : string) : option string :=
  if String.eqb managedKeys "" then None else Some managedKeys.

(** ** The translators *)

Section Translate.

(** Package-level variables and constants that are declared outside src/;
    the code below only names them. *)
Variable VClusterName : string.
Variables LabelPrefix MarkerLabel NamespaceLabel ControllerLabel NamespaceLabelPrefix : string.
Variables NameAnnotation UIDAnnotation KindAnnotation NamespaceAnnotation : string.
Variables ManagedAnnotationsAnnotation ManagedLabelsAnnotation : string.

(** [var Owner client.Object]; [None] is the nil interface. *)
Variable Owner : option Object.

(** [pro.VirtualNamespaceMatchesMapping]: the administrator-declared
    namespace mappings, consulted but not defined here. *)
Variable pro_VirtualNamespaceMatchesMapping : Ctx -> string -> string * bool.

(** [var Default Translator]. *)
Context {T : Type} {DefaultTranslator : Translator T} (Default : T).

(** *** multi_namespace.go *)

(** [[
func (s *multiNamespace) HostNameCluster(name string) string {
	if name == "" {
		return ""
	}
	return SafeConcatName("vcluster", name, "x", s.currentNamespace, "x", VClusterName)
}
]] *)
Definition multiNamespace_HostNameCluster (s : multiNamespace) (name : string) : string :=
  if String.eqb name "" then ""
  else SafeConcatName ["vcluster"; name; "x"; currentNamespace s; "x"; VClusterName].

(** [[
func (s *multiNamespace) HostNamespace(ctx *synccontext.SyncContext, vNamespace string) string {
	if pNamespace, ok := pro.VirtualNamespaceMatchesMapping(ctx, vNamespace); ok {
		return pNamespace
	}
	return hostNamespace(s.currentNamespace, vNamespace, s.getNamespacePrefix(), VClusterName)
}
]] *)
Definition multiNamespace_HostNamespace (s : multiNamespace) (ctx : Ctx) (vNamespace : string)
  : string :=
  let '(pNamespace, ok) := pro_VirtualNamespaceMatchesMapping ctx vNamespace in
  if ok then pNamespace
  else hostNamespace (currentNamespace s) vNamespace (multiNamespace_getNamespacePrefix s)
         VClusterName.

(** [[
func (s *multiNamespace) MarkerLabelCluster() string {
	return SafeConcatName(s.currentNamespace, "x", VClusterName)
}
]] *)
Definition multiNamespace_MarkerLabelCluster (s : multiNamespace) : string :=
  SafeConcatName [currentNamespace s; "x"; VClusterName].

(** [[
func hostLabelCluster(key, vClusterNamespace string) string {
	digest := sha256.Sum256([]byte(key))
	return SafeConcatName(LabelPrefix, vClusterNamespace, "x", VClusterName, "x", hex.EncodeToString(digest[0:])[0:10])
}
]] *)
Definition hostLabelCluster (key vClusterNamespace : string) : string :=
  SafeConcatName [LabelPrefix; vClusterNamespace; "x"; VClusterName; "x";
                  slice (sha256_hex key) 0 10].

(** [[
func (s *multiNamespace) VirtualLabelCluster(ctx *synccontext.SyncContext, pLabel string) (retLabel string, found bool) {
	if keyMatchesSyncedLabels(ctx, pLabel) {
		return pLabel, true
	} else if !strings.HasPrefix(pLabel, LabelPrefix) {
		return pLabel, true
	}

	defer func() {
		recordLabelCluster(ctx, retLabel, pLabel)
	}()

	// check if the label is within the store
	if ctx != nil && ctx.Mappings != nil && ctx.Mappings.Store() != nil {
		vLabel, ok := ctx.Mappings.Store().HostToVirtualLabelCluster(ctx, pLabel)
		if ok {
			return vLabel, true
		}
	}

	return "", false
}
]]
    The deferred call runs once the results are set: it is the last step. *)
Definition lookupLabelCluster (ctx : Ctx) (pLabel : string) : string * bool :=
  match ctx with
  | Some c =>
      match Mappings c with
      | Some st =>
          let '(vLabel, ok) := HostToVirtualLabelCluster st pLabel in
          if ok then (vLabel, true) else (EmptyString, false)
      | None => (EmptyString, false)
      end
  | None => (EmptyString, false)
  end.

Definition multiNamespace_VirtualLabelCluster (s : multiNamespace) (pLabel : string)
  : Sync (string * bool) :=
  fun ctx =>
    if keyMatchesSyncedLabels ctx pLabel then (pLabel, true, ctx)
    else if negb (HasPrefix pLabel LabelPrefix) then (pLabel, true, ctx)
    else
      let '(retLabel, found) := lookupLabelCluster ctx pLabel in
      (_ <- recordLabelCluster retLabel pLabel ;; ret (retLabel, found)) ctx.

(** [[
func (s *multiNamespace) HostLabelCluster(ctx *synccontext.SyncContext, key string) (retLabel string) {
	if keyMatchesSyncedLabels(ctx, key) {
		return key
	}

	defer func() {
		recordLabelCluster(ctx, key, retLabel)
	}()

	return hostLabelCluster(key, s.currentNamespace)
}
]] *)
Definition multiNamespace_HostLabelCluster (s : multiNamespace) (key : string) : Sync string :=
  fun ctx =>
    if keyMatchesSyncedLabels ctx key then (key, ctx)
    else
      let retLabel := hostLabelCluster key (currentNamespace s) in
      (_ <- recordLabelCluster key retLabel ;; ret retLabel) ctx.

(** [var _ Translator = &multiNamespace{}]. *)
#[local] Instance multiNamespace_Translator : Translator multiNamespace := {|
  SingleNamespaceTarget := multiNamespace_SingleNamespaceTarget;
  MarkerLabelCluster := multiNamespace_MarkerLabelCluster;
  HostLabel := multiNamespace_HostLabel;
  VirtualLabel := multiNamespace_VirtualLabel;
  HostLabelCluster := multiNamespace_HostLabelCluster;
  VirtualLabelCluster := multiNamespace_VirtualLabelCluster |}.

(** *** Label maps *)

(** The "try to translate back" loop:
[[
	for key, value := range retLabels {
		delete(retLabels, key)
		vKey, ok := labelFunc(ctx, key)
		if ok {
			retLabels[vKey] = value
		}
	}
]]
    The map is written while it is ranged over.  The keys visited are those
    present when the loop starts; a key meets the value the map holds for it
    when it is reached.  (Go may or may not visit an entry created during
    the loop; this model does not.) *)
Definition translateBack (labelFunc : string -> Sync (string * bool))
    (retLabels : gmap string string) : Sync (gmap string string) :=
  range_sync (map_to_list retLabels)
    (fun key _ m =>
       match m !! key with
       | None => ret m
       | Some value =>
           r <- labelFunc key ;;
           ret (if snd r then <[fst r := value]> (delete key m) else delete key m)
       end)
    retLabels.

(** [[
func VirtualLabelsMap(ctx *synccontext.SyncContext, pLabels, vLabels map[string]string, vNamespace string, excluded ...string) map[string]string {
	if pLabels == nil {
		return nil
	} else if _, ok := pro.VirtualNamespaceMatchesMapping(ctx, vNamespace); ok || !Default.SingleNamespaceTarget() {
		retMap := map[string]string{}
		maps.Copy(retMap, pLabels)
		return retMap
	}

	excluded = append(excluded, MarkerLabel, NamespaceLabel, ControllerLabel)
	retLabels := copyMaps(pLabels, vLabels, func(key string) bool {
		return exists(excluded, key) || strings.HasPrefix(key, NamespaceLabelPrefix)
	})

	// try to translate back
	for key, value := range retLabels { ... }

	return retLabels
}
]] *)
Definition VirtualLabelsMap (pLabels vLabels : GoMap) (vNamespace : string)
    (excluded : list string) : Sync GoMap :=
  fun ctx =>
    match pLabels with
    | None => (None, ctx)
    | Some p =>
        if snd (pro_VirtualNamespaceMatchesMapping ctx vNamespace)
           || negb (SingleNamespaceTarget Default)
        then (Some p, ctx)
        else
          let excluded := excluded ++ [MarkerLabel; NamespaceLabel; ControllerLabel] in
          let retLabels :=
            copyMaps pLabels vLabels
              (Some (fun key => exists_ excluded key || HasPrefix key NamespaceLabelPrefix)) in
          (m <- translateBack (fun key => VirtualLabel Default key vNamespace) retLabels ;;
           ret (Some m)) ctx
    end.

(** [[
func HostLabelsMap(ctx *synccontext.SyncContext, vLabels, pLabels map[string]string, vNamespace string) map[string]string {
	if vLabels == nil {
		return nil
	} else if _, ok := pro.VirtualNamespaceMatchesMapping(ctx, vNamespace); ok || !Default.SingleNamespaceTarget() {
		retMap := map[string]string{}
		maps.Copy(retMap, vLabels)
		return retMap
	}

	newLabels := map[string]string{}
	for k, v := range vLabels {
		newLabels[Default.HostLabel(ctx, k, vNamespace)] = v
	}

	newLabels[MarkerLabel] = VClusterName
	if vNamespace != "" {
		newLabels[NamespaceLabel] = vNamespace
	} else {
		delete(newLabels, NamespaceLabel)
	}

	// set controller label
	if pLabels[ControllerLabel] != "" {
		newLabels[ControllerLabel] = pLabels[ControllerLabel]
	}

	// add already existing labels back
	for k, v := range pLabels {
		if strings.HasPrefix(k, "vcluster.loft.sh/") {
			continue
		}
		_, ok := newLabels[k]
		if !ok {
			newLabels[k] = v
		}
	}

	return newLabels
}
]] *)
Definition addExisting (pLabels : GoMap) (newLabels : gmap string string)
  : gmap string string :=
  range pLabels
    (fun k v m =>
       if HasPrefix k "vcluster.loft.sh/" then m
       else match m !! k with
            | Some _ => m
            | None => <[k := v]> m
            end)
    newLabels.

Definition HostLabelsMap (vLabels pLabels : GoMap) (vNamespace : string) : Sync GoMap :=
  fun ctx =>
    match vLabels with
    | None => (None, ctx)
    | Some v =>
        if snd (pro_VirtualNamespaceMatchesMapping ctx vNamespace)
           || negb (SingleNamespaceTarget Default)
        then (Some v, ctx)
        else
          (newLabels <-
             range_sync (map_to_list v)
               (fun k v m => hk <- HostLabel Default k vNamespace ;; ret (<[hk := v]> m)) ∅ ;;
           let newLabels := <[MarkerLabel := VClusterName]> newLabels in
           let newLabels :=
             if negb (String.eqb vNamespace "")
             then <[NamespaceLabel := vNamespace]> newLabels
             else delete NamespaceLabel newLabels in
           let newLabels :=
             if negb (String.eqb (index pLabels ControllerLabel) "")
             then <[ControllerLabel := index pLabels ControllerLabel]> newLabels
             else newLabels in
           ret (Some (addExisting pLabels newLabels))) ctx
    end.

(** [[
func VirtualLabelsMapCluster(ctx *synccontext.SyncContext, pLabels, vLabels map[string]string, excluded ...string) map[string]string {
	if pLabels == nil {
		return nil
	}
	excluded = append(excluded, MarkerLabel, ControllerLabel)
	retLabels := copyMaps(pLabels, vLabels, func(key string) bool {
		return exists(excluded, key) || strings.HasPrefix(key, NamespaceLabelPrefix)
	})
	// try to translate back
	for key, value := range retLabels { ... Default.VirtualLabelCluster(ctx, key) ... }
	// add already existing labels back
	for k, v := range pLabels { ... }
	return retLabels
}
]] *)
Definition VirtualLabelsMapCluster (pLabels vLabels : GoMap) (excluded : list string)
  : Sync GoMap :=
  match pLabels with
  | None => ret None
  | Some _ =>
      let excluded := excluded ++ [MarkerLabel; ControllerLabel] in
      let retLabels :=
        copyMaps pLabels vLabels
          (Some (fun key => exists_ excluded key || HasPrefix key NamespaceLabelPrefix)) in
      m <- translateBack (VirtualLabelCluster Default) retLabels ;;
      ret (Some (addExisting pLabels m))
  end.

(** [[
func HostLabelsMapCluster(ctx *synccontext.SyncContext, vLabels, pLabels map[string]string) map[string]string {
	newLabels := map[string]string{}
	for k, v := range vLabels {
		newLabels[Default.HostLabelCluster(ctx, k)] = v
	}
	if pLabels[ControllerLabel] != "" {
		newLabels[ControllerLabel] = pLabels[ControllerLabel]
	}
	newLabels[MarkerLabel] = Default.MarkerLabelCluster()
	return newLabels
}
]] *)
Definition HostLabelsMapCluster (vLabels pLabels : GoMap) : Sync GoMap :=
  newLabels <-
    range_sync (entries vLabels)
      (fun k v m => hk <- HostLabelCluster Default k ;; ret (<[hk := v]> m)) ∅ ;;
  let newLabels :=
    if negb (String.eqb (index pLabels ControllerLabel) "")
    then <[ControllerLabel := index pLabels ControllerLabel]> newLabels
    else newLabels in
  ret (Some (<[MarkerLabel := MarkerLabelCluster Default]> newLabels)).

(** *** Label selectors *)

(** The loop over [labelSelector.MatchLabels] of [virtualLabelSelector], run
    over the entries in a given order:
[[
		for k, v := range labelSelector.MatchLabels {
			pLabel, ok := labelFunc(ctx, k)
			if !ok {
				pLabel = k
			}
			newLabelSelector.MatchLabels[pLabel] = v
		}
]] *)
Definition virtualMatchLabels (labelFunc : string -> Sync (string * bool))
    (l : list (string * string)) : Sync (gmap string string) :=
  range_sync l
    (fun k v m =>
       r <- labelFunc k ;;
       let pLabel := if snd r then fst r else k in
       ret (<[pLabel := v]> m))
    ∅.

(** [[
	for _, r := range labelSelector.MatchExpressions {
		pLabel, ok := labelFunc(ctx, r.Key)
		if !ok {
			pLabel = r.Key
		}
		newLabelSelector.MatchExpressions = append(newLabelSelector.MatchExpressions, metav1.LabelSelectorRequirement{
			Key:      pLabel,
			Operator: r.Operator,
			Values:   r.Values,
		})
	}
]] *)
Definition virtualRequirement (labelFunc : string -> Sync (string * bool))
    (r : LabelSelectorRequirement) : Sync LabelSelectorRequirement :=
  res <- labelFunc (req_Key r) ;;
  let pLabel := if snd res then fst res else req_Key r in
  ret {| req_Key := pLabel; req_Operator := req_Operator r; req_Values := req_Values r |}.

Fixpoint virtualMatchExpressions (labelFunc : string -> Sync (string * bool))
    (rs : list LabelSelectorRequirement) : Sync (list LabelSelectorRequirement) :=
  match rs with
  | [] => ret []
  | r :: rs' =>
      r' <- virtualRequirement labelFunc r ;;
      out <- virtualMatchExpressions labelFunc rs' ;;
      ret (r' :: out)
  end.

(** [func virtualLabelSelector(ctx, labelSelector *metav1.LabelSelector, labelFunc vLabelFunc) *metav1.LabelSelector]:
    nil for a nil selector; [MatchLabels] is rewritten only when it is not
    nil. *)
Definition virtualLabelSelector (labelSelector : option LabelSelector)
    (labelFunc : string -> Sync (string * bool)) : Sync (option LabelSelector) :=
  match labelSelector with
  | None => ret None
  | Some sel =>
      ml <- match MatchLabels sel with
            | None => ret None
            | Some g => m <- virtualMatchLabels labelFunc (map_to_list g) ;; ret (Some m)
            end ;;
      me <- virtualMatchExpressions labelFunc (MatchExpressions sel) ;;
      ret (Some {| MatchLabels := ml; MatchExpressions := me |})
  end.

Definition VirtualLabelSelector (labelSelector : option LabelSelector) (vNamespace : string)
  : Sync (option LabelSelector) :=
  virtualLabelSelector labelSelector (fun key => VirtualLabel Default key vNamespace).


(** [hostLabelSelector]: its [labelFunc] returns the key only, there is no
    miss to report.
[[
		for k, v := range labelSelector.MatchLabels {
			newLabelSelector.MatchLabels[labelFunc(ctx, k)] = v
		}
	...
	for _, r := range labelSelector.MatchExpressions {
		newLabelSelector.MatchExpressions = append(newLabelSelector.MatchExpressions, metav1.LabelSelectorRequirement{
			Key:      labelFunc(ctx, r.Key),
			Operator: r.Operator,
			Values:   r.Values,
		})
	}
]] *)
Definition hostMatchLabels (labelFunc : string -> Sync string)
    (l : list (string * string)) : Sync (gmap string string) :=
  range_sync l (fun k v m => hk <- labelFunc k ;; ret (<[hk := v]> m)) ∅.

Fixpoint hostMatchExpressions (labelFunc : string -> Sync string)
    (rs : list LabelSelectorRequirement) : Sync (list LabelSelectorRequirement) :=
  match rs with
  | [] => ret []
  | r :: rs' =>
      hk <- labelFunc (req_Key r) ;;
      out <- hostMatchExpressions labelFunc rs' ;;
      ret ({| req_Key := hk; req_Operator := req_Operator r; req_Values := req_Values r |}
           :: out)
  end.

Definition hostLabelSelector (labelSelector : option LabelSelector)
    (labelFunc : string -> Sync string) : Sync (option LabelSelector) :=
  match labelSelector with
  | None => ret None
  | Some sel =>
      ml <- match MatchLabels sel with
            | None => ret None
            | Some g => m <- hostMatchLabels labelFunc (map_to_list g) ;; ret (Some m)
            end ;;
      me <- hostMatchExpressions labelFunc (MatchExpressions sel) ;;
      ret (Some {| MatchLabels := ml; MatchExpressions := me |})
  end.

Definition HostLabelSelector (labelSelector : option LabelSelector) (vNamespace : string)
  : Sync (option LabelSelector) :=
  hostLabelSelector labelSelector (fun key => HostLabel Default key vNamespace).

Definition HostLabelSelectorCluster (labelSelector : option LabelSelector)
  : Sync (option LabelSelector) :=
  hostLabelSelector labelSelector (HostLabelCluster Default).

(** *** Annotations and labels of synced objects *)

(** [[
func applyAnnotations(fromAnnotations map[string]string, toAnnotations map[string]string, excludeAnnotations ...string) map[string]string {
	if toAnnotations == nil {
		toAnnotations = map[string]string{}
	}

	excludedKeys := []string{ManagedAnnotationsAnnotation, ManagedLabelsAnnotation}
	excludedKeys = append(excludedKeys, excludeAnnotations...)
	mergedAnnotations, managedKeys := applyMaps(fromAnnotations, toAnnotations, ApplyMapsOptions{
		ManagedKeys: strings.Split(toAnnotations[ManagedAnnotationsAnnotation], "\n"),
		ExcludeKeys: excludedKeys,
	})
	if managedKeys == "" {
		delete(mergedAnnotations, ManagedAnnotationsAnnotation)
	} else {
		mergedAnnotations[ManagedAnnotationsAnnotation] = managedKeys
	}

	return mergedAnnotations
}
]] *)
Definition applyAnnotations (fromAnnotations toAnnotations : GoMap)
    (excludeAnnotations : list string) : gmap string string :=
  let toAnnotations : GoMap :=
    match toAnnotations with None => Some ∅ | Some _ => toAnnotations end in
  let excludedKeys :=
    [ManagedAnnotationsAnnotation; ManagedLabelsAnnotation] ++ excludeAnnotations in
  let '(mergedAnnotations, managedKeys) :=
    applyMaps fromAnnotations toAnnotations
      {| ManagedKeys := Split (index toAnnotations ManagedAnnotationsAnnotation) nl;
         ExcludeKeys := excludedKeys |} in
  if String.eqb managedKeys ""
  then delete ManagedAnnotationsAnnotation mergedAnnotations
  else <[ManagedAnnotationsAnnotation := managedKeys]> mergedAnnotations.

(** [[
func applyLabels(fromLabels map[string]string, toLabels map[string]string, toAnnotations map[string]string) (labels map[string]string, annotations map[string]string) {
	if toAnnotations == nil {
		toAnnotations = map[string]string{}
	}

	mergedLabels, managedKeys := applyMaps(fromLabels, toLabels, ApplyMapsOptions{
		ManagedKeys: strings.Split(toAnnotations[ManagedLabelsAnnotation], "\n"),
		ExcludeKeys: []string{ManagedAnnotationsAnnotation, ManagedLabelsAnnotation},
	})
	mergedAnnotations := map[string]string{}
	for k, v := range toAnnotations {
		mergedAnnotations[k] = v
	}
	if managedKeys == "" {
		delete(mergedAnnotations, ManagedLabelsAnnotation)
	} else {
		mergedAnnotations[ManagedLabelsAnnotation] = managedKeys
	}

	return mergedLabels, mergedAnnotations
}
]] *)
Definition applyLabels (fromLabels toLabels toAnnotations : GoMap)
  : gmap string string * gmap string string :=
  let toAnnotations : GoMap :=
    match toAnnotations with None => Some ∅ | Some _ => toAnnotations end in
  let '(mergedLabels, managedKeys) :=
    applyMaps fromLabels toLabels
      {| ManagedKeys := Split (index toAnnotations ManagedLabelsAnnotation) nl;
         ExcludeKeys := [ManagedAnnotationsAnnotation; ManagedLabelsAnnotation] |} in
  let mergedAnnotations := range toAnnotations (fun k v m => <[k := v]> m) ∅ in
  let mergedAnnotations :=
    if String.eqb managedKeys ""
    then delete ManagedLabelsAnnotation mergedAnnotations
    else <[ManagedLabelsAnnotation := managedKeys]> mergedAnnotations in
  (mergedLabels, mergedAnnotations).

(** [[
func ApplyMetadata(fromAnnotations map[string]string, toAnnotations map[string]string, fromLabels map[string]string, toLabels map[string]string, excludeAnnotations ...string) (labels map[string]string, annotations map[string]string) {
	mergedAnnotations := applyAnnotations(fromAnnotations, toAnnotations, excludeAnnotations...)
	return applyLabels(fromLabels, toLabels, mergedAnnotations)
}
]] *)
Definition ApplyMetadata (fromAnnotations toAnnotations fromLabels toLabels : GoMap)
    (excludeAnnotations : list string) : gmap string string * gmap string string :=
  let mergedAnnotations := applyAnnotations fromAnnotations toAnnotations excludeAnnotations in
  applyLabels fromLabels toLabels (Some mergedAnnotations).

(** *** Owner references *)

(** The object passed in is not nil and one of its owner references has its
    controller flag set and true. *)
Definition hasControllerRef (object : option Object) : Prop :=
  exists o r, object = Some o /\ In r (obj_OwnerReferences o) /\ ref_Controller r = Some true.

(** [meta.TypeAccessor] on a [client.Object]: the object is a
    [runtime.Object], so the accessor is that of its own type meta and the
    error is nil. *)
Definition TypeAccessor (o : Object) : option (string * string) :=
  Some (obj_APIVersion o, obj_Kind o).

(** [[
func GetOwnerReference(object client.Object) []metav1.OwnerReference {
	if Owner == nil || Owner.GetName() == "" || Owner.GetUID() == "" {
		return nil
	}

	typeAccessor, err := meta.TypeAccessor(Owner)
	if err != nil || typeAccessor.GetAPIVersion() == "" || typeAccessor.GetKind() == "" {
		return nil
	}

	isController := false
	if object != nil {
		ctrl := metav1.GetControllerOf(object)
		isController = ctrl != nil
	}
	return []metav1.OwnerReference{
		{
			APIVersion: typeAccessor.GetAPIVersion(),
			Kind:       typeAccessor.GetKind(),
			Name:       Owner.GetName(),
			UID:        Owner.GetUID(),
			Controller: &isController,
		},
	}
}
]] *)
Definition GetOwnerReference (object : option Object) : list OwnerReference :=
  match Owner with
  | None => []
  | Some owner =>
      if String.eqb (obj_Name owner) "" || String.eqb (obj_UID owner) "" then []
      else
        match TypeAccessor owner with
        | None => []
        | Some (apiVersion, kind) =>
            if String.eqb apiVersion "" || String.eqb kind "" then []
            else
              let isController :=
                match object with
                | None => false
                | Some o =>
                    match GetControllerOf (obj_OwnerReferences o) with
                    | Some _ => true
                    | None => false
                    end
                end in
              [ {| ref_APIVersion := apiVersion;
                   ref_Kind := kind;
                   ref_Name := obj_Name owner;
                   ref_UID := obj_UID owner;
                   ref_Controller := Some isController |} ]
        end
  end.


(** *** multi_namespace.go: targeted namespaces and managed objects *)

Section Managed.

(** [pro.HostNamespaceMatchesMapping]: the declared namespace mappings, read
    from the host side; consulted but not defined here. *)
Variable pro_HostNamespaceMatchesMapping : Ctx -> string -> string * bool.

(** [apiutil.GVKForObject(obj, scheme.Scheme)]: the group, version and kind
    registered for the type of the object, or an error. *)
Variable GVKForObject : Object -> result GroupVersionKind.

(** [[
func (s *multiNamespace) IsTargetedNamespace(ctx *synccontext.SyncContext, pNamespace string) bool {
	if _, ok := pro.HostNamespaceMatchesMapping(ctx, pNamespace); ok {
		return true
	}

	return strings.HasPrefix(pNamespace, s.getNamespacePrefix()) && strings.HasSuffix(pNamespace, getNamespaceSuffix(s.currentNamespace, VClusterName))
}
]] *)
Definition multiNamespace_IsTargetedNamespace (s : multiNamespace) (ctx : Ctx)
    (pNamespace : string) : bool :=
  if snd (pro_HostNamespaceMatchesMapping ctx pNamespace) then true
  else HasPrefix pNamespace (multiNamespace_getNamespacePrefix s)
       && HasSuffix pNamespace (getNamespaceSuffix (currentNamespace s) VClusterName).

(** [[
func (s *multiNamespace) IsManaged(ctx *synccontext.SyncContext, pObj client.Object) bool {
	// check if cluster scoped object
	if pObj.GetNamespace() == "" {
		return pObj.GetLabels()[MarkerLabel] == s.MarkerLabelCluster()
	}

	if !s.IsTargetedNamespace(ctx, pObj.GetNamespace()) || pObj.GetAnnotations()[NameAnnotation] == "" {
		return false
	} else if pObj.GetAnnotations()[KindAnnotation] != "" {
		gvk, err := apiutil.GVKForObject(pObj, scheme.Scheme)
		if err == nil && gvk.String() != pObj.GetAnnotations()[KindAnnotation] {
			return false
		}
	}

	return true
}
]] *)
Definition multiNamespace_IsManaged (s : multiNamespace) (ctx : Ctx) (pObj : Object) : bool :=
  if String.eqb (obj_Namespace pObj) ""
  then String.eqb (index (obj_Labels pObj) MarkerLabel) (multiNamespace_MarkerLabelCluster s)
  else
    if negb (multiNamespace_IsTargetedNamespace s ctx (obj_Namespace pObj))
       || String.eqb (index (obj_Annotations pObj) NameAnnotation) ""
    then false
    else
      if negb (String.eqb (index (obj_Annotations pObj) KindAnnotation) "")
      then
        match GVKForObject pObj with
        | Ok gvk =>
            if negb (String.eqb (GroupVersionKind_String gvk)
                       (index (obj_Annotations pObj) KindAnnotation))
            then false else true
        | Err _ => true
        end
      else true.

(** *** Annotations and labels of whole objects *)

(** [[
func VirtualAnnotations(pObj, vObj client.Object, excluded ...string) map[string]string {
	excluded = append(excluded, NameAnnotation, UIDAnnotation, KindAnnotation, NamespaceAnnotation, ManagedAnnotationsAnnotation, ManagedLabelsAnnotation)
	var toAnnotations map[string]string
	if vObj != nil {
		toAnnotations = vObj.GetAnnotations()
	}

	return copyMaps(pObj.GetAnnotations(), toAnnotations, func(key string) bool {
		return exists(excluded, key)
	})
}
]] *)
Definition VirtualAnnotations (pObj : Object) (vObj : option Object) (excluded : list string)
  : gmap string string :=
  let excluded :=
    excluded ++ [NameAnnotation; UIDAnnotation; KindAnnotation; NamespaceAnnotation;
                 ManagedAnnotationsAnnotation; ManagedLabelsAnnotation] in
  let toAnnotations : GoMap :=
    match vObj with
    | Some v => obj_Annotations v
    | None => None
    end in
  copyMaps (obj_Annotations pObj) toAnnotations (Some (fun key => exists_ excluded key)).

(** [[
func HostAnnotations(vObj, pObj client.Object, excluded ...string) map[string]string {
	excluded = append(excluded, NameAnnotation, UIDAnnotation, KindAnnotation, NamespaceAnnotation)
	toAnnotations := map[string]string{}
	if pObj != nil {
		toAnnotations = pObj.GetAnnotations()
	}

	retMap := applyAnnotations(vObj.GetAnnotations(), toAnnotations, excluded...)
	retMap[NameAnnotation] = vObj.GetName()
	retMap[UIDAnnotation] = string(vObj.GetUID())
	if vObj.GetNamespace() == "" {
		delete(retMap, NamespaceAnnotation)
	} else {
		retMap[NamespaceAnnotation] = vObj.GetNamespace()
	}

	gvk, err := apiutil.GVKForObject(vObj, scheme.Scheme)
	if err == nil {
		retMap[KindAnnotation] = gvk.String()
	}

	return retMap
}
]] *)
Definition HostAnnotations (vObj : Object) (pObj : option Object) (excluded : list string)
  : gmap string string :=
  let excluded :=
    excluded ++ [NameAnnotation; UIDAnnotation; KindAnnotation; NamespaceAnnotation] in
  let toAnnotations : GoMap :=
    match pObj with
    | Some p => obj_Annotations p
    | None => Some ∅
    end in
  let retMap := applyAnnotations (obj_Annotations vObj) toAnnotations excluded in
  let retMap := <[NameAnnotation := obj_Name vObj]> retMap in
  let retMap := <[UIDAnnotation := obj_UID vObj]> retMap in
  let retMap :=
    if String.eqb (obj_Namespace vObj) ""
    then delete NamespaceAnnotation retMap
    else <[NamespaceAnnotation := obj_Namespace vObj]> retMap in
  match GVKForObject vObj with
  | Ok gvk => <[KindAnnotation := GroupVersionKind_String gvk]> retMap
  | Err _ => retMap
  end.

(** [[
func VirtualLabels(ctx *synccontext.SyncContext, pObj, vObj client.Object, vNamespace string) map[string]string {
	pLabels := pObj.GetLabels()
	if pLabels == nil {
		pLabels = map[string]string{}
	}
	var vLabels map[string]string
	if vObj != nil {
		vLabels = vObj.GetLabels()
	}
	if pObj.GetNamespace() == "" {
		return VirtualLabelsMapCluster(ctx, pLabels, vLabels)
	}

	return VirtualLabelsMap(ctx, pLabels, vLabels, vNamespace)
}
]] *)
Definition VirtualLabels (pObj : Object) (vObj : option Object) (vNamespace : string)
  : Sync GoMap :=
  let pLabels : GoMap :=
    match obj_Labels pObj with
    | None => Some ∅
    | Some _ => obj_Labels pObj
    end in
  let vLabels : GoMap :=
    match vObj with
    | Some v => obj_Labels v
    | None => None
    end in
  if String.eqb (obj_Namespace pObj) ""
  then VirtualLabelsMapCluster pLabels vLabels []
  else VirtualLabelsMap pLabels vLabels vNamespace [].

(** [[
func HostLabels(ctx *synccontext.SyncContext, vObj, pObj client.Object) map[string]string {
	vLabels := vObj.GetLabels()
	if vLabels == nil {
		vLabels = map[string]string{}
	}
	var pLabels map[string]string
	if pObj != nil {
		pLabels = pObj.GetLabels()
	}
	if vObj.GetNamespace() == "" {
		return HostLabelsMapCluster(ctx, vLabels, pLabels)
	}

	return HostLabelsMap(ctx, vLabels, pLabels, vObj.GetNamespace())
}
]] *)
Definition HostLabels (vObj : Object) (pObj : option Object) : Sync GoMap :=
  let vLabels : GoMap :=
    match obj_Labels vObj with
    | None => Some ∅
    | Some _ => obj_Labels vObj
    end in
  let pLabels : GoMap :=
    match pObj with
    | Some p => obj_Labels p
    | None => None
    end in
  if String.eqb (obj_Namespace vObj) ""
  then HostLabelsMapCluster vLabels pLabels
  else HostLabelsMap vLabels pLabels (obj_Namespace vObj).

(** *** Copies of whole objects *)

(** [[
func CopyObjectWithName[T client.Object](obj T, name types.NamespacedName, setOwner bool) T {
	target := obj.DeepCopyObject().(T)

	// reset metadata & translate name and namespace
	ResetObjectMetadata(target)
	target.SetName(name.Name)
	if obj.GetNamespace() != "" {
		target.SetNamespace(name.Namespace)

		// set owning stateful set if defined
		if setOwner && Owner != nil {
			target.SetOwnerReferences(GetOwnerReference(obj))
		}
	}

	return target
}
]] *)
Definition CopyObjectWithName {Body : Type} (obj : Resource Body) (name : NamespacedName)
    (setOwner : bool) : Resource Body :=
  let target := ResetObjectMetadata obj in
  let target := SetName target (nn_Name name) in
  if negb (String.eqb (obj_Namespace (r_Object obj)) "")
  then
    let target := SetNamespace target (nn_Namespace name) in
    if setOwner && match Owner with Some _ => true | None => false end
    then SetOwnerReferences target (GetOwnerReference (Some (r_Object obj)))
    else target
  else target.

(** [[
func HostMetadata[T client.Object](ctx *synccontext.SyncContext, vObj T, name types.NamespacedName, excludedAnnotations ...string) T {
	pObj := CopyObjectWithName(vObj, name, true)
	pObj.SetAnnotations(HostAnnotations(vObj, nil, excludedAnnotations...))
	pObj.SetLabels(HostLabels(ctx, vObj, nil))
	return pObj
}
]] *)
Definition HostMetadata {Body : Type} (vObj : Resource Body) (name : NamespacedName)
    (excludedAnnotations : list string) : Sync (Resource Body) :=
  let pObj := CopyObjectWithName vObj name true in
  let pObj :=
    SetAnnotations pObj (Some (HostAnnotations (r_Object vObj) None excludedAnnotations)) in
  labels <- HostLabels (r_Object vObj) None ;;
  ret (SetLabels pObj labels).

(** [[
func VirtualMetadata[T client.Object](ctx *synccontext.SyncContext, pObj T, name types.NamespacedName, excludedAnnotations ...string) T {
	vObj := CopyObjectWithName(pObj, name, false)
	vObj.SetAnnotations(VirtualAnnotations(pObj, nil, excludedAnnotations...))
	vObj.SetLabels(VirtualLabels(ctx, pObj, nil, vObj.GetNamespace()))
	return vObj
}
]] *)
Definition VirtualMetadata {Body : Type} (pObj : Resource Body) (name : NamespacedName)
    (excludedAnnotations : list string) : Sync (Resource Body) :=
  let vObj := CopyObjectWithName pObj name false in
  let vObj :=
    SetAnnotations vObj (Some (VirtualAnnotations (r_Object pObj) None excludedAnnotations)) in
  labels <- VirtualLabels (r_Object pObj) None (obj_Namespace (r_Object vObj)) ;;
  ret (SetLabels vObj labels).

End Managed.

(** * Properties *)

(** ** SHA-256 test vectors (FIPS 180-4, appendix B) *)

Example sha256_hex_empty :
  sha256_hex "" = "e3b0c44298fc1c149afbf4c8996fb92427ae41e4649b934ca495991b7852b855"%string.
Proof. vm_compute. reflexivity. Qed.

Example sha256_hex_abc :
  sha256_hex "abc" = "ba7816bf8f01cfea414140de5dae2223b00361a396177a9cb410ff61f20015ad"%string.
Proof. vm_compute. reflexivity. Qed.

Example sha256_hex_two_blocks :
  sha256_hex "abcdbcdecdefdefgefghfghighijhijkijkljklmklmnlmnomnopnopq"
  = "248d6a61d20638b8e5c026930c3e6039a33ce45964ff2167f6ecedd419db06c1"%string.
Proof. vm_compute. reflexivity. Qed.

(** ** Strings: append, slices, prefixes *)

Lemma app_String c s t : String c s +:+ t = String c (s +:+ t).
Proof. reflexivity. Qed.

Lemma app_empty_l t : "" +:+ t = t.
Proof. reflexivity. Qed.

Lemma app_assoc_s s t u : (s +:+ t) +:+ u = s +:+ t +:+ u.
Proof. induction s as [|c s IH]; [reflexivity|]. by rewrite !app_String, IH. Qed.

Lemma length_app s t : String.length (s +:+ t) = String.length s + String.length t.
Proof. induction s as [|c s IH]; [reflexivity|]. rewrite app_String; simpl. by rewrite IH. Qed.

Lemma slice_0_0 s : slice s 0 0 = "".
Proof. by destruct s. Qed.

Lemma slice_0_S c s n : slice (String c s) 0 (S n) = String c (slice s 0 n).
Proof. unfold slice. by rewrite !Nat.sub_0_r. Qed.

Lemma length_slice_0 s n : String.length (slice s 0 n) = Nat.min n (String.length s).
Proof.
  revert s; induction n as [|n IH]; intros s.
  - by rewrite slice_0_0.
  - destruct s as [|c s]; [reflexivity|]. rewrite slice_0_S; simpl. by rewrite IH.
Qed.

Lemma slice_0_app p x n :
  String.length p <= n -> slice (p +:+ x) 0 n = p +:+ slice x 0 (n - String.length p).
Proof.
  revert n; induction p as [|c p IH]; intros n Hn; simpl in *.
  - by rewrite app_empty_l, Nat.sub_0_r.
  - destruct n as [|n]; [lia|]. rewrite app_String, slice_0_S, IH by lia. reflexivity.
Qed.

Lemma prefix_nil s : String.prefix "" s = true.
Proof. by destruct s. Qed.

Lemma prefix_cons a p b s :
  String.prefix (String a p) (String b s) = Ascii.eqb a b && String.prefix p s.
Proof.
  simpl. destruct (ascii_dec a b) as [->|Hne].
  - by rewrite Ascii.eqb_refl.
  - apply Ascii.eqb_neq in Hne. by rewrite Hne.
Qed.

Lemma prefix_app p x : String.prefix p (p +:+ x) = true.
Proof.
  induction p as [|c p IH]; [apply prefix_nil|].
  by rewrite app_String, prefix_cons, Ascii.eqb_refl.
Qed.

Lemma Contains_cons c s sub :
  Contains (String c s) sub = String.prefix sub (String c s) || Contains s sub.
Proof. reflexivity. Qed.

(** Induction two bytes at a time, as [strip_dot_dash] recurses. *)
Lemma string_ind2 (P : string -> Prop) :
  P "" -> (forall c, P (String c "")) ->
  (forall c d s, P s -> P (String d s) -> P (String c (String d s))) ->
  forall s, P s.
Proof.
  intros H0 H1 H2 s.
  enough (P s /\ forall c, P (String c s)) by tauto.
  induction s as [|d s [IHs IHc]]; split; auto.
Qed.

(** ** [ReplaceAll] of ".-" by "-" *)

Lemma replace_from_0 old new c s :
  replace_from 0 old new (String c s)
  = if String.prefix old (String c s)
    then new +:+ replace_from (String.length old - 1) old new s
    else String c (replace_from 0 old new s).
Proof. reflexivity. Qed.

Lemma replace_from_S k old new c s :
  replace_from (S k) old new (String c s) = replace_from k old new s.
Proof. reflexivity. Qed.

Lemma strip_dot_dash_cons2 c d s :
  strip_dot_dash (String c (String d s))
  = if Ascii.eqb c "." && Ascii.eqb d "-"
    then String "-" (strip_dot_dash s)
    else String c (strip_dot_dash (String d s)).
Proof. reflexivity. Qed.

Lemma prefix_dot_dash c d s :
  String.prefix ".-" (String c (String d s)) = Ascii.eqb c "." && Ascii.eqb d "-".
Proof.
  rewrite !prefix_cons, prefix_nil, andb_true_r.
  by rewrite (Ascii.eqb_sym "." c), (Ascii.eqb_sym "-" d).
Qed.

Lemma ReplaceAll_dot_dash s : ReplaceAll s ".-" "-" = strip_dot_dash s.
Proof.
  unfold ReplaceAll. induction s as [|c|c d s IHs IHd] using string_ind2.
  - reflexivity.
  - rewrite replace_from_0, prefix_cons. cbn [String.prefix].
    by rewrite andb_false_r.
  - rewrite replace_from_0, prefix_dot_dash, strip_dot_dash_cons2.
    destruct (Ascii.eqb c "." && Ascii.eqb d "-").
    + cbn [String.length Nat.sub]. rewrite replace_from_S, IHs. reflexivity.
    + by rewrite IHd.
Qed.

Lemma length_strip_dot_dash s : String.length (strip_dot_dash s) <= String.length s.
Proof.
  induction s as [|c|c d s IHs IHd] using string_ind2; simpl in *; [lia..|].
  destruct (Ascii.eqb c "." && Ascii.eqb d "-"); simpl; lia.
Qed.

(** Scanning a prefix that holds no ".-" (even when a "-" follows it) leaves
    it in place. *)
Lemma strip_dot_dash_app p r :
  Contains (p +:+ "-") ".-" = false ->
  strip_dot_dash (p +:+ String "-" r) = p +:+ strip_dot_dash (String "-" r).
Proof.
  induction p as [|c p IH]; intros Hp; [reflexivity|].
  rewrite !app_String in *. rewrite Contains_cons in Hp.
  apply orb_false_elim in Hp as [Hc Hp].
  specialize (IH Hp).
  destruct p as [|d p].
  - rewrite app_empty_l in *. rewrite prefix_dot_dash in Hc.
    by rewrite strip_dot_dash_cons2, Hc.
  - rewrite !app_String in *. rewrite prefix_dot_dash in Hc.
    by rewrite strip_dot_dash_cons2, Hc, IH.
Qed.

Lemma prefix_ddd c t :
  String.prefix "..-" (String c t) = Ascii.eqb c "." && String.prefix ".-" t.
Proof. by rewrite prefix_cons, (Ascii.eqb_sym "." c). Qed.

Lemma prefix_dot_dash_strip c t :
  String.prefix ".-" (String c (strip_dot_dash t))
  = Ascii.eqb c "." && (String.prefix "-" t || String.prefix ".-" t).
Proof.
  destruct t as [|d [|e t]].
  - cbn [strip_dot_dash]. rewrite prefix_cons. cbn [String.prefix].
    by rewrite !andb_false_r.
  - cbn [strip_dot_dash]. rewrite prefix_dot_dash, !prefix_cons, prefix_nil.
    cbn [String.prefix]. rewrite (Ascii.eqb_sym "-" d).
    by rewrite andb_true_r, andb_false_r, orb_false_r.
  - rewrite strip_dot_dash_cons2, prefix_dot_dash.
    rewrite (prefix_cons "-" "" d), prefix_nil, andb_true_r, (Ascii.eqb_sym "-" d).
    destruct (Ascii.eqb_spec d "."), (Ascii.eqb_spec e "-"); subst;
      cbn [andb orb]; rewrite ?prefix_dot_dash; cbn [andb orb Ascii.eqb Bool.eqb];
      rewrite ?orb_false_r, ?andb_true_r; try reflexivity.
    all: rewrite Ascii.eqb_sym; reflexivity.
Qed.

(** After the replacement a ".-" is left exactly where the input had "..-":
    the second dot is consumed, the first one now precedes the "-". *)
Lemma Contains_strip_dot_dash s :
  Contains (strip_dot_dash s) ".-" = Contains s "..-".
Proof.
  induction s as [|c|c d s IHs IHd] using string_ind2.
  - reflexivity.
  - cbn [strip_dot_dash]. rewrite !Contains_cons, !prefix_cons. cbn.
    by rewrite !andb_false_r.
  - rewrite strip_dot_dash_cons2.
    rewrite (Contains_cons c (String d s)), prefix_ddd.
    destruct (Ascii.eqb c "." && Ascii.eqb d "-") eqn:E.
    + apply andb_true_iff in E as [->%Ascii.eqb_eq ->%Ascii.eqb_eq].
      rewrite Contains_cons, prefix_cons, IHs. cbn [Ascii.eqb Bool.eqb andb orb].
      rewrite Contains_cons, !prefix_cons. reflexivity.
    + rewrite Contains_cons, prefix_dot_dash_strip, IHd.
      rewrite (prefix_cons "-" "" d), prefix_nil, andb_true_r, (Ascii.eqb_sym "-" d).
      rewrite andb_orb_distrib_r, E. reflexivity.
Qed.

(** ** Hexadecimal digits *)

Lemma hex_digit_is_hex n : is_hex_digit (hex_digit n) = true.
Proof.
  unfold hex_digit. generalize (Z.to_nat n); intros k.
  do 16 (destruct k as [|k]; [reflexivity|]). by destruct k.
Qed.

Lemma EncodeToString_hex bs : all_bytes is_hex_digit (EncodeToString bs) = true.
Proof.
  induction bs as [|b bs IH]; [reflexivity|].
  cbn [EncodeToString all_bytes]. by rewrite !hex_digit_is_hex, IH.
Qed.

Lemma all_bytes_slice_0 p s n : all_bytes p s = true -> all_bytes p (slice s 0 n) = true.
Proof.
  revert s; induction n as [|n IH]; intros s Hs.
  - by rewrite slice_0_0.
  - destruct s as [|c s]; [reflexivity|]. rewrite slice_0_S.
    cbn [all_bytes] in *. apply andb_true_iff in Hs as [-> Hs]. by rewrite IH.
Qed.

Lemma is_hex_digit_not_dot c : is_hex_digit c = true -> Ascii.eqb c "." = false.
Proof.
  destruct c as [[] [] [] [] [] [] [] []]; cbn; congruence.
Qed.

Lemma hex_no_ddd h : all_bytes is_hex_digit h = true -> Contains h "..-" = false.
Proof.
  induction h as [|c h IH]; [reflexivity|]. cbn [all_bytes].
  intros [Hc Hh]%andb_true_iff.
  by rewrite Contains_cons, prefix_ddd, (is_hex_digit_not_dot c Hc), IH.
Qed.

(** Digits appended after the separator cannot complete a "..-". *)
Lemma Contains_ddd_hex_suffix p h :
  all_bytes is_hex_digit h = true ->
  Contains (p +:+ String "-" h) "..-" = Contains (p +:+ "-") "..-".
Proof.
  intros Hh. induction p as [|c p IH].
  - rewrite !app_empty_l, !Contains_cons, !prefix_ddd.
    by rewrite (hex_no_ddd h Hh).
  - rewrite !(app_String c p), !Contains_cons, IH, !prefix_ddd. f_equal. f_equal.
    destruct p as [|d [|e p]]; rewrite ?app_String, ?app_empty_l.
    + by rewrite !prefix_cons.
    + by rewrite !prefix_dot_dash.
    + by rewrite !prefix_dot_dash.
Qed.

(** ** [SafeConcatName] *)

Lemma SafeConcatName_short name :
  String.length (Join name "-") <= 63 -> SafeConcatName name = Join name "-".
Proof.
  intros H. unfold SafeConcatName. cbv zeta.
  destruct (Nat.ltb_spec 63 (String.length (Join name "-"))); [lia|reflexivity].
Qed.

Lemma SafeConcatName_long name :
  63 < String.length (Join name "-") ->
  SafeConcatName name
  = strip_dot_dash (slice (Join name "-") 0 52 +:+
                    String "-" (slice (sha256_hex (Join name "-")) 0 10)).
Proof.
  intros H. unfold SafeConcatName. cbv zeta.
  destruct (Nat.ltb_spec 63 (String.length (Join name "-"))); [|lia].
  by rewrite ReplaceAll_dot_dash.
Qed.

(** C1. For every list of input strings [SafeConcatName] returns at most 63
    bytes, and when the "-"-join of the inputs is itself at most 63 bytes
    long it is returned unchanged. *)
Theorem SafeConcatName_bounded (name : list string) :
  String.length (SafeConcatName name) <= 63 /\
  (String.length (Join name "-") <= 63 -> SafeConcatName name = Join name "-").
Proof.
  split; [|apply SafeConcatName_short].
  destruct (Nat.le_gt_cases (String.length (Join name "-")) 63) as [Hle|Hgt].
  - by rewrite SafeConcatName_short.
  - rewrite SafeConcatName_long by done.
    etransitivity; [apply length_strip_dot_dash|].
    rewrite length_app. cbn [String.length]. rewrite !length_slice_0. lia.
Qed.

Lemma SafeConcatName_bounded_witness :
  String.length (Join ["vcluster"; "kube-system"; "x"; "ns"; "x"; "my-vcluster"] "-") <= 63 /\
  SafeConcatName ["vcluster"; "kube-system"; "x"; "ns"; "x"; "my-vcluster"]
  = "vcluster-kube-system-x-ns-x-my-vcluster".
Proof.
  assert (H : String.length (Join ["vcluster"; "kube-system"; "x"; "ns"; "x"; "my-vcluster"] "-") <= 63)
    by (vm_compute; lia).
  split; [exact H|].
  exact (proj2 (SafeConcatName_bounded
                  ["vcluster"; "kube-system"; "x"; "ns"; "x"; "my-vcluster"]) H).
Defined.

Example SafeConcatName_long_example :
  SafeConcatName ["aaaaaaaaaabbbbbbbbbbccccccccccddddddddddeeeeeeeeee"; "ffffffffffgggggggggg"]
  = "aaaaaaaaaabbbbbbbbbbccccccccccddddddddddeeeeeeeeee-f-" +:+
    slice (sha256_hex "aaaaaaaaaabbbbbbbbbbccccccccccddddddddddeeeeeeeeee-ffffffffffgggggggggg") 0 10.
Proof. vm_compute. reflexivity. Qed.

(** A first component that holds no ".-", even once the separator follows
    it, and fits the 52 bytes kept, is a prefix of the result. *)
Lemma SafeConcatName_HasPrefix p r rest :
  String.length p <= 52 ->
  Contains (p +:+ "-") ".-" = false ->
  HasPrefix (SafeConcatName (p :: r :: rest)) p = true.
Proof.
  intros Hlen Hp. unfold HasPrefix.
  assert (HJ : Join (p :: r :: rest) "-" = p +:+ String "-" (Join (r :: rest) "-")) by reflexivity.
  destruct (Nat.le_gt_cases (String.length (Join (p :: r :: rest) "-")) 63) as [Hle|Hgt].
  - rewrite SafeConcatName_short, HJ by done. apply prefix_app.
  - rewrite SafeConcatName_long by done. rewrite HJ.
    rewrite slice_0_app, app_assoc_s by done.
    set (k := 52 - String.length p). set (h := slice _ 0 10).
    assert (exists t, slice (String "-" (Join (r :: rest) "-")) 0 k +:+ String "-" h
                      = String "-" t) as [t ->].
    { destruct k; [rewrite slice_0_0|rewrite slice_0_S]; eauto. }
    rewrite strip_dot_dash_app by done. apply prefix_app.
Qed.

(** C5, as the specification states it, fails already on joins that are
    short enough to be returned unchanged. *)
Lemma SafeConcatName_dot_dash_counterexample :
  Contains (SafeConcatName ["my-app."; "x"; "ns"]) ".-" = true.
Proof. vm_compute. reflexivity. Qed.

(** C5 (amended). When the join exceeds 63 bytes and its first 52 bytes,
    followed by the separator, hold no "..-", the result holds no ".-". *)
Theorem SafeConcatName_long_no_dot_dash (name : list string) :
  63 < String.length (Join name "-") ->
  Contains (slice (Join name "-") 0 52 +:+ "-") "..-" = false ->
  Contains (SafeConcatName name) ".-" = false.
Proof.
  intros Hlong Hpre. rewrite SafeConcatName_long by done.
  rewrite Contains_strip_dot_dash, Contains_ddd_hex_suffix; [done|].
  apply all_bytes_slice_0, EncodeToString_hex.
Qed.

Lemma SafeConcatName_long_no_dot_dash_witness :
  Contains (SafeConcatName
    ["my.app."; "aaaaaaaaaabbbbbbbbbbccccccccccddddddddddeeeeeeeeeeffffffffff"]) ".-" = false.
Proof.
  apply SafeConcatName_long_no_dot_dash.
  - vm_compute. lia.
  - vm_compute. reflexivity.
Defined.

(** On long joins the replacement does leave a ".-" when two dots meet the
    separator: here bytes 50 and 51 of the join are dots. *)
Example SafeConcatName_long_double_dot :
  Contains (SafeConcatName
    ["aaaaaaaaaabbbbbbbbbbccccccccccddddddddddeeeeeeeeee.."; "ffffffffffgggggggggg"]) ".-" = true.
Proof. vm_compute. reflexivity. Qed.

(** ** Metadata merge *)

Example Split_empty : Split "" nl = [""].
Proof. reflexivity. Qed.

Example Split_two : Split ("a" +:+ nl +:+ "b") nl = ["a"; "b"].
Proof. reflexivity. Qed.

Example sort_Strings_example : sort_Strings ["b"; "a"; "B"; "ab"] = ["B"; "a"; "ab"; "b"].
Proof. reflexivity. Qed.

(** C3. Source [{a:1,b:2}] merged into target [{b:9,c:3}] with no prior
    managed keys and no exclusions gives [{a:1,b:2,c:3}] and the managed-key
    list "a\nb"; merging source [{a:1}] into that result, with the managed
    keys it recorded, gives [{a:1,c:3}]: [b] is deleted, [c] is kept. *)
Theorem applyMaps_example :
  let src1 : gmap string string := {[ "a" := "1"; "b" := "2" ]} in
  let tgt1 : gmap string string := {[ "b" := "9"; "c" := "3" ]} in
  let src2 : gmap string string := {[ "a" := "1" ]} in
  let run1 := applyMaps (Some src1) (Some tgt1) {| ManagedKeys := []; ExcludeKeys := [] |} in
  let run2 := applyMaps (Some src2) (Some (fst run1))
                {| ManagedKeys := Split (snd run1) nl; ExcludeKeys := [] |} in
  fst run1 = {[ "a" := "1"; "b" := "2"; "c" := "3" ]} /\
  snd run1 = "a" +:+ nl +:+ "b" /\
  fst run2 = {[ "a" := "1"; "c" := "3" ]} /\
  fst run2 !! "b" = None /\ fst run2 !! "c" = Some "3".
Proof. vm_compute. repeat split; reflexivity. Qed.

(** ** Digests are 64 hexadecimal digits *)

Lemma length_EncodeToString bs : String.length (EncodeToString bs) = 2 * List.length bs.
Proof. induction bs as [|b bs IH]; [reflexivity|]. cbn [EncodeToString String.length List.length]. lia. Qed.

Lemma length_Sum256 msg : List.length (SHA256.Sum256 msg) = 32.
Proof. reflexivity. Qed.

Lemma length_sha256_hex s : String.length (sha256_hex s) = 64.
Proof. unfold sha256_hex. by rewrite length_EncodeToString, length_Sum256. Qed.

Lemma length_digest_prefix s n : n <= 64 -> String.length (slice (sha256_hex s) 0 n) = n.
Proof. intros Hn. rewrite length_slice_0, length_sha256_hex. lia. Qed.

(** ** The multi-namespace translator: names and namespaces *)

Lemma eqb_empty_false name : name <> "" -> String.eqb name "" = false.
Proof. intros Hne. by apply String.eqb_neq. Qed.

(** C8. [HostNameCluster] maps the empty name to the empty string, which is
    not what the concatenation rule would give for it, and every other name
    to [SafeConcatName] of "vcluster", the name, "x", the current host
    namespace, "x" and the vcluster identity. *)
Theorem multiNamespace_HostNameCluster_spec (s : multiNamespace) :
  multiNamespace_HostNameCluster s "" = "" /\
  SafeConcatName ["vcluster"; ""; "x"; currentNamespace s; "x"; VClusterName] <> "" /\
  forall name, name <> "" ->
    multiNamespace_HostNameCluster s name
    = SafeConcatName ["vcluster"; name; "x"; currentNamespace s; "x"; VClusterName].
Proof.
  split; [reflexivity|]. split.
  - intros Heq.
    pose proof (SafeConcatName_HasPrefix "vcluster" ""
                  ["x"; currentNamespace s; "x"; VClusterName]) as Hp.
    rewrite Heq in Hp. cbn in Hp. discriminate Hp; [lia|reflexivity].
  - intros name Hne. unfold multiNamespace_HostNameCluster.
    by rewrite eqb_empty_false.
Qed.

(** C6. For a virtual namespace without a declared mapping, [HostNamespace]
    is the prefix "vcluster", "-", the first 8 hexadecimal digits of the
    SHA-256 of the virtual namespace, "-", and the first 8 digits of the
    SHA-256 of current namespace + "x" + vcluster identity; the value does
    not depend on the context it is derived in. *)
Theorem multiNamespace_HostNamespace_spec (s : multiNamespace) (ctx : Ctx) (vNamespace : string) :
  snd (pro_VirtualNamespaceMatchesMapping ctx vNamespace) = false ->
  multiNamespace_HostNamespace s ctx vNamespace
  = "vcluster" +:+ "-" +:+ slice (sha256_hex vNamespace) 0 8 +:+ "-" +:+
    slice (sha256_hex (currentNamespace s +:+ "x" +:+ VClusterName)) 0 8
  /\ String.length (slice (sha256_hex vNamespace) 0 8) = 8
  /\ String.length (slice (sha256_hex (currentNamespace s +:+ "x" +:+ VClusterName)) 0 8) = 8
  /\ String.length (multiNamespace_HostNamespace s ctx vNamespace) = 26
  /\ forall ctx', snd (pro_VirtualNamespaceMatchesMapping ctx' vNamespace) = false ->
       multiNamespace_HostNamespace s ctx' vNamespace
       = multiNamespace_HostNamespace s ctx vNamespace.
Proof.
  intros Hno.
  assert (Hval : forall c, snd (pro_VirtualNamespaceMatchesMapping c vNamespace) = false ->
            multiNamespace_HostNamespace s c vNamespace
            = "vcluster" +:+ "-" +:+ slice (sha256_hex vNamespace) 0 8 +:+ "-" +:+
              slice (sha256_hex (currentNamespace s +:+ "x" +:+ VClusterName)) 0 8).
  { intros c Hc. unfold multiNamespace_HostNamespace.
    destruct (pro_VirtualNamespaceMatchesMapping c vNamespace) as [pNamespace ok].
    cbn in Hc. subst ok. reflexivity. }
  split; [by apply Hval|]. split; [by apply length_digest_prefix; lia|].
  split; [by apply length_digest_prefix; lia|]. split.
  - rewrite Hval by done. rewrite !length_app, !length_digest_prefix by lia. reflexivity.
  - intros ctx' Hno'. by rewrite !Hval.
Qed.

(** ** Label maps *)

(** C9. [VirtualLabelsMap] and [HostLabelsMap] return nil for a nil source
    map, whatever the other arguments, and write nothing through the
    context; for a source map that is not nil they return a map that is not
    nil. *)
Theorem LabelsMap_nil_preserving (ctx : Ctx) (other : GoMap) (vNamespace : string)
    (excluded : list string) :
  VirtualLabelsMap None other vNamespace excluded ctx = (None, ctx) /\
  HostLabelsMap None other vNamespace ctx = (None, ctx) /\
  (forall p, fst (VirtualLabelsMap (Some p) other vNamespace excluded ctx) <> None) /\
  (forall v, fst (HostLabelsMap (Some v) other vNamespace ctx) <> None).
Proof.
  split; [reflexivity|]. split; [reflexivity|]. split.
  - intros p. unfold VirtualLabelsMap.
    destruct (snd _ || negb _); [done|]. unfold bind, ret.
    by destruct (translateBack _ _ ctx).
  - intros v. unfold HostLabelsMap.
    destruct (snd _ || negb _); [done|]. unfold bind, ret.
    by destruct (range_sync _ _ _ ctx).
Qed.

(** ** Owner references *)

Lemma GetControllerOf_Some refs :
  (exists r, GetControllerOf refs = Some r) <->
  (exists r, In r refs /\ ref_Controller r = Some true).
Proof.
  induction refs as [|r refs IH]; cbn [GetControllerOf In].
  - split; intros [r Hr]; [discriminate|tauto].
  - destruct (ref_Controller r) as [[]|] eqn:E.
    + split; eauto.
    + rewrite IH. split; intros [r' [Hin Hc]]; [eauto|].
      destruct Hin as [->|Hin]; [congruence|eauto].
    + rewrite IH. split; intros [r' [Hin Hc]]; [eauto|].
      destruct Hin as [->|Hin]; [congruence|eauto].
Qed.

(** C10. [GetOwnerReference] returns no reference when the owner is unset or
    lacks a name, a unique identifier, an API version or a kind; otherwise
    it returns exactly one reference to the owner, whose controller flag is
    set, and true exactly when the object passed in already has a controller
    among its owner references. *)
Theorem GetOwnerReference_spec (object : option Object) :
  (Owner = None -> GetOwnerReference object = []) /\
  (forall owner, Owner = Some owner ->
     obj_Name owner = "" \/ obj_UID owner = "" \/
     obj_APIVersion owner = "" \/ obj_Kind owner = "" ->
     GetOwnerReference object = []) /\
  (forall owner, Owner = Some owner ->
     obj_Name owner <> "" -> obj_UID owner <> "" ->
     obj_APIVersion owner <> "" -> obj_Kind owner <> "" ->
     exists isController,
       GetOwnerReference object
       = [ {| ref_APIVersion := obj_APIVersion owner;
              ref_Kind := obj_Kind owner;
              ref_Name := obj_Name owner;
              ref_UID := obj_UID owner;
              ref_Controller := Some isController |} ] /\
       (isController = true <-> hasControllerRef object)).
Proof.
  unfold GetOwnerReference. split; [by intros ->|]. split.
  - intros owner -> Hmissing. cbn [TypeAccessor].
    destruct (String.eqb_spec (obj_Name owner) ""), (String.eqb_spec (obj_UID owner) ""),
      (String.eqb_spec (obj_APIVersion owner) ""), (String.eqb_spec (obj_Kind owner) "");
      cbn; try reflexivity. tauto.
  - intros owner -> Hn Hu Ha Hk. cbn [TypeAccessor].
    rewrite !eqb_empty_false by done. cbn [orb].
    eexists; split; [reflexivity|].
    unfold hasControllerRef. destruct object as [o|].
    + pose proof (GetControllerOf_Some (obj_OwnerReferences o)) as Hc.
      destruct (GetControllerOf (obj_OwnerReferences o)) as [r|].
      * split; [intros _|done]. destruct Hc as [[r' Hr'] _]; [eauto|].
        exists o, r'. tauto.
      * split; [done|]. intros (o' & r & [= <-] & Hin & Hr).
        destruct Hc as [_ [r' Hr']]; [eauto|done].
    + split; [done|]. by intros (o & r & ? & _).
Qed.

(** ** Cluster-scoped label keys *)


Lemma hostLabelCluster_HasPrefix key ns :
  String.length LabelPrefix <= 52 ->
  Contains (LabelPrefix +:+ "-") ".-" = false ->
  HasPrefix (hostLabelCluster key ns) LabelPrefix = true.
Proof. intros Hlen Hp. by apply SafeConcatName_HasPrefix. Qed.



(** Without a context, or without a store behind it, the forward
    translation records nothing and the way back reports a miss. *)
Lemma LabelCluster_no_store (s : multiNamespace) (key : string) :
  String.length LabelPrefix <= 52 ->
  Contains (LabelPrefix +:+ "-") ".-" = false ->
  let '(hKey, ctx') := multiNamespace_HostLabelCluster s key None in
  multiNamespace_VirtualLabelCluster s hKey ctx' = ("", false, None).
Proof.
  intros Hlen Hp. cbn.
  rewrite hostLabelCluster_HasPrefix by done. reflexivity.
Qed.


(** ** Label selectors, host to virtual *)

Lemma bind_run {A B : Type} (m : Sync A) (k : A -> Sync B) (ctx : Ctx) :
  bind m k ctx = k (fst (m ctx)) (snd (m ctx)).
Proof. unfold bind. by destruct (m ctx). Qed.






(** ** Waiting for a condition *)










(** With rounds left, a wait ends in an error or has seen the condition
    hold: it does not give up silently. *)
Lemma ExponentialBackoff_timeout ctx condition :
  snd (ExponentialBackoffWithContext ctx 0 condition) = Some ErrWaitTimeout.
Proof. reflexivity. Qed.

(** ** The schema reconciler *)







(** * Further properties of the package *)


(** ** Loops over the entries of a map *)

(** A loop that stores the entries whose key passes [keep]: a key of the
    entries that passes ends up with its value, every other key is left as
    it was. *)
Lemma range_list_insert_if (keep : string -> bool) (l : list (string * string)) :
  NoDup l.*1 ->
  forall (acc : gmap string string) (k : string),
    range_list l (fun k v m => if keep k then <[k := v]> m else m) acc !! k
    = if keep k
      then match (list_to_map l : gmap string string) !! k with
           | Some v => Some v
           | None => acc !! k
           end
      else acc !! k.
Proof.
  unfold range_list. induction l as [|[k0 v0] l IH]; intros Hnd acc k.
  - cbn. rewrite lookup_empty. by destruct (keep k).
  - cbn [fmap list_fmap fst] in Hnd. apply NoDup_cons in Hnd as [Hk0 Hnd].
    cbn [fold_left fst snd]. rewrite IH by done.
    rewrite list_to_map_cons.
    destruct (decide (k = k0)) as [->|Hne].
    + rewrite lookup_insert_eq.
      apply not_elem_of_list_to_map_1 in Hk0. rewrite Hk0.
      destruct (keep k0); [by rewrite lookup_insert_eq|done].
    + rewrite lookup_insert_ne by done.
      destruct (keep k0); [by rewrite lookup_insert_ne|done].
Qed.

Lemma range_insert_if (keep : string -> bool) (m : GoMap) (acc : gmap string string)
    (k : string) :
  range m (fun k v a => if keep k then <[k := v]> a else a) acc !! k
  = if keep k
    then match lookupGo m k with
         | Some v => Some v
         | None => acc !! k
         end
    else acc !! k.
Proof.
  unfold range, entries, lookupGo. destruct m as [g|].
  - rewrite range_list_insert_if by apply NoDup_fst_map_to_list.
    by rewrite list_to_map_to_list.
  - cbn. by destruct (keep k).
Qed.

Lemma range_list_ext {A : Type} (f g : string -> string -> A -> A) (l : list (string * string))
    (acc : A) :
  (forall k v a, f k v a = g k v a) -> range_list l f acc = range_list l g acc.
Proof.
  intros Hfg. unfold range_list. revert acc.
  induction l as [|kv l IH]; intros acc; [done|]. cbn. by rewrite Hfg, IH.
Qed.

Lemma exists_In (a : list string) (k : string) : exists_ a k = true <-> In k a.
Proof.
  induction a as [|i a IH]; cbn; [split; [discriminate|tauto]|].
  destruct (String.eqb_spec i k) as [->|Hne]; [tauto|].
  rewrite IH. split; [tauto|]. by intros [?|?].
Qed.

Lemma exists_app (a b : list string) (k : string) :
  exists_ (a ++ b) k = exists_ a k || exists_ b k.
Proof.
  induction a as [|i a IH]; cbn; [done|]. by destruct (String.eqb i k).
Qed.

(** ** [copyMaps] *)

Lemma copyMaps_lookup (fromMap toMap : GoMap) (excludeKey : option (string -> bool))
    (k : string) :
  copyMaps fromMap toMap excludeKey !! k
  = if excludes excludeKey k then lookupGo toMap k else lookupGo fromMap k.
Proof.
  unfold copyMaps.
  rewrite (range_insert_if (excludes excludeKey)).
  assert (Hfirst :
    range fromMap
      (fun k v (ret : gmap string string) =>
         if excludes excludeKey k then ret else <[k := v]> ret) ∅ !! k
    = if excludes excludeKey k then None else lookupGo fromMap k).
  { unfold range.
    rewrite (range_list_ext _
               (fun k v (m : gmap string string) =>
                  if negb (excludes excludeKey k) then <[k := v]> m else m))
      by (intros k' v a; by destruct (excludes excludeKey k')).
    fold (range fromMap
            (fun k v (m : gmap string string) =>
               if negb (excludes excludeKey k) then <[k := v]> m else m) ∅).
    rewrite (range_insert_if (fun k => negb (excludes excludeKey k))), lookup_empty.
    destruct (excludes excludeKey k); cbn [negb]; [done|].
    by destruct (lookupGo fromMap k). }
  rewrite Hfirst.
  destruct (excludes excludeKey k); [|done].
  by destruct (lookupGo toMap k).
Qed.

(** ** [applyMaps] *)

(** The first loop of [applyMaps]: the map gets the entries whose key is
    not excluded, the managed keys are these keys in the order of the
    iteration. *)
Lemma applyMaps_first_loop (ex : string -> bool) (l : list (string * string)) :
  forall (ret : gmap string string) (managed : list string),
    range_list l
      (fun k v '(ret, managed) =>
         if ex k then (ret, managed) else (<[k := v]> ret, managed ++ [k]))
      (ret, managed)
    = (range_list l (fun k v m => if negb (ex k) then <[k := v]> m else m) ret,
       managed ++ List.filter (fun k => negb (ex k)) l.*1).
Proof.
  unfold range_list. induction l as [|[k0 v0] l IH]; intros ret managed.
  - cbn. by rewrite app_nil_r.
  - cbn [fold_left fst snd fmap list_fmap List.filter].
    destruct (ex k0); cbn [negb]; rewrite IH; [done|].
    by rewrite <- app_assoc.
Qed.

Lemma In_filter_keys (ex : string -> bool) (l : list (string * string)) (k : string) :
  In k (List.filter (fun k => negb (ex k)) l.*1)
  <-> ex k = false /\ is_Some ((list_to_map l : gmap string string) !! k).
Proof.
  rewrite filter_In, negb_true_iff.
  rewrite <- (not_eq_None_Some (list_to_map l !! k)), <- not_elem_of_list_to_map.
  rewrite <- list_elem_of_In. split; intros [? ?]; split; try done.
  - by intros ?.
  - by destruct (decide (k ∈ l.*1)).
Qed.

(** The merge, one key at a time, for entries in any order. *)
Lemma applyMaps_in_order_lookup (fromEntries toEntries : list (string * string))
    (opts : ApplyMapsOptions) (k : string) :
  NoDup fromEntries.*1 -> NoDup toEntries.*1 ->
  fst (applyMaps_in_order fromEntries toEntries opts) !! k
  = if exists_ (ExcludeKeys opts) k
    then (list_to_map toEntries : gmap string string) !! k
    else match (list_to_map fromEntries : gmap string string) !! k with
         | Some v => Some v
         | None =>
             if exists_ (ManagedKeys opts) k then None
             else (list_to_map toEntries : gmap string string) !! k
         end.
Proof.
  intros Hf Ht. unfold applyMaps_in_order.
  rewrite applyMaps_first_loop. cbn [app fst].
  set (managed := List.filter _ _).
  rewrite (range_list_ext _
             (fun key value (m : gmap string string) =>
                if exists_ (ExcludeKeys opts) key
                   || negb (exists_ managed key || exists_ (ManagedKeys opts) key)
                then <[key := value]> m else m))
    by (intros k' v a; destruct (exists_ (ExcludeKeys opts) k'); [done|];
        by destruct (exists_ managed k' || exists_ (ManagedKeys opts) k')).
  rewrite range_list_insert_if by done.
  rewrite range_list_insert_if by done.
  rewrite lookup_empty.
  destruct (exists_ (ExcludeKeys opts) k) eqn:Eex; cbn [negb orb].
  - by destruct (list_to_map toEntries !! k).
  - destruct (exists_ managed k) eqn:Eman; cbn [orb negb].
    + apply exists_In, In_filter_keys in Eman as [_ [v ->]]. done.
    + assert (Hnone : (list_to_map fromEntries : gmap string string) !! k = None).
      { destruct (list_to_map fromEntries !! k) as [v|] eqn:Ev; [|done].
        assert (In k managed) as Hin%exists_In by (apply In_filter_keys; eauto).
        congruence. }
      rewrite Hnone.
      destruct (exists_ (ManagedKeys opts) k); cbn [negb]; [done|].
      by destruct (list_to_map toEntries !! k).
Qed.

Lemma applyMaps_lookup_aux (fromMap toMap : GoMap) (opts : ApplyMapsOptions) (k : string) :
  fst (applyMaps fromMap toMap opts) !! k
  = if exists_ (ExcludeKeys opts) k then lookupGo toMap k
    else match lookupGo fromMap k with
         | Some v => Some v
         | None => if exists_ (ManagedKeys opts) k then None else lookupGo toMap k
         end.
Proof.
  unfold applyMaps. rewrite applyMaps_in_order_lookup.
  - assert (Hl : forall m : GoMap, (list_to_map (entries m) : gmap string string) !! k = lookupGo m k).
    { intros [g|]; cbn; [by rewrite list_to_map_to_list|done]. }
    by rewrite !Hl.
  - destruct fromMap; cbn; [apply NoDup_fst_map_to_list|constructor].
  - destruct toMap; cbn; [apply NoDup_fst_map_to_list|constructor].
Qed.

(** ** [sort.Strings] *)

Lemma leb_nil_l s : String.leb "" s = true.
Proof. by destruct s. Qed.

Lemma leb_cons c1 s1 c2 s2 :
  String.leb (String c1 s1) (String c2 s2)
  = match Ascii.compare c1 c2 with
    | Eq => String.leb s1 s2
    | Lt => true
    | Gt => false
    end.
Proof. unfold String.leb. cbn [String.compare]. by destruct (Ascii.compare c1 c2). Qed.

Lemma leb_trans a b c : String.leb a b = true -> String.leb b c = true -> String.leb a c = true.
Proof.
  revert b c; induction a as [|c1 s1 IH]; intros b c Hab Hbc; [apply leb_nil_l|].
  destruct b as [|c2 s2]; [discriminate|]. destruct c as [|c3 s3]; [discriminate|].
  rewrite leb_cons in *. unfold Ascii.compare in *.
  destruct (N.compare_spec (N_of_ascii c1) (N_of_ascii c2)) as [E12|L12|G12]; [| |discriminate];
  destruct (N.compare_spec (N_of_ascii c2) (N_of_ascii c3)) as [E23|L23|G23]; try discriminate.
  - rewrite E12, E23, N.compare_refl. eauto.
  - rewrite E12. by apply N.compare_lt_iff in L23 as ->.
  - rewrite <- E23. by apply N.compare_lt_iff in L12 as ->.
  - assert (N_of_ascii c1 < N_of_ascii c3)%N as ->%N.compare_lt_iff by lia. done.
Qed.

Lemma insert_sorted_perm x l : insert_sorted x l ≡ₚ x :: l.
Proof.
  induction l as [|y l IH]; cbn; [done|].
  destruct (String.leb x y); [done|]. by rewrite IH, Permutation_swap.
Qed.

Lemma sort_Strings_perm l : sort_Strings l ≡ₚ l.
Proof.
  induction l as [|x l IH]; cbn; [done|].
  fold (sort_Strings l). by rewrite insert_sorted_perm, IH.
Qed.

Lemma insert_sorted_Sorted x l : Sorted leb_rel l -> Sorted leb_rel (insert_sorted x l).
Proof.
  induction 1 as [|y l Hl IH Hy]; cbn; [by repeat constructor|].
  destruct (String.leb x y) eqn:E.
  - constructor; [by constructor|]. by constructor.
  - constructor; [done|].
    assert (Hyx : leb_rel y x) by (by destruct (String.leb_total x y) as [?|?]; [congruence|]).
    destruct Hy as [|z l' Hz]; cbn; [by constructor|].
    destruct (String.leb x z); by constructor.
Qed.

Lemma sort_Strings_Sorted l : Sorted leb_rel (sort_Strings l).
Proof.
  induction l as [|x l IH]; cbn; [constructor|]. by apply insert_sorted_Sorted.
Qed.

(** The sorted list does not depend on the order in which the keys were
    collected. *)
Lemma sort_Strings_proper l1 l2 : l1 ≡ₚ l2 -> sort_Strings l1 = sort_Strings l2.
Proof.
  intros Hp.
  assert (Htrans : Transitive leb_rel) by (intros a b c; apply leb_trans).
  assert (Hanti : AntiSymm eq leb_rel) by (intros a b; apply String.leb_antisym).
  apply (sorting.Sorted_unique leb_rel); [apply sort_Strings_Sorted..|].
  by rewrite !sort_Strings_perm.
Qed.

Lemma filter_keys_proper (ex : string -> bool) (l1 l2 : list (string * string)) :
  l1 ≡ₚ l2 ->
  List.filter (fun k => negb (ex k)) l1.*1 ≡ₚ List.filter (fun k => negb (ex k)) l2.*1.
Proof.
  induction 1 as [|[k v] l l' _ IH|[k1 v1] [k2 v2] l|l l' l'' _ IH1 _ IH2]; cbn.
  - done.
  - destruct (ex k); cbn; [done|by constructor].
  - destruct (ex k1), (ex k2); cbn; try done. apply Permutation_swap.
  - by etransitivity.
Qed.

Lemma applyMaps_in_order_snd (fromEntries toEntries : list (string * string))
    (opts : ApplyMapsOptions) :
  snd (applyMaps_in_order fromEntries toEntries opts)
  = Join (sort_Strings
            (List.filter (fun k => negb (exists_ (ExcludeKeys opts) k)) fromEntries.*1)) nl.
Proof. unfold applyMaps_in_order. by rewrite applyMaps_first_loop. Qed.

Lemma applyMaps_in_order_proper (fromEntries fromEntries' toEntries toEntries'
    : list (string * string)) (opts : ApplyMapsOptions) :
  NoDup fromEntries.*1 -> NoDup toEntries.*1 ->
  fromEntries ≡ₚ fromEntries' -> toEntries ≡ₚ toEntries' ->
  applyMaps_in_order fromEntries toEntries opts
  = applyMaps_in_order fromEntries' toEntries' opts.
Proof.
  intros Hf Ht Hpf Hpt.
  assert (Hf' : NoDup fromEntries'.*1) by (by rewrite <- Hpf).
  assert (Ht' : NoDup toEntries'.*1) by (by rewrite <- Hpt).
  apply injective_projections.
  - apply map_eq. intros k. rewrite !applyMaps_in_order_lookup by done.
    by rewrite (list_to_map_proper fromEntries fromEntries'),
      (list_to_map_proper toEntries toEntries').
  - rewrite !applyMaps_in_order_snd. f_equal.
    by apply sort_Strings_proper, filter_keys_proper.
Qed.

(** ** [strings.Split] of a [strings.Join] *)

Lemma app_nil_r_s s : s +:+ "" = s.
Proof. induction s as [|c s IH]; [done|]. by rewrite app_String, IH. Qed.

Lemma prefix_nl c s : String.prefix nl (String c s) = Ascii.eqb "010" c.
Proof. unfold nl. by rewrite prefix_cons, prefix_nil, andb_true_r. Qed.

Lemma split_from_nl_piece e : forall cur rest,
  Contains e nl = false ->
  split_from 0 nl cur (e +:+ rest) = split_from 0 nl (cur +:+ e) rest.
Proof.
  induction e as [|c e IH]; intros cur rest He.
  - by rewrite app_empty_l, app_nil_r_s.
  - rewrite Contains_cons in He. apply orb_false_elim in He as [Hc He].
    rewrite prefix_nl in Hc.
    rewrite app_String. cbn [split_from]. rewrite prefix_nl, Hc.
    rewrite IH by done. f_equal.
    by rewrite app_assoc_s, app_String, app_empty_l.
Qed.

Lemma split_from_nl_cut cur rest :
  split_from 0 nl cur (nl +:+ rest) = cur :: split_from 0 nl "" rest.
Proof.
  unfold nl at 2. rewrite app_String, app_empty_l. cbn [split_from].
  by rewrite prefix_nl.
Qed.

Lemma split_from_Join_nl (l : list string) : forall (e cur : string),
  Forall (fun e => Contains e nl = false) (e :: l) ->
  split_from 0 nl cur (String.concat nl (e :: l)) = (cur +:+ e) :: l.
Proof.
  induction l as [|e' l IH]; intros e cur [He Hl]%Forall_cons.
  - cbn [String.concat]. rewrite <- (app_nil_r_s e) at 1.
    by rewrite split_from_nl_piece.
  - change (String.concat nl (e :: e' :: l)) with (e +:+ nl +:+ String.concat nl (e' :: l)).
    rewrite split_from_nl_piece, split_from_nl_cut by done.
    f_equal. by rewrite IH, app_empty_l.
Qed.

Lemma Split_Join_nl (e : string) (l : list string) :
  Forall (fun e => Contains e nl = false) (e :: l) ->
  Split (Join (e :: l) nl) nl = e :: l.
Proof.
  intros H. unfold Split, Join. by rewrite split_from_Join_nl, app_empty_l.
Qed.

Lemma lookup_entries (m : GoMap) (k : string) :
  (list_to_map (entries m) : gmap string string) !! k = lookupGo m k.
Proof. destruct m as [g|]; cbn; [by rewrite list_to_map_to_list|done]. Qed.

Lemma NoDup_entries (m : GoMap) : NoDup (entries m).*1.
Proof. destruct m; cbn; [apply NoDup_fst_map_to_list|constructor]. Qed.

Lemma applyMaps_snd (fromMap toMap : GoMap) (opts : ApplyMapsOptions) :
  snd (applyMaps fromMap toMap opts)
  = Join (sort_Strings
            (List.filter (fun k => negb (exists_ (ExcludeKeys opts) k)) (entries fromMap).*1)) nl.
Proof. apply applyMaps_in_order_snd. Qed.

(** The keys read back from the recorded string are the keys that were
    recorded; the empty string is read back as the one key "". *)
Lemma managed_keys_read_back (fromMap : GoMap) (excluded : list string) (k : string) :
  (forall k, is_Some (lookupGo fromMap k) -> Contains k nl = false) ->
  exists_ (Split (Join (sort_Strings
                          (List.filter (fun k => negb (exists_ excluded k))
                             (entries fromMap).*1)) nl) nl) k = true ->
  k = "" \/ (exists_ excluded k = false /\ is_Some (lookupGo fromMap k)).
Proof.
  intros Hnl. set (keys := List.filter _ _).
  assert (Hkeys : forall k, In k (sort_Strings keys) ->
            exists_ excluded k = false /\ is_Some (lookupGo fromMap k)).
  { intros k' Hin. rewrite <- list_elem_of_In, sort_Strings_perm, list_elem_of_In in Hin.
    apply In_filter_keys in Hin. by rewrite lookup_entries in Hin. }
  destruct (sort_Strings keys) as [|e l] eqn:Es.
  - cbn. destruct k; [by left|done].
  - rewrite Split_Join_nl.
    + intros Hin%exists_In. right. by apply Hkeys.
    + apply Forall_forall. intros k' Hin%list_elem_of_In. by apply Hnl, Hkeys.
Qed.

(** X1. In the map returned by copyMaps, a key that the exclusion function
    accepts has exactly what the target map has for it (it is absent when
    the target map lacks it or is nil), and every other key has exactly what
    the source map has for it; without an exclusion function the result
    holds the entries of the source map only. *)
Theorem copyMaps_spec (fromMap toMap : GoMap) (excludeKey : string -> bool) (k : string) :
  copyMaps fromMap toMap (Some excludeKey) !! k
  = (if excludeKey k then lookupGo toMap k else lookupGo fromMap k)
  /\ copyMaps fromMap toMap None !! k = lookupGo fromMap k.
Proof. split; by rewrite copyMaps_lookup. Qed.

(** X2. In the map returned by applyMaps, an excluded key has what the
    target map has for it; a key of the source map that is not excluded has
    the source's value; a key that is neither excluded nor in the source map
    is absent when it is among the previously managed keys, and otherwise
    has what the target map has for it. *)
Theorem applyMaps_merge_spec (fromMap toMap : GoMap) (opts : ApplyMapsOptions) (k : string) :
  fst (applyMaps fromMap toMap opts) !! k
  = if exists_ (ExcludeKeys opts) k then lookupGo toMap k
    else match lookupGo fromMap k with
         | Some v => Some v
         | None => if exists_ (ManagedKeys opts) k then None else lookupGo toMap k
         end.
Proof. apply applyMaps_lookup_aux. Qed.

(** X3. The result of applyMaps, merged map and managed-key string, does not
    depend on the order in which the two maps are iterated: running its
    loops over any orderings of the entries of the source map and of the
    target map gives the same result. *)
Theorem applyMaps_order_independent (fromMap toMap : gmap string string)
    (fromEntries toEntries : list (string * string)) (opts : ApplyMapsOptions) :
  fromEntries ≡ₚ map_to_list fromMap ->
  toEntries ≡ₚ map_to_list toMap ->
  applyMaps_in_order fromEntries toEntries opts = applyMaps (Some fromMap) (Some toMap) opts.
Proof.
  intros Hf Ht. unfold applyMaps. cbn [entries].
  apply applyMaps_in_order_proper; [| |done..].
  - rewrite Hf. apply NoDup_fst_map_to_list.
  - rewrite Ht. apply NoDup_fst_map_to_list.
Qed.

(** X4. The managed-key string returned by applyMaps is the newline-join of
    a list of keys that is in ascending byte order, has no duplicates, and
    holds exactly the keys of the source map that are not excluded. *)
Theorem applyMaps_managedKeys_spec (fromMap toMap : GoMap) (opts : ApplyMapsOptions) :
  exists keys,
    snd (applyMaps fromMap toMap opts) = Join keys nl /\
    Sorted leb_rel keys /\
    NoDup keys /\
    forall k, In k keys <->
              exists_ (ExcludeKeys opts) k = false /\ is_Some (lookupGo fromMap k).
Proof.
  eexists. split; [apply applyMaps_snd|]. split; [apply sort_Strings_Sorted|]. split.
  - rewrite sort_Strings_perm.
    apply NoDup_ListNoDup, List.NoDup_filter, NoDup_ListNoDup, NoDup_entries.
  - intros k. rewrite <- list_elem_of_In, sort_Strings_perm, list_elem_of_In.
    by rewrite In_filter_keys, lookup_entries.
Qed.

(** A map whose entries all have keys without a newline, checked by
    running over the entries. *)
Lemma keys_without_newline (m : GoMap) :
  forallb (fun kv => negb (Contains (fst kv) nl)) (entries m) = true ->
  forall k, is_Some (lookupGo m k) -> Contains k nl = false.
Proof.
  intros Hall k [v Hv]. rewrite forallb_forall in Hall.
  apply negb_true_iff, (Hall (k, v)), list_elem_of_In.
  destruct m as [g|]; [|done]. by apply elem_of_map_to_list.
Qed.

(** X5. Merging again changes nothing: when no key of the source map
    contains a newline and the target map has no empty key, applying
    applyMaps to the same source map, with the merged map as target and the
    recorded managed-key string split at newlines as previously managed
    keys, returns the same merged map and the same managed-key string. *)
Theorem applyMaps_stable (fromMap toMap : GoMap) (opts : ApplyMapsOptions) :
  (forall k, is_Some (lookupGo fromMap k) -> Contains k nl = false) ->
  lookupGo toMap "" = None ->
  let first := applyMaps fromMap toMap opts in
  applyMaps fromMap (Some (fst first))
    {| ManagedKeys := Split (snd first) nl; ExcludeKeys := ExcludeKeys opts |}
  = first.
Proof.
  intros Hnl Hempty first. apply injective_projections.
  - apply map_eq. intros k. rewrite applyMaps_lookup_aux. cbn [ExcludeKeys ManagedKeys lookupGo].
    subst first. rewrite applyMaps_lookup_aux.
    destruct (exists_ (ExcludeKeys opts) k) eqn:Eex; [done|].
    destruct (lookupGo fromMap k) as [v|] eqn:Ef; [done|].
    destruct (exists_ (Split _ nl) k) eqn:Eman; [|done].
    rewrite applyMaps_snd in Eman.
    apply managed_keys_read_back in Eman as [->|[_ [v Hv]]]; [|congruence|done].
    rewrite Hempty. by destruct (exists_ (ManagedKeys opts) "").
  - subst first. by rewrite !applyMaps_snd.
Qed.


(** ** More on [SafeConcatName] *)

Lemma SafeConcatName_length name : String.length (SafeConcatName name) <= 63.
Proof.
  destruct (Nat.le_gt_cases (String.length (Join name "-")) 63) as [Hle|Hgt].
  - by rewrite SafeConcatName_short.
  - rewrite SafeConcatName_long by done.
    etransitivity; [apply length_strip_dot_dash|].
    rewrite length_app. cbn [String.length]. rewrite !length_slice_0. lia.
Qed.

Lemma strip_dot_dash_hex h : all_bytes is_hex_digit h = true -> strip_dot_dash h = h.
Proof.
  induction h as [|c|c d h IHs IHd] using string_ind2; [done..|].
  intros Hh. rewrite strip_dot_dash_cons2.
  cbn [all_bytes] in Hh. apply andb_true_iff in Hh as [Hc Hh].
  rewrite (is_hex_digit_not_dot c Hc). cbn [andb]. by rewrite IHd.
Qed.

(** The digits that follow the separator are out of reach of the
    replacement. *)
Lemma strip_dot_dash_hex_suffix p h :
  all_bytes is_hex_digit h = true ->
  strip_dot_dash (p +:+ String "-" h) = strip_dot_dash (p +:+ "-") +:+ h.
Proof.
  intros Hh. induction p as [|c|c d p IHs IHd] using string_ind2.
  - rewrite !app_empty_l. destruct h as [|e h]; [done|].
    rewrite strip_dot_dash_cons2. cbn [Ascii.eqb Bool.eqb andb].
    by rewrite strip_dot_dash_hex.
  - rewrite !app_String, !app_empty_l, !strip_dot_dash_cons2.
    rewrite Ascii.eqb_refl, andb_true_r.
    destruct (Ascii.eqb c ".").
    + by rewrite strip_dot_dash_hex.
    + rewrite app_String. f_equal. destruct h as [|e h]; [done|].
      rewrite strip_dot_dash_cons2. cbn [Ascii.eqb Bool.eqb andb].
      by rewrite strip_dot_dash_hex.
  - rewrite !app_String in *. rewrite !strip_dot_dash_cons2.
    destruct (Ascii.eqb c "." && Ascii.eqb d "-").
    + by rewrite app_String, IHs.
    + by rewrite app_String, IHd.
Qed.

Lemma strip_dot_dash_trailing_dash p :
  exists q, strip_dot_dash (p +:+ "-") = q +:+ "-" /\ String.length q <= String.length p.
Proof.
  induction p as [|c|c d p IHs IHd] using string_ind2.
  - by exists "".
  - rewrite app_String, app_empty_l, strip_dot_dash_cons2, Ascii.eqb_refl, andb_true_r.
    destruct (Ascii.eqb c "."); [exists ""|exists (String c "")]; split; cbn; (done || lia).
  - rewrite !app_String in *. rewrite strip_dot_dash_cons2.
    destruct (Ascii.eqb c "." && Ascii.eqb d "-").
    + destruct IHs as (q & -> & Hq). exists (String "-" q). split; [done|]. cbn; lia.
    + destruct IHd as (q & -> & Hq). exists (String c q). split; [done|]. cbn in *; lia.
Qed.

(** X6. SafeConcatName applied to its own result as the single input returns
    that result unchanged. *)
Theorem SafeConcatName_idempotent (name : list string) :
  SafeConcatName [SafeConcatName name] = SafeConcatName name.
Proof. apply SafeConcatName_short. cbn [Join String.concat]. apply SafeConcatName_length. Qed.

(** X7. When the "-"-join of the inputs is longer than 63 bytes, the result
    of SafeConcatName is at most 52 bytes followed by "-" and the first 10
    hexadecimal digits of the SHA-256 of the join. *)
Theorem SafeConcatName_digest_suffix (name : list string) :
  63 < String.length (Join name "-") ->
  exists q,
    SafeConcatName name = q +:+ "-" +:+ slice (sha256_hex (Join name "-")) 0 10 /\
    String.length q <= 52 /\
    String.length (SafeConcatName name) = String.length q + 11.
Proof.
  intros Hlong. rewrite SafeConcatName_long by done.
  rewrite strip_dot_dash_hex_suffix by apply all_bytes_slice_0, EncodeToString_hex.
  destruct (strip_dot_dash_trailing_dash (slice (Join name "-") 0 52)) as (q & -> & Hq).
  rewrite length_slice_0 in Hq.
  exists q. split; [by rewrite app_assoc_s|]. split; [lia|].
  rewrite !length_app, length_digest_prefix by lia. cbn [String.length]. lia.
Qed.

(** ** Suffixes *)

Lemma substring_all s : String.substring 0 (String.length s) s = s.
Proof. induction s as [|c s IH]; [done|]. cbn. by rewrite IH. Qed.

Lemma substring_app_r a b :
  String.substring (String.length a) (String.length b) (a +:+ b) = b.
Proof.
  induction a as [|c a IH]; [apply substring_all|]. by rewrite app_String.
Qed.

Lemma HasSuffix_app a b : HasSuffix (a +:+ b) b = true.
Proof.
  unfold HasSuffix, slice. rewrite length_app.
  replace (String.length a + String.length b - String.length b) with (String.length a) by lia.
  replace (String.length a + String.length b - String.length a) with (String.length b) by lia.
  rewrite substring_app_r, String.eqb_refl, andb_true_r.
  apply Nat.leb_le. lia.
Qed.


(** ** The package's [Split] *)

Example TrimSpace_example :
  TrimSpace (String "009" " a b" +:+ utf8_2 "194" "160" +:+ nl) = "a b".
Proof. vm_compute. reflexivity. Qed.

Example TrimSpace_all_space : TrimSpace ("  " +:+ utf8_3 "226" "128" "137" +:+ " ") = "".
Proof. vm_compute. reflexivity. Qed.

Example translate_Split_example :
  translate.Split " app = web = frontend " "=" = ("app", "web = frontend").
Proof. vm_compute. reflexivity. Qed.

(** Without an occurrence of the separator there is nothing to cut. *)
Lemma splitN_from_no_sep (sep : string) (s : string) : forall (budget : nat) (cur : string),
  Contains s sep = false -> splitN_from budget 0 sep cur s = [cur +:+ s].
Proof.
  induction s as [|c s IH]; intros budget cur Hs.
  - by rewrite app_nil_r_s.
  - rewrite Contains_cons in Hs. apply orb_false_elim in Hs as [Hp Hs].
    cbn [splitN_from]. destruct budget as [|b]; [done|]. rewrite Hp.
    rewrite IH by done. by rewrite app_assoc_s, app_String, app_empty_l.
Qed.

Lemma splitN_from_spent (sep s : string) : splitN_from 0 0 sep "" s = [s].
Proof. destruct s; [done|]. cbn [splitN_from]. by rewrite app_empty_l. Qed.

(** A one-byte separator is cut at its first occurrence. *)
Lemma splitN_from_first_byte (c : ascii) (a b : string) : forall (budget : nat) (cur : string),
  Contains a (String c "") = false ->
  splitN_from (S budget) 0 (String c "") cur (a +:+ String c b)
  = (cur +:+ a) :: splitN_from budget 0 (String c "") "" b.
Proof.
  induction a as [|d a IH]; intros budget cur Ha.
  - rewrite app_empty_l, app_nil_r_s. cbn [splitN_from].
    by rewrite prefix_cons, Ascii.eqb_refl, prefix_nil.
  - rewrite Contains_cons in Ha. apply orb_false_elim in Ha as [Hd Ha].
    rewrite prefix_cons, prefix_nil, andb_true_r in Hd.
    rewrite app_String. cbn [splitN_from].
    rewrite prefix_cons, prefix_nil, andb_true_r, Hd.
    rewrite IH by done. by rewrite app_assoc_s, app_String, app_empty_l.
Qed.

Lemma splitN_from_spent_length (sep s : string) : forall (skip : nat) (cur : string),
  List.length (splitN_from 0 skip sep cur s) = 1.
Proof.
  induction s as [|c s IH]; intros skip cur; cbn [splitN_from]; [done|].
  destruct skip; [done|apply IH].
Qed.

(** [SplitN(s, sep, 2)] has one or two parts: [parts[0]] is in range. *)
Lemma SplitN_2_length (s sep : string) :
  List.length (SplitN s sep 2) = 1 \/ List.length (SplitN s sep 2) = 2.
Proof.
  unfold SplitN.
  assert (H : forall skip cur,
            List.length (splitN_from 1 skip sep cur s) = 1 \/
            List.length (splitN_from 1 skip sep cur s) = 2); [|apply H].
  induction s as [|c s IH]; intros skip cur; cbn [splitN_from]; [by left|].
  destruct skip as [|k]; [|apply IH].
  destruct (String.prefix sep (String c s)); [|apply IH].
  right. cbn [List.length]. by rewrite splitN_from_spent_length.
Qed.

(** X8. Split(s, sep) of a string in which the separator does not occur
    returns the string with its surrounding white space removed, and the
    empty string. *)
Theorem translate_Split_no_separator (s sep : string) :
  Contains s sep = false ->
  translate.Split s sep = (TrimSpace s, "").
Proof.
  intros Hs. unfold translate.Split, SplitN. cbv zeta.
  rewrite splitN_from_no_sep by done. by rewrite app_empty_l.
Qed.

(** X9. For a one-byte separator, Split cuts at the first occurrence only:
    for a string a in which the separator does not occur, Split(a + sep + b,
    sep) returns a and b, each with its surrounding white space removed,
    whatever b holds. *)
Theorem translate_Split_first_separator (c : ascii) (a b : string) :
  Contains a (String c "") = false ->
  translate.Split (a +:+ String c b) (String c "") = (TrimSpace a, TrimSpace b).
Proof.
  intros Ha. unfold translate.Split, SplitN. cbv zeta.
  rewrite splitN_from_first_byte, splitN_from_spent by done.
  by rewrite app_empty_l.
Qed.


(** ** [MergeLabelSelectors] *)

Lemma range_insert_union (m : GoMap) (acc : gmap string string) :
  range m (fun k v a => <[k := v]> a) acc = default ∅ m ∪ acc.
Proof.
  apply map_eq. intros k. unfold range.
  pose proof (range_list_insert_if (fun _ => true) (entries m) (NoDup_entries m) acc k) as H.
  cbn beta iota in H. rewrite H.
  rewrite lookup_entries, lookup_union. unfold lookupGo.
  clear H. destruct m as [g|]; cbn.
  - by destruct (g !! k), (acc !! k).
  - rewrite lookup_empty. by destruct (acc !! k).
Qed.

Lemma mergeOne_labels (out sel : LabelSelector) :
  MatchLabels (mergeOne out (Some sel))
  = if 0 <? len (MatchLabels sel) then Some (labelsOf sel ∪ labelsOf out) else MatchLabels out.
Proof.
  cbn [mergeOne MatchLabels]. destruct (0 <? len (MatchLabels sel)); [|done].
  by rewrite range_insert_union.
Qed.

Lemma len_0_labelsOf (sel : LabelSelector) :
  (0 <? len (MatchLabels sel)) = false -> labelsOf sel = ∅.
Proof.
  unfold labelsOf, len. destruct (MatchLabels sel) as [g|]; [|done].
  intros H%Nat.ltb_ge. apply map_size_empty_iff. lia.
Qed.

Lemma len_pos_labelsOf (sel : LabelSelector) :
  (0 <? len (MatchLabels sel)) = true -> labelsOf sel <> ∅.
Proof.
  unfold labelsOf, len. destruct (MatchLabels sel) as [g|]; [|done].
  intros H%Nat.ltb_lt ->. rewrite map_size_empty in H. lia.
Qed.

Lemma labelsOf_mergeOne (out sel : LabelSelector) :
  labelsOf (mergeOne out (Some sel)) = labelsOf sel ∪ labelsOf out.
Proof.
  unfold labelsOf at 1. rewrite mergeOne_labels.
  destruct (0 <? len (MatchLabels sel)) eqn:E; [done|].
  rewrite (len_0_labelsOf sel E). by rewrite (left_id_L ∅ (∪)).
Qed.

Lemma tidy_mergeOne (out : LabelSelector) (selector : option LabelSelector) :
  tidy out -> tidy (mergeOne out selector).
Proof.
  intros Hout. destruct selector as [sel|]; [|done].
  unfold tidy. rewrite mergeOne_labels.
  destruct (0 <? len (MatchLabels sel)) eqn:E; [|done].
  intros [= Hu]. apply map_positive_l in Hu. by apply (len_pos_labelsOf sel E).
Qed.

Lemma tidy_fold (elems : list (option LabelSelector)) : forall out,
  tidy out -> tidy (List.fold_left mergeOne elems out).
Proof.
  induction elems as [|s elems IH]; intros out Hout; [done|].
  cbn [fold_left]. by apply IH, tidy_mergeOne.
Qed.

Lemma tidy_MergeLabelSelectors elems : tidy (MergeLabelSelectors elems).
Proof. by apply tidy_fold. Qed.

Lemma LabelSelector_eq (a b : LabelSelector) :
  MatchLabels a = MatchLabels b -> MatchExpressions a = MatchExpressions b -> a = b.
Proof. destruct a, b; cbn; by intros -> ->. Qed.

Lemma mergeOne_assoc (x y : LabelSelector) (s : option LabelSelector) :
  mergeOne (mergeOne x (Some y)) s = mergeOne x (Some (mergeOne y s)).
Proof.
  destruct s as [sel|]; [|done]. apply LabelSelector_eq.
  - rewrite !mergeOne_labels, !labelsOf_mergeOne.
    destruct (0 <? len (MatchLabels sel)) eqn:E.
    + replace (0 <? len (Some (labelsOf sel ∪ labelsOf y))) with true.
      * by rewrite (assoc_L (∪)).
      * symmetry. apply Nat.ltb_lt. cbn [len].
        destruct (decide (size (labelsOf sel ∪ labelsOf y) = 0)) as [H0|]; [|lia].
        apply map_size_empty_iff, map_positive_l in H0.
        by apply (len_pos_labelsOf sel E) in H0.
    + destruct (0 <? len (MatchLabels y)) eqn:Ey; [|done].
      by rewrite (len_0_labelsOf sel E), (left_id_L ∅ (∪)).
  - cbn [mergeOne MatchExpressions]. by rewrite app_assoc.
Qed.

Lemma mergeOne_empty_r (x : LabelSelector) :
  mergeOne x (Some {| MatchLabels := None; MatchExpressions := [] |}) = x.
Proof. apply LabelSelector_eq; cbn; [done|by rewrite app_nil_r]. Qed.

Lemma mergeOne_empty_l (y : LabelSelector) :
  tidy y -> mergeOne {| MatchLabels := None; MatchExpressions := [] |} (Some y) = y.
Proof.
  intros Hy. apply LabelSelector_eq; [|done].
  rewrite mergeOne_labels. unfold labelsOf at 2. cbn [MatchLabels].
  rewrite (right_id_L ∅ (∪)). unfold labelsOf, len, tidy in *.
  destruct (MatchLabels y) as [g|]; [|done].
  destruct (Nat.ltb_spec 0 (size g)); [done|].
  assert (g = ∅) as -> by (apply map_size_empty_iff; lia). done.
Qed.

Lemma fold_mergeOne (elems : list (option LabelSelector)) (x : LabelSelector) :
  List.fold_left mergeOne elems x = mergeOne x (Some (MergeLabelSelectors elems)).
Proof.
  unfold MergeLabelSelectors.
  induction elems as [|s elems IH] using rev_ind.
  - cbn [fold_left]. by rewrite mergeOne_empty_r.
  - by rewrite !fold_left_app; cbn [fold_left]; rewrite IH, mergeOne_assoc.
Qed.

(** X10. Selectors can be merged in groups: MergeLabelSelectors of one list
    of selectors followed by another equals MergeLabelSelectors of the two
    merged results. *)
Theorem MergeLabelSelectors_assoc (a b : list (option LabelSelector)) :
  MergeLabelSelectors (a ++ b)
  = MergeLabelSelectors [Some (MergeLabelSelectors a); Some (MergeLabelSelectors b)].
Proof.
  unfold MergeLabelSelectors at 1 2. rewrite fold_left_app. cbn [fold_left].
  fold (MergeLabelSelectors a).
  by rewrite fold_mergeOne, mergeOne_empty_l by apply tidy_MergeLabelSelectors.
Qed.

(** X11. Passing one more selector to MergeLabelSelectors overrides exactly
    the label keys that selector has, every other key keeping the value
    merged so far, and appends its match expressions after those merged so
    far; one more nil selector changes nothing. *)
Theorem MergeLabelSelectors_later_wins (elems : list (option LabelSelector))
    (sel : LabelSelector) (k : string) :
  lookupGo (MatchLabels (MergeLabelSelectors (elems ++ [Some sel]))) k
  = match lookupGo (MatchLabels sel) k with
    | Some v => Some v
    | None => lookupGo (MatchLabels (MergeLabelSelectors elems)) k
    end
  /\ MatchExpressions (MergeLabelSelectors (elems ++ [Some sel]))
     = MatchExpressions (MergeLabelSelectors elems) ++ MatchExpressions sel
  /\ MergeLabelSelectors (elems ++ [None]) = MergeLabelSelectors elems.
Proof.
  unfold MergeLabelSelectors. rewrite !fold_left_app. cbn [fold_left].
  split; [|done].
  assert (Hl : forall s : LabelSelector, lookupGo (MatchLabels s) k = labelsOf s !! k).
  { intros s. unfold lookupGo, labelsOf. by destruct (MatchLabels s). }
  rewrite !Hl, labelsOf_mergeOne, lookup_union.
  by destruct (labelsOf sel !! k), (labelsOf _ !! k).
Qed.

(** X12. The MatchLabels map of the selector MergeLabelSelectors returns is
    never an empty map that is not nil, and it is nil exactly when every
    selector passed in that is not nil has no match labels. *)
Theorem MergeLabelSelectors_nil_labels (elems : list (option LabelSelector)) :
  MatchLabels (MergeLabelSelectors elems) <> Some ∅ /\
  (MatchLabels (MergeLabelSelectors elems) = None <->
   forall sel, In (Some sel) elems -> len (MatchLabels sel) = 0).
Proof.
  split; [apply tidy_MergeLabelSelectors|].
  induction elems as [|s elems IH] using rev_ind.
  - cbn. split; [by intros _ sel []|done].
  - unfold MergeLabelSelectors in *. rewrite fold_left_app. cbn [fold_left].
    destruct s as [sel|].
    + rewrite mergeOne_labels. destruct (Nat.ltb_spec 0 (len (MatchLabels sel))) as [Hpos|Hz].
      * split; [done|]. intros Hall.
        assert (len (MatchLabels sel) = 0) by (apply Hall, in_app_iff; right; by left).
        lia.
      * rewrite IH. split.
        -- intros Hall sel' [Hin|[[= <-]|[]]]%in_app_iff; [by apply Hall|lia].
        -- intros Hall sel' Hin. apply Hall, in_app_iff. by left.
    + cbn [mergeOne]. rewrite IH. split.
      * intros Hall sel' [Hin|[[=]|[]]]%in_app_iff. by apply Hall.
      * intros Hall sel' Hin. apply Hall, in_app_iff. by left.
Qed.


(** ** More on the schema reconciler *)

(** X13. ConvertKindToResource succeeds exactly when KindExists does, with
    the group and version of the kind asked for and the name of the resource
    KindExists returns, and fails with the same error otherwise; the
    resource KindExists returns has the kind asked for, and its error is the
    discovery client's, the server's, or a not-found error for the group and
    kind. *)
Theorem ConvertKindToResource_KindExists (config : Cluster) (gvk : GroupVersionKind) :
  ConvertKindToResource config gvk
  = match KindExists config gvk with
    | Ok r => Ok {| gvr_Group := gvk_Group gvk;
                    gvr_Version := gvk_Version gvk;
                    gvr_Resource := res_Name r |}
    | Err e => Err e
    end
  /\ match KindExists config gvk with
     | Ok r => res_Kind r = gvk_Kind gvk
     | Err e =>
         NewDiscoveryClientForConfig config = Some e \/
         ServerResourcesForGroupVersion config (GroupVersion_String gvk) = Err e \/
         (e = NewNotFound (gvk_Group gvk) (gvk_Kind gvk) /\ IsNotFound e = true)
     end.
Proof.
  unfold ConvertKindToResource, KindExists.
  destruct (NewDiscoveryClientForConfig config) as [e|]; [by split; [|left]|].
  destruct (ServerResourcesForGroupVersion config _) as [resources|e]; [|by split; [|right; left]].
  destruct (List.find _ resources) as [r|] eqn:Ef.
  - split; [done|]. apply find_some in Ef as [_ Hk]. by apply String.eqb_eq.
  - split; [done|]. right. right. by split.
Qed.




(** ** The merge of annotations and labels *)

Lemma applyMaps_managedKeysOf (fromMap toMap : GoMap) (opts : ApplyMapsOptions) :
  snd (applyMaps fromMap toMap opts) = managedKeysOf fromMap (ExcludeKeys opts).
Proof. apply applyMaps_snd. Qed.

Lemma applyMaps_pair (fromMap toMap : GoMap) (opts : ApplyMapsOptions) :
  applyMaps fromMap toMap opts
  = (fst (applyMaps fromMap toMap opts), managedKeysOf fromMap (ExcludeKeys opts)).
Proof. rewrite <- (applyMaps_managedKeysOf fromMap toMap opts). by destruct (applyMaps _ _ _). Qed.

Lemma lookupGo_made (m : GoMap) (k : string) :
  lookupGo (match m with None => Some ∅ | Some _ => m end) k = lookupGo m k.
Proof. destruct m; [done|]. apply lookup_empty. Qed.

Lemma index_lookupGo (m : GoMap) (k : string) : index m k = default "" (lookupGo m k).
Proof. by destruct m. Qed.

Lemma index_made (m : GoMap) (k : string) :
  index (match m with None => Some ∅ | Some _ => m end) k = index m k.
Proof. by rewrite !index_lookupGo, lookupGo_made. Qed.

Lemma lookup_recorded (key : string) (managedKeys : string) (m : gmap string string)
    (k : string) :
  (if String.eqb managedKeys "" then delete key m else <[key := managedKeys]> m) !! k
  = if String.eqb k key then recorded managedKeys else m !! k.
Proof.
  unfold recorded. destruct (String.eqb_spec k key) as [->|Hne].
  - destruct (String.eqb managedKeys ""); [apply lookup_delete_eq|apply lookup_insert_eq].
  - destruct (String.eqb managedKeys "");
      [by rewrite lookup_delete_ne|by rewrite lookup_insert_ne].
Qed.

Lemma index_recorded (m : gmap string string) (key managedKeys : string) :
  m !! key = recorded managedKeys -> index (Some m) key = managedKeys.
Proof.
  cbn [index]. intros ->. unfold recorded.
  by destruct (String.eqb_spec managedKeys "") as [->|].
Qed.

(** [applyAnnotations], one key at a time. *)
Lemma applyAnnotations_lookup (fromAnnotations toAnnotations : GoMap)
    (excludeAnnotations : list string) (k : string) :
  applyAnnotations fromAnnotations toAnnotations excludeAnnotations !! k
  = if String.eqb k ManagedAnnotationsAnnotation
    then recorded (managedKeysOf fromAnnotations
                     ([ManagedAnnotationsAnnotation; ManagedLabelsAnnotation]
                      ++ excludeAnnotations))
    else if String.eqb ManagedLabelsAnnotation k || exists_ excludeAnnotations k
    then lookupGo toAnnotations k
    else match lookupGo fromAnnotations k with
         | Some v => Some v
         | None =>
             if exists_ (Split (index toAnnotations ManagedAnnotationsAnnotation) nl) k
             then None else lookupGo toAnnotations k
         end.
Proof.
  unfold applyAnnotations. rewrite applyMaps_pair. cbn [ExcludeKeys].
  rewrite lookup_recorded.
  destruct (String.eqb_spec k ManagedAnnotationsAnnotation) as [->|Hne]; [done|].
  rewrite applyMaps_lookup_aux. cbn [ExcludeKeys ManagedKeys app exists_].
  rewrite lookupGo_made, index_made.
  destruct (String.eqb_spec ManagedAnnotationsAnnotation k) as [<-|_]; [done|].
  by destruct (String.eqb ManagedLabelsAnnotation k).
Qed.

(** [applyLabels], one key at a time. *)
Lemma applyLabels_lookup (fromLabels toLabels toAnnotations : GoMap) (k : string) :
  fst (applyLabels fromLabels toLabels toAnnotations) !! k
  = (if String.eqb ManagedAnnotationsAnnotation k || String.eqb ManagedLabelsAnnotation k
     then lookupGo toLabels k
     else match lookupGo fromLabels k with
          | Some v => Some v
          | None =>
              if exists_ (Split (index toAnnotations ManagedLabelsAnnotation) nl) k
              then None else lookupGo toLabels k
          end)
  /\ snd (applyLabels fromLabels toLabels toAnnotations) !! k
     = if String.eqb k ManagedLabelsAnnotation
       then recorded (managedKeysOf fromLabels
                        [ManagedAnnotationsAnnotation; ManagedLabelsAnnotation])
       else lookupGo toAnnotations k.
Proof.
  unfold applyLabels. rewrite applyMaps_pair. cbn [ExcludeKeys fst snd]. split.
  - rewrite applyMaps_lookup_aux. cbn [ExcludeKeys ManagedKeys exists_].
    rewrite index_made.
    destruct (String.eqb ManagedAnnotationsAnnotation k); [done|].
    by destruct (String.eqb ManagedLabelsAnnotation k).
  - rewrite lookup_recorded.
    destruct (String.eqb k ManagedLabelsAnnotation); [done|].
    rewrite range_insert_union, (right_id_L ∅ (∪)).
    by destruct toAnnotations.
Qed.

(** [ApplyMetadata], one key at a time: the labels are merged with the
    managed label keys that the target's annotations recorded, the merge of
    the annotations before it does not touch that record. *)
Lemma ApplyMetadata_lookup (fromAnnotations toAnnotations fromLabels toLabels : GoMap)
    (excludeAnnotations : list string) (k : string) :
  ManagedAnnotationsAnnotation <> ManagedLabelsAnnotation ->
  let merged :=
    ApplyMetadata fromAnnotations toAnnotations fromLabels toLabels excludeAnnotations in
  fst merged !! k
  = (if String.eqb ManagedAnnotationsAnnotation k || String.eqb ManagedLabelsAnnotation k
     then lookupGo toLabels k
     else match lookupGo fromLabels k with
          | Some v => Some v
          | None =>
              if exists_ (Split (index toAnnotations ManagedLabelsAnnotation) nl) k
              then None else lookupGo toLabels k
          end)
  /\ snd merged !! k
     = if String.eqb k ManagedLabelsAnnotation
       then recorded (managedKeysOf fromLabels
                        [ManagedAnnotationsAnnotation; ManagedLabelsAnnotation])
       else if String.eqb k ManagedAnnotationsAnnotation
       then recorded (managedKeysOf fromAnnotations
                        ([ManagedAnnotationsAnnotation; ManagedLabelsAnnotation]
                         ++ excludeAnnotations))
       else if exists_ excludeAnnotations k
       then lookupGo toAnnotations k
       else match lookupGo fromAnnotations k with
            | Some v => Some v
            | None =>
                if exists_ (Split (index toAnnotations ManagedAnnotationsAnnotation) nl) k
                then None else lookupGo toAnnotations k
            end.
Proof.
  intros Hne. cbv zeta. unfold ApplyMetadata.
  destruct (applyLabels_lookup fromLabels toLabels
              (Some (applyAnnotations fromAnnotations toAnnotations excludeAnnotations)) k)
    as [-> ->].
  assert (Hml : index (Some (applyAnnotations fromAnnotations toAnnotations excludeAnnotations))
                  ManagedLabelsAnnotation
                = index toAnnotations ManagedLabelsAnnotation).
  { rewrite !index_lookupGo. cbn [lookupGo]. rewrite applyAnnotations_lookup.
    destruct (String.eqb_spec ManagedLabelsAnnotation ManagedAnnotationsAnnotation);
      [congruence|].
    by rewrite String.eqb_refl. }
  rewrite Hml. split; [done|].
  destruct (String.eqb_spec k ManagedLabelsAnnotation) as [->|Hk]; [done|].
  cbn [lookupGo]. rewrite applyAnnotations_lookup.
  destruct (String.eqb k ManagedAnnotationsAnnotation); [done|].
  destruct (String.eqb_spec ManagedLabelsAnnotation k); [congruence|done].
Qed.

(** What a merge records under a bookkeeping key is read back as recorded,
    except that nothing recorded reads as the one key "". *)
Lemma recorded_read_back (fromMap : GoMap) (excluded : list string) (k : string) :
  (forall k, is_Some (lookupGo fromMap k) -> Contains k nl = false) ->
  exists_ (Split (managedKeysOf fromMap excluded) nl) k = true ->
  lookupGo fromMap k = None ->
  k = "".
Proof.
  intros Hnl Hin Hk. apply managed_keys_read_back in Hin as [->|[_ [v Hv]]]; [done| |done].
  congruence.
Qed.

(** X16. With distinct bookkeeping keys, the labels ApplyMetadata returns
    are the merge of the source labels into the target labels under the
    managed label keys that the target annotations record (the two
    bookkeeping keys are left as the target labels have them); the
    annotations it returns are the merge of the source annotations into the
    target annotations under the recorded managed annotation keys, excluded
    keys left as the target has them, and each bookkeeping key set to the
    new list of managed keys, or deleted when that list is empty. *)
Theorem ApplyMetadata_spec (fromAnnotations toAnnotations fromLabels toLabels : GoMap)
    (excludeAnnotations : list string) (k : string) :
  ManagedAnnotationsAnnotation <> ManagedLabelsAnnotation ->
  let merged :=
    ApplyMetadata fromAnnotations toAnnotations fromLabels toLabels excludeAnnotations in
  fst merged !! k
  = (if String.eqb ManagedAnnotationsAnnotation k || String.eqb ManagedLabelsAnnotation k
     then lookupGo toLabels k
     else match lookupGo fromLabels k with
          | Some v => Some v
          | None =>
              if exists_ (Split (index toAnnotations ManagedLabelsAnnotation) nl) k
              then None else lookupGo toLabels k
          end)
  /\ snd merged !! k
     = if String.eqb k ManagedLabelsAnnotation
       then recorded (managedKeysOf fromLabels
                        [ManagedAnnotationsAnnotation; ManagedLabelsAnnotation])
       else if String.eqb k ManagedAnnotationsAnnotation
       then recorded (managedKeysOf fromAnnotations
                        ([ManagedAnnotationsAnnotation; ManagedLabelsAnnotation]
                         ++ excludeAnnotations))
       else if exists_ excludeAnnotations k
       then lookupGo toAnnotations k
       else match lookupGo fromAnnotations k with
            | Some v => Some v
            | None =>
                if exists_ (Split (index toAnnotations ManagedAnnotationsAnnotation) nl) k
                then None else lookupGo toAnnotations k
            end.
Proof. apply ApplyMetadata_lookup. Qed.

(** X17. ApplyMetadata is stable: with distinct bookkeeping keys, source
    keys without newlines and target maps without an empty key, applying it
    again to the same sources with its own results as targets returns the
    same labels and the same annotations. *)
Theorem ApplyMetadata_stable (fromAnnotations toAnnotations fromLabels toLabels : GoMap)
    (excludeAnnotations : list string) :
  ManagedAnnotationsAnnotation <> ManagedLabelsAnnotation ->
  (forall k, is_Some (lookupGo fromAnnotations k) -> Contains k nl = false) ->
  (forall k, is_Some (lookupGo fromLabels k) -> Contains k nl = false) ->
  lookupGo toAnnotations "" = None ->
  lookupGo toLabels "" = None ->
  let merged :=
    ApplyMetadata fromAnnotations toAnnotations fromLabels toLabels excludeAnnotations in
  ApplyMetadata fromAnnotations (Some (snd merged)) fromLabels (Some (fst merged))
    excludeAnnotations
  = merged.
Proof.
  intros Hne HnlA HnlL HeA HeL merged.
  pose proof (fun k => ApplyMetadata_lookup fromAnnotations toAnnotations fromLabels toLabels
                         excludeAnnotations k Hne) as Hfirst.
  cbv zeta in Hfirst. fold merged in Hfirst.
  assert (HiL : index (Some (snd merged)) ManagedLabelsAnnotation
                = managedKeysOf fromLabels
                    [ManagedAnnotationsAnnotation; ManagedLabelsAnnotation]).
  { apply index_recorded. rewrite (proj2 (Hfirst _)). by rewrite String.eqb_refl. }
  assert (HiA : index (Some (snd merged)) ManagedAnnotationsAnnotation
                = managedKeysOf fromAnnotations
                    ([ManagedAnnotationsAnnotation; ManagedLabelsAnnotation]
                     ++ excludeAnnotations)).
  { apply index_recorded. rewrite (proj2 (Hfirst _)).
    destruct (String.eqb_spec ManagedAnnotationsAnnotation ManagedLabelsAnnotation);
      [done|].
    by rewrite String.eqb_refl. }
  apply injective_projections; apply map_eq; intros k;
    destruct (ApplyMetadata_lookup fromAnnotations (Some (snd merged)) fromLabels
                (Some (fst merged)) excludeAnnotations k Hne) as [HL HA];
    cbv zeta in HL, HA; destruct (Hfirst k) as [H1L H1A].
  - rewrite HL, HiL. cbn [lookupGo]. clear HL HA.
    destruct (String.eqb ManagedAnnotationsAnnotation k
              || String.eqb ManagedLabelsAnnotation k) eqn:Ebk; [done|].
    destruct (lookupGo fromLabels k) as [v|] eqn:Ef; [by rewrite H1L|].
    destruct (exists_ (Split (managedKeysOf fromLabels _) nl) k) eqn:Eman; [|done].
    apply recorded_read_back in Eman; [|done..]. subst k.
    rewrite H1L, HeL. clear. by case_match.
  - rewrite HA, HiA. cbn [lookupGo]. clear HL HA.
    destruct (String.eqb k ManagedLabelsAnnotation); [by rewrite H1A|].
    destruct (String.eqb k ManagedAnnotationsAnnotation); [by rewrite H1A|].
    destruct (exists_ excludeAnnotations k); [done|].
    destruct (lookupGo fromAnnotations k) as [v|] eqn:Ef; [by rewrite H1A|].
    destruct (exists_ (Split (managedKeysOf fromAnnotations _) nl) k) eqn:Eman; [|done].
    apply recorded_read_back in Eman; [|done..]. subst k.
    rewrite H1A, HeA. clear. by case_match.
Qed.

(** ** Label maps beside their nil cases *)

(** Adding the existing labels back never overwrites a label. *)
Lemma addExisting_keeps (pLabels : GoMap) (newLabels : gmap string string) (k : string) :
  is_Some (newLabels !! k) -> addExisting pLabels newLabels !! k = newLabels !! k.
Proof.
  unfold addExisting, range, range_list. generalize (entries pLabels) as l.
  intros l. revert newLabels. induction l as [|[k0 v0] l IH]; intros m Hk; [done|].
  cbn [fold_left fst snd].
  destruct (HasPrefix k0 "vcluster.loft.sh/"); [by apply IH|].
  destruct (m !! k0) eqn:E0; [by apply IH|].
  assert (k0 <> k) by (intros ->; rewrite E0 in Hk; by destruct Hk).
  rewrite IH; rewrite lookup_insert_ne; done.
Qed.

(** Every existing label that does not carry the prefix "vcluster.loft.sh/"
    is a key of the result. *)
Lemma addExisting_adds (pLabels : GoMap) (newLabels : gmap string string) (k : string) :
  is_Some (lookupGo pLabels k) -> HasPrefix k "vcluster.loft.sh/" = false ->
  is_Some (addExisting pLabels newLabels !! k).
Proof.
  intros Hk Hpre. rewrite <- lookup_entries in Hk.
  apply not_eq_None_Some in Hk. rewrite <- not_elem_of_list_to_map in Hk.
  assert (Hin : k ∈ (entries pLabels).*1 \/ is_Some (newLabels !! k))
    by (left; by destruct (decide (k ∈ (entries pLabels).*1))).
  clear Hk. unfold addExisting, range, range_list. revert Hin.
  generalize (entries pLabels) as l. intros l. revert newLabels.
  induction l as [|[k0 v0] l IH]; intros m Hin.
  - destruct Hin as [Hin|Hin]; [by apply elem_of_nil in Hin|done].
  - cbn [fold_left fst snd]. apply IH. cbn [fmap list_fmap fst] in Hin.
    rewrite elem_of_cons in Hin. destruct Hin as [[->|Hin]|Hm]; [right|by left|right].
    + rewrite Hpre. destruct (m !! k0) eqn:E0; [by rewrite E0|].
      rewrite lookup_insert_eq. by eexists.
    + destruct (HasPrefix k0 "vcluster.loft.sh/"); [done|].
      destruct (m !! k0); [done|]. apply lookup_insert_is_Some'. by right.
Qed.

(** X18. When the translator targets a single namespace and the virtual
    namespace has no declared mapping, the labels HostLabelsMap returns for
    a virtual label map that is not nil carry the marker label with the
    vcluster name, the namespace label with the virtual namespace when that
    is not empty, and the controller label of the existing host labels when
    that is not empty, whatever the virtual labels translate to (the three
    label keys being distinct). *)
Theorem HostLabelsMap_reserved_labels (vLabels : gmap string string) (pLabels : GoMap)
    (vNamespace : string) (ctx : Ctx) :
  MarkerLabel <> NamespaceLabel ->
  ControllerLabel <> MarkerLabel ->
  ControllerLabel <> NamespaceLabel ->
  snd (pro_VirtualNamespaceMatchesMapping ctx vNamespace) = false ->
  SingleNamespaceTarget Default = true ->
  exists newLabels,
    fst (HostLabelsMap (Some vLabels) pLabels vNamespace ctx) = Some newLabels /\
    newLabels !! MarkerLabel = Some VClusterName /\
    (vNamespace <> "" -> newLabels !! NamespaceLabel = Some vNamespace) /\
    (index pLabels ControllerLabel <> "" ->
     newLabels !! ControllerLabel = Some (index pLabels ControllerLabel)).
Proof.
  intros Hmn Hcm Hcn Hmap Hsingle. unfold HostLabelsMap.
  rewrite Hmap, Hsingle. cbn [negb orb]. rewrite bind_run. cbn [ret fst].
  set (translated := fst (range_sync _ _ _ _)).
  eexists. split; [reflexivity|]. split; [|split].
  - rewrite addExisting_keeps;
      (destruct (negb (String.eqb (index pLabels ControllerLabel) ""));
         [rewrite lookup_insert_ne by done|];
       (destruct (negb (String.eqb vNamespace ""));
          [rewrite lookup_insert_ne by done|rewrite lookup_delete_ne by done]);
       rewrite lookup_insert_eq; by eauto).
  - intros Hns. rewrite (eqb_empty_false _ Hns). cbn [negb].
    rewrite addExisting_keeps;
      (destruct (negb (String.eqb (index pLabels ControllerLabel) ""));
         [rewrite lookup_insert_ne by done|];
       rewrite lookup_insert_eq; by eauto).
  - intros Hc. rewrite (eqb_empty_false _ Hc). cbn [negb].
    rewrite addExisting_keeps; rewrite lookup_insert_eq; by eauto.
Qed.

(** X19. Every key of a host label map that does not start with
    "vcluster.loft.sh/" is a key of the map VirtualLabelsMapCluster returns
    for it. *)
Theorem VirtualLabelsMapCluster_keeps_host_labels (pLabels : gmap string string)
    (vLabels : GoMap) (excluded : list string) (ctx : Ctx) (k : string) :
  is_Some (pLabels !! k) ->
  HasPrefix k "vcluster.loft.sh/" = false ->
  exists retLabels,
    fst (VirtualLabelsMapCluster (Some pLabels) vLabels excluded ctx) = Some retLabels /\
    is_Some (retLabels !! k).
Proof.
  intros Hk Hpre. unfold VirtualLabelsMapCluster. rewrite bind_run. cbn [ret fst].
  eexists. split; [reflexivity|]. by apply addExisting_adds.
Qed.

(** X20. HostLabels and VirtualLabels never return a nil map, also for an
    object that has no labels. *)
Theorem Labels_never_nil (obj : Object) (other : option Object) (vNamespace : string)
    (ctx : Ctx) :
  fst (HostLabels obj other ctx) <> None /\
  fst (VirtualLabels obj other vNamespace ctx) <> None.
Proof.
  split.
  - unfold HostLabels. destruct (String.eqb (obj_Namespace obj) "").
    + unfold HostLabelsMapCluster. by rewrite bind_run.
    + unfold HostLabelsMap.
      destruct (obj_Labels obj); (destruct (snd _ || negb _); [done|]); by rewrite bind_run.
  - unfold VirtualLabels. destruct (String.eqb (obj_Namespace obj) "").
    + unfold VirtualLabelsMapCluster. destruct (obj_Labels obj); by rewrite bind_run.
    + unfold VirtualLabelsMap.
      destruct (obj_Labels obj); (destruct (snd _ || negb _); [done|]); by rewrite bind_run.
Qed.

(** ** Label selectors, virtual to host *)

Lemma hostMatchExpressions_spec (labelFunc : string -> Sync string)
    (rs : list LabelSelectorRequirement) : forall ctx,
  List.map req_Operator (fst (hostMatchExpressions labelFunc rs ctx))
  = List.map req_Operator rs /\
  List.map req_Values (fst (hostMatchExpressions labelFunc rs ctx))
  = List.map req_Values rs.
Proof.
  induction rs as [|r rs IH]; intros ctx; [done|].
  cbn [hostMatchExpressions]. rewrite !bind_run. cbn [ret fst List.map].
  destruct (IH (snd (labelFunc (req_Key r) ctx))) as [-> ->]. done.
Qed.

Lemma hostMatchExpressions_pure (f : string -> string) (rs : list LabelSelectorRequirement)
    (ctx : Ctx) :
  hostMatchExpressions (fun k => ret (f k)) rs ctx
  = (List.map (fun r => {| req_Key := f (req_Key r); req_Operator := req_Operator r;
                           req_Values := req_Values r |}) rs, ctx).
Proof.
  induction rs as [|r rs IH]; [done|].
  cbn [hostMatchExpressions List.map]. rewrite !bind_run. cbn [ret fst snd].
  by rewrite IH.
Qed.

(** X21. hostLabelSelector returns nil for a nil selector; for any other
    selector it returns a selector whose MatchLabels is nil exactly when
    that of the input is, and whose requirements have, in the same order,
    the operators and the values of the requirements of the input. *)
Theorem hostLabelSelector_spec (labelFunc : string -> Sync string) (sel : LabelSelector)
    (ctx : Ctx) :
  fst (hostLabelSelector None labelFunc ctx) = None /\
  exists out,
    fst (hostLabelSelector (Some sel) labelFunc ctx) = Some out /\
    (MatchLabels out = None <-> MatchLabels sel = None) /\
    List.map req_Operator (MatchExpressions out) = List.map req_Operator (MatchExpressions sel) /\
    List.map req_Values (MatchExpressions out) = List.map req_Values (MatchExpressions sel).
Proof.
  split; [done|]. unfold hostLabelSelector. rewrite !bind_run. cbn [ret fst].
  eexists. split; [reflexivity|]. cbn [MatchLabels MatchExpressions]. split.
  - destruct (MatchLabels sel); [|done]. by rewrite bind_run.
  - apply hostMatchExpressions_spec.
Qed.

(** ** Targeted namespaces, annotations of whole objects *)

Section ManagedProperties.

Variable pro_HostNamespaceMatchesMapping : Ctx -> string -> string * bool.
Variable GVKForObject : Object -> result GroupVersionKind.

(** X22. A host namespace that the multi-namespace translator derives with
    HostNamespace for a virtual namespace without a declared mapping is
    recognised by IsTargetedNamespace of the same translator, whatever the
    mappings declared on the host side are. *)
Theorem IsTargetedNamespace_HostNamespace (s : multiNamespace) (ctx ctx' : Ctx)
    (vNamespace : string) :
  snd (pro_VirtualNamespaceMatchesMapping ctx vNamespace) = false ->
  multiNamespace_IsTargetedNamespace pro_HostNamespaceMatchesMapping s ctx'
    (multiNamespace_HostNamespace s ctx vNamespace) = true.
Proof.
  intros Hno. unfold multiNamespace_IsTargetedNamespace.
  destruct (snd (pro_HostNamespaceMatchesMapping ctx' _)); [done|].
  unfold multiNamespace_HostNamespace.
  destruct (pro_VirtualNamespaceMatchesMapping ctx vNamespace) as [pNamespace ok].
  cbn in Hno. subst ok. unfold hostNamespace, HasPrefix.
  rewrite prefix_app. cbn [andb].
  rewrite <- !app_assoc_s. apply HasSuffix_app.
Qed.

(** What [HostAnnotations] leaves under a key that is none of the four it
    writes itself. *)
Lemma HostAnnotations_lookup_other (vObj : Object) (pObj : option Object)
    (excluded : list string) (k : string) :
  exists_ [NameAnnotation; UIDAnnotation; KindAnnotation; NamespaceAnnotation] k = false ->
  HostAnnotations GVKForObject vObj pObj excluded !! k
  = applyAnnotations (obj_Annotations vObj)
      (match pObj with Some p => obj_Annotations p | None => Some ∅ end)
      (excluded ++ [NameAnnotation; UIDAnnotation; KindAnnotation; NamespaceAnnotation]) !! k.
Proof.
  cbn [exists_]. intros Hk.
  destruct (String.eqb_spec NameAnnotation k) as [|Hn]; [done|].
  destruct (String.eqb_spec UIDAnnotation k) as [|Hu]; [done|].
  destruct (String.eqb_spec KindAnnotation k) as [|Hkind]; [done|].
  destruct (String.eqb_spec NamespaceAnnotation k) as [|Hns]; [done|].
  unfold HostAnnotations.
  destruct (GVKForObject vObj); [rewrite lookup_insert_ne by done|];
    (destruct (String.eqb (obj_Namespace vObj) "");
       [rewrite lookup_delete_ne by done|rewrite lookup_insert_ne by done]);
    by rewrite !lookup_insert_ne by done.
Qed.

Lemma Annotations_round_trip_aux (vObj pObj : Object) (excludedHost excludedVirtual : list string)
    (k : string) :
  obj_Annotations pObj = Some (HostAnnotations GVKForObject vObj None excludedHost) ->
  VirtualAnnotations pObj None excludedVirtual !! k
  = if exists_ [NameAnnotation; UIDAnnotation; KindAnnotation; NamespaceAnnotation;
                ManagedAnnotationsAnnotation; ManagedLabelsAnnotation] k
       || exists_ excludedHost k || exists_ excludedVirtual k
    then None
    else lookupGo (obj_Annotations vObj) k.
Proof.
  intros Hp. unfold VirtualAnnotations. rewrite copyMaps_lookup, Hp.
  cbn [excludes lookupGo]. rewrite exists_app.
  destruct (exists_ excludedVirtual k); [by rewrite !orb_true_r|].
  rewrite orb_false_l, orb_false_r.
  destruct (exists_ [NameAnnotation; UIDAnnotation; KindAnnotation; NamespaceAnnotation;
                     ManagedAnnotationsAnnotation; ManagedLabelsAnnotation] k) eqn:Er;
    [done|].
  cbn [orb]. cbn [exists_] in Er.
  destruct (String.eqb_spec NameAnnotation k) as [|Hn]; [done|].
  destruct (String.eqb_spec UIDAnnotation k) as [|Hu]; [done|].
  destruct (String.eqb_spec KindAnnotation k) as [|Hkind]; [done|].
  destruct (String.eqb_spec NamespaceAnnotation k) as [|Hns]; [done|].
  destruct (String.eqb_spec ManagedAnnotationsAnnotation k) as [|Hma]; [done|].
  destruct (String.eqb_spec ManagedLabelsAnnotation k) as [|Hml]; [done|].
  rewrite HostAnnotations_lookup_other
    by (cbn [exists_]; by rewrite !(proj2 (String.eqb_neq _ _)) by done).
  rewrite applyAnnotations_lookup.
  rewrite !(proj2 (String.eqb_neq _ _)) by done. cbn [orb].
  rewrite exists_app. cbn [exists_].
  rewrite !(proj2 (String.eqb_neq _ _)) by done. rewrite orb_false_r.
  destruct (exists_ excludedHost k); [apply lookup_empty|].
  destruct (lookupGo (obj_Annotations vObj) k); [done|].
  cbn [lookupGo]. rewrite lookup_empty. by case_match.
Qed.

(** X23. Annotations written for a host object by HostAnnotations (without
    an existing host object) and read back by VirtualAnnotations (without an
    existing virtual object) are the annotations of the virtual object,
    except that the six reserved annotation keys and the keys excluded in
    either direction are dropped. *)
Theorem Annotations_round_trip (vObj pObj : Object) (excludedHost excludedVirtual : list string)
    (k : string) :
  obj_Annotations pObj = Some (HostAnnotations GVKForObject vObj None excludedHost) ->
  VirtualAnnotations pObj None excludedVirtual !! k
  = if exists_ [NameAnnotation; UIDAnnotation; KindAnnotation; NamespaceAnnotation;
                ManagedAnnotationsAnnotation; ManagedLabelsAnnotation] k
       || exists_ excludedHost k || exists_ excludedVirtual k
    then None
    else lookupGo (obj_Annotations vObj) k.
Proof. apply Annotations_round_trip_aux. Qed.

(** X24. With distinct reserved keys, the annotations HostAnnotations
    returns hold the name of the virtual object under the name key, its UID
    under the UID key, its namespace under the namespace key (no entry when
    the object has no namespace) and, when the kind of the object is known,
    the kind under the kind key, whatever the virtual object and the
    existing host object hold under those keys. *)
Theorem HostAnnotations_identity (vObj : Object) (pObj : option Object)
    (excluded : list string) :
  NameAnnotation <> UIDAnnotation ->
  NameAnnotation <> NamespaceAnnotation ->
  NameAnnotation <> KindAnnotation ->
  UIDAnnotation <> NamespaceAnnotation ->
  UIDAnnotation <> KindAnnotation ->
  NamespaceAnnotation <> KindAnnotation ->
  let annotations := HostAnnotations GVKForObject vObj pObj excluded in
  annotations !! NameAnnotation = Some (obj_Name vObj) /\
  annotations !! UIDAnnotation = Some (obj_UID vObj) /\
  annotations !! NamespaceAnnotation
  = (if String.eqb (obj_Namespace vObj) "" then None else Some (obj_Namespace vObj)) /\
  (forall gvk, GVKForObject vObj = Ok gvk ->
     annotations !! KindAnnotation = Some (GroupVersionKind_String gvk)).
Proof.
  intros Hnu Hnn Hnk Hun Huk Hsk. cbv zeta. unfold HostAnnotations.
  destruct (GVKForObject vObj) as [gvk|e].
  - split_and!.
    + rewrite lookup_insert_ne by done.
      destruct (String.eqb (obj_Namespace vObj) "");
        [rewrite lookup_delete_ne by done|rewrite lookup_insert_ne by done];
        rewrite lookup_insert_ne by done; apply lookup_insert_eq.
    + rewrite lookup_insert_ne by done.
      destruct (String.eqb (obj_Namespace vObj) "");
        [rewrite lookup_delete_ne by done|rewrite lookup_insert_ne by done];
        apply lookup_insert_eq.
    + rewrite lookup_insert_ne by done.
      destruct (String.eqb (obj_Namespace vObj) "");
        [apply lookup_delete_eq|apply lookup_insert_eq].
    + intros gvk' [= <-]. apply lookup_insert_eq.
  - split_and!; [| | |done].
    + destruct (String.eqb (obj_Namespace vObj) "");
        [rewrite lookup_delete_ne by done|rewrite lookup_insert_ne by done];
        rewrite lookup_insert_ne by done; apply lookup_insert_eq.
    + destruct (String.eqb (obj_Namespace vObj) "");
        [rewrite lookup_delete_ne by done|rewrite lookup_insert_ne by done];
        apply lookup_insert_eq.
    + destruct (String.eqb (obj_Namespace vObj) "");
        [apply lookup_delete_eq|apply lookup_insert_eq].
Qed.

(** ** Copies of whole objects *)

Lemma GetOwnerReference_no_owner (object : option Object) :
  Owner = None -> GetOwnerReference object = [].
Proof. unfold GetOwnerReference. by intros ->. Qed.

Lemma CopyObjectWithName_fields {Body : Type} (obj : Resource Body) (name : NamespacedName)
    (setOwner : bool) :
  let source := r_Object obj in
  let target := CopyObjectWithName obj name setOwner in
  let namespaced := negb (String.eqb (obj_Namespace source) "") in
  obj_Name (r_Object target) = nn_Name name /\
  obj_Namespace (r_Object target) = (if namespaced then nn_Namespace name else "") /\
  obj_OwnerReferences (r_Object target)
  = (if namespaced && setOwner then GetOwnerReference (Some source) else []) /\
  obj_UID (r_Object target) = "" /\
  obj_Labels (r_Object target) = obj_Labels source /\
  obj_Annotations (r_Object target) = obj_Annotations source /\
  obj_APIVersion (r_Object target) = obj_APIVersion source /\
  obj_Kind (r_Object target) = obj_Kind source /\
  r_Meta target = r_Meta (ResetObjectMetadata obj) /\
  r_Body target = r_Body obj.
Proof.
  cbv zeta. unfold CopyObjectWithName.
  destruct (String.eqb_spec (obj_Namespace (r_Object obj)) "") as [Hns|Hns]; cbn [negb andb].
  - cbn. by rewrite Hns.
  - destruct setOwner; cbn [andb]; [|done].
    destruct Owner eqn:Eo; [done|]. cbn.
    by rewrite GetOwnerReference_no_owner.
Qed.


(** ** Whole objects in multi-namespace mode *)

(** X26. When the translator does not target a single namespace, a
    namespaced virtual object sent to a host namespace that is not empty
    with HostMetadata, and back with VirtualMetadata, has the name and
    namespace asked for, the labels of the original (an empty map when it
    had none), the annotations of the original without the reserved and
    excluded keys, no owner references, and the body of the original;
    nothing is written through the context. *)
Theorem Metadata_round_trip {Body : Type} (vObj : Resource Body)
    (hostName virtualName : NamespacedName) (excludedHost excludedVirtual : list string)
    (ctx : Ctx) :
  SingleNamespaceTarget Default = false ->
  obj_Namespace (r_Object vObj) <> "" ->
  nn_Namespace hostName <> "" ->
  let pObj := fst (HostMetadata GVKForObject vObj hostName excludedHost ctx) in
  let back := VirtualMetadata pObj virtualName excludedVirtual ctx in
  snd (HostMetadata GVKForObject vObj hostName excludedHost ctx) = ctx /\
  snd back = ctx /\
  obj_Name (r_Object (fst back)) = nn_Name virtualName /\
  obj_Namespace (r_Object (fst back)) = nn_Namespace virtualName /\
  obj_Labels (r_Object (fst back))
  = Some (match obj_Labels (r_Object vObj) with Some g => g | None => ∅ end) /\
  (forall k,
     lookupGo (obj_Annotations (r_Object (fst back))) k
     = if exists_ [NameAnnotation; UIDAnnotation; KindAnnotation; NamespaceAnnotation;
                   ManagedAnnotationsAnnotation; ManagedLabelsAnnotation] k
          || exists_ excludedHost k || exists_ excludedVirtual k
       then None
       else lookupGo (obj_Annotations (r_Object vObj)) k) /\
  obj_OwnerReferences (r_Object (fst back)) = [] /\
  r_Body (fst back) = r_Body vObj.
Proof.
  intros Hmulti Hv Hp. cbv zeta.
  assert (Hhost : HostMetadata GVKForObject vObj hostName excludedHost ctx
            = (SetLabels
                 (SetAnnotations (CopyObjectWithName vObj hostName true)
                    (Some (HostAnnotations GVKForObject (r_Object vObj) None excludedHost)))
                 (Some (match obj_Labels (r_Object vObj) with Some g => g | None => ∅ end)),
               ctx)).
  { unfold HostMetadata. rewrite bind_run. unfold HostLabels, HostLabelsMap.
    rewrite (eqb_empty_false _ Hv), Hmulti, orb_true_r.
    by destruct (obj_Labels (r_Object vObj)). }
  rewrite Hhost. cbn [fst snd]. split; [done|].
  set (pObj := SetLabels _ _).
  assert (Hpns : obj_Namespace (r_Object pObj) = nn_Namespace hostName).
  { subst pObj. cbn [SetLabels SetAnnotations r_Object obj_Namespace].
    destruct (CopyObjectWithName_fields vObj hostName true) as (_ & Hns & _).
    cbv zeta in Hns. by rewrite Hns, (eqb_empty_false _ Hv). }
  assert (Hback : VirtualMetadata pObj virtualName excludedVirtual ctx
            = (SetLabels
                 (SetAnnotations (CopyObjectWithName pObj virtualName false)
                    (Some (VirtualAnnotations (r_Object pObj) None excludedVirtual)))
                 (obj_Labels (r_Object pObj)),
               ctx)).
  { unfold VirtualMetadata. rewrite bind_run. unfold VirtualLabels, VirtualLabelsMap.
    rewrite Hpns, (eqb_empty_false _ Hp), Hmulti, orb_true_r. by subst pObj. }
  rewrite Hback. cbn [fst snd]. split; [done|].
  destruct (CopyObjectWithName_fields pObj virtualName false)
    as (Hname & Hns & Hrefs & _ & _ & _ & _ & _ & _ & Hbody).
  cbv zeta in Hns, Hrefs. rewrite Hpns, (eqb_empty_false _ Hp) in Hns, Hrefs.
  cbn [negb andb] in Hns, Hrefs.
  cbn [SetLabels SetAnnotations r_Object r_Body obj_Name obj_Namespace obj_Labels
       obj_Annotations obj_OwnerReferences lookupGo].
  split_and!; [done|done| | |done|].
  - subst pObj. by cbn.
  - intros k. apply Annotations_round_trip_aux. by subst pObj.
  - rewrite Hbody. subst pObj. cbn [SetLabels SetAnnotations r_Body].
    by destruct (CopyObjectWithName_fields vObj hostName true)
      as (_ & _ & _ & _ & _ & _ & _ & _ & _ & ->).
Qed.

(** ** Objects made for the host are recognised as managed *)

Lemma HostMetadata_run {Body : Type} (vObj : Resource Body) (name : NamespacedName)
    (excludedAnnotations : list string) (ctx : Ctx) :
  fst (HostMetadata GVKForObject vObj name excludedAnnotations ctx)
  = SetLabels
      (SetAnnotations (CopyObjectWithName vObj name true)
         (Some (HostAnnotations GVKForObject (r_Object vObj) None excludedAnnotations)))
      (fst (HostLabels (r_Object vObj) None ctx)).
Proof. unfold HostMetadata. by rewrite bind_run. Qed.

(** X27. A host object made by HostMetadata from a cluster-scoped virtual
    object is managed according to IsManaged of the multi-namespace
    translator whose cluster marker label the default translator gives. *)
Theorem HostMetadata_managed_cluster_scoped {Body : Type} (s : multiNamespace)
    (vObj : Resource Body) (name : NamespacedName) (excludedAnnotations : list string)
    (ctx ctx' : Ctx) :
  MarkerLabelCluster Default = multiNamespace_MarkerLabelCluster s ->
  obj_Namespace (r_Object vObj) = "" ->
  multiNamespace_IsManaged pro_HostNamespaceMatchesMapping GVKForObject s ctx'
    (r_Object (fst (HostMetadata GVKForObject vObj name excludedAnnotations ctx))) = true.
Proof.
  intros Hmarker Hns. rewrite HostMetadata_run. unfold multiNamespace_IsManaged.
  cbn [SetLabels SetAnnotations r_Object obj_Namespace obj_Labels].
  destruct (CopyObjectWithName_fields vObj name true) as (_ & -> & _).
  rewrite Hns. cbn [String.eqb negb].
  unfold HostLabels. rewrite Hns. cbn [String.eqb].
  unfold HostLabelsMapCluster. rewrite bind_run. cbn [ret fst index].
  by rewrite lookup_insert_eq, Hmarker, String.eqb_refl.
Qed.

(** X28. A host object made by HostMetadata from a namespaced virtual object
    with a name, and placed in a host namespace that is not empty and is
    targeted, is managed according to IsManaged of the multi-namespace
    translator, provided the name annotation key differs from the UID,
    namespace and kind annotation keys, and the kind registered for an
    object depends only on its API version and kind. *)
Theorem HostMetadata_managed_namespaced {Body : Type} (s : multiNamespace)
    (vObj : Resource Body) (name : NamespacedName) (excludedAnnotations : list string)
    (ctx ctx' : Ctx) :
  NameAnnotation <> UIDAnnotation ->
  NameAnnotation <> NamespaceAnnotation ->
  NameAnnotation <> KindAnnotation ->
  obj_Namespace (r_Object vObj) <> "" ->
  obj_Name (r_Object vObj) <> "" ->
  nn_Namespace name <> "" ->
  multiNamespace_IsTargetedNamespace pro_HostNamespaceMatchesMapping s ctx'
    (nn_Namespace name) = true ->
  (forall o, obj_APIVersion o = obj_APIVersion (r_Object vObj) ->
             obj_Kind o = obj_Kind (r_Object vObj) ->
             GVKForObject o = GVKForObject (r_Object vObj)) ->
  multiNamespace_IsManaged pro_HostNamespaceMatchesMapping GVKForObject s ctx'
    (r_Object (fst (HostMetadata GVKForObject vObj name excludedAnnotations ctx))) = true.
Proof.
  intros Hnu Hnn Hnk Hns Hname Hpns Htarget Hgvk. rewrite HostMetadata_run.
  set (pObj := SetLabels _ _).
  destruct (CopyObjectWithName_fields vObj name true)
    as (_ & Hcns & _ & _ & _ & _ & Hapi & Hkind & _).
  cbv zeta in Hcns. rewrite (eqb_empty_false _ Hns) in Hcns. cbn [negb] in Hcns.
  assert (Hp : obj_Namespace (r_Object pObj) = nn_Namespace name) by (by subst pObj).
  assert (Hg : GVKForObject (r_Object pObj) = GVKForObject (r_Object vObj))
    by (apply Hgvk; by subst pObj).
  assert (Ha : obj_Annotations (r_Object pObj)
               = Some (HostAnnotations GVKForObject (r_Object vObj) None excludedAnnotations))
    by (by subst pObj).
  unfold multiNamespace_IsManaged. rewrite Hp, (eqb_empty_false _ Hpns), Htarget, Ha, Hg.
  cbn [negb orb index].
  assert (Hn : HostAnnotations GVKForObject (r_Object vObj) None excludedAnnotations
               !! NameAnnotation = Some (obj_Name (r_Object vObj))).
  { unfold HostAnnotations.
    destruct (GVKForObject (r_Object vObj)); [rewrite lookup_insert_ne by done|];
      (destruct (String.eqb (obj_Namespace (r_Object vObj)) "");
         [rewrite lookup_delete_ne by done|rewrite lookup_insert_ne by done]);
      rewrite lookup_insert_ne by done; apply lookup_insert_eq. }
  rewrite Hn. cbn [default id]. rewrite (eqb_empty_false _ Hname).
  destruct (GVKForObject (r_Object vObj)) as [gvk|e] eqn:Eg; [|by case_match].
  assert (Hk : HostAnnotations GVKForObject (r_Object vObj) None excludedAnnotations
               !! KindAnnotation = Some (GroupVersionKind_String gvk)).
  { unfold HostAnnotations. rewrite Eg. apply lookup_insert_eq. }
  rewrite Hk. cbn [default id]. rewrite String.eqb_refl. cbn [negb]. by case_match.
Qed.

(** ** Selectors under a translation that changes no key *)

Lemma range_sync_pure (f : string -> string) (labelFunc : string -> Sync string)
    (l : list (string * string)) :
  (forall k c, labelFunc k c = (f k, c)) ->
  forall (acc : gmap string string) (ctx : Ctx),
    range_sync l (fun k v m => hk <- labelFunc k ;; ret (<[hk := v]> m)) acc ctx
    = (range_list l (fun k v m => <[f k := v]> m) acc, ctx).
Proof.
  intros Hf. unfold range_list. induction l as [|[k v] l IH]; intros acc ctx; [done|].
  cbn [range_sync fold_left fst snd]. rewrite !bind_run, Hf. cbn [ret fst snd].
  apply IH.
Qed.

Lemma range_list_insert_all (g : gmap string string) :
  range_list (map_to_list g) (fun k v (m : gmap string string) => <[k := v]> m) ∅ = g.
Proof.
  change (range (Some g) (fun k v (m : gmap string string) => <[k := v]> m) ∅ = g).
  rewrite range_insert_union. cbn. apply (right_id_L ∅ (∪)).
Qed.

Lemma requirement_eta (r : LabelSelectorRequirement) :
  {| req_Key := req_Key r; req_Operator := req_Operator r; req_Values := req_Values r |} = r.
Proof. by destruct r. Qed.

Lemma virtualMatchLabels_found (labelFunc : string -> Sync (string * bool))
    (l : list (string * string)) :
  (forall k c, labelFunc k c = (k, true, c)) ->
  forall (acc : gmap string string) (ctx : Ctx),
    range_sync l
      (fun k v m => r <- labelFunc k ;;
         let pLabel := if snd r then fst r else k in ret (<[pLabel := v]> m)) acc ctx
    = (range_list l (fun k v m => <[k := v]> m) acc, ctx).
Proof.
  intros Hf. unfold range_list. induction l as [|[k v] l IH]; intros acc ctx; [done|].
  cbn [range_sync fold_left fst snd]. rewrite !bind_run, Hf. cbn [ret fst snd].
  apply IH.
Qed.

Lemma virtualMatchExpressions_found (labelFunc : string -> Sync (string * bool))
    (rs : list LabelSelectorRequirement) (ctx : Ctx) :
  (forall k c, labelFunc k c = (k, true, c)) ->
  virtualMatchExpressions labelFunc rs ctx = (rs, ctx).
Proof.
  intros Hf. induction rs as [|r rs IH]; [done|].
  cbn [virtualMatchExpressions]. unfold virtualRequirement.
  rewrite !bind_run, Hf. cbn [ret fst snd]. by rewrite IH, requirement_eta.
Qed.

Lemma hostMatchExpressions_same (labelFunc : string -> Sync string)
    (rs : list LabelSelectorRequirement) (ctx : Ctx) :
  (forall k c, labelFunc k c = (k, c)) ->
  hostMatchExpressions labelFunc rs ctx = (rs, ctx).
Proof.
  intros Hf. induction rs as [|r rs IH]; [done|].
  cbn [hostMatchExpressions]. rewrite !bind_run, Hf. cbn [ret fst snd].
  by rewrite IH, requirement_eta.
Qed.

(** X29. With a translator that, like the multi-namespace one, returns
    namespaced label keys unchanged in both directions, HostLabelSelector
    and VirtualLabelSelector return the selector they are given, and write
    nothing through the context. *)
Theorem LabelSelector_pass_through (sel : LabelSelector) (vNamespace : string) (ctx : Ctx) :
  (forall k c, HostLabel Default k vNamespace c = (k, c)) ->
  (forall k c, VirtualLabel Default k vNamespace c = (k, true, c)) ->
  HostLabelSelector (Some sel) vNamespace ctx = (Some sel, ctx) /\
  VirtualLabelSelector (Some sel) vNamespace ctx = (Some sel, ctx).
Proof.
  intros Hh Hv. destruct sel as [ml me]. split.
  - unfold HostLabelSelector, hostLabelSelector. cbn [MatchLabels MatchExpressions].
    destruct ml as [g|].
    + unfold hostMatchLabels. rewrite !bind_run.
      rewrite (range_sync_pure (fun k => k)) by done. cbn [ret fst snd].
      by rewrite range_list_insert_all, hostMatchExpressions_same.
    + rewrite !bind_run. cbn [ret fst snd]. by rewrite hostMatchExpressions_same.
  - unfold VirtualLabelSelector, virtualLabelSelector. cbn [MatchLabels MatchExpressions].
    destruct ml as [g|].
    + unfold virtualMatchLabels. rewrite !bind_run.
      rewrite virtualMatchLabels_found by done. cbn [ret fst snd].
      by rewrite range_list_insert_all, virtualMatchExpressions_found.
    + rewrite !bind_run. cbn [ret fst snd]. by rewrite virtualMatchExpressions_found.
Qed.

End ManagedProperties.
End Translate.

(** * Instances: witnesses and counterexamples

    The values below stand for one deployment: vcluster "my-vcluster" in host
    namespace "team-a", with the reserved label prefix
    "vcluster.loft.sh/label". *)

(** ** Names and namespaces *)

Example HostNameCluster_long :
  multiNamespace_HostNameCluster "my-vcluster" (NewMultiNamespaceTranslator "team-a")
    "a-cluster-role-with-a-name-that-is-much-longer-than-usual"
  = "vcluster-a-cluster-role-with-a-name-that-is-much-lon-" +:+
    slice (sha256_hex "vcluster-a-cluster-role-with-a-name-that-is-much-longer-than-usual-x-team-a-x-my-vcluster") 0 10.
Proof. vm_compute. reflexivity. Qed.

Lemma multiNamespace_HostNameCluster_witness :
  "nginx" <> "" /\
  multiNamespace_HostNameCluster "my-vcluster" (NewMultiNamespaceTranslator "team-a") "nginx"
  = "vcluster-nginx-x-team-a-x-my-vcluster".
Proof.
  assert (Hne : "nginx" <> "") by discriminate.
  split; [exact Hne|].
  destruct (multiNamespace_HostNameCluster_spec "my-vcluster"
              (NewMultiNamespaceTranslator "team-a")) as (_ & _ & Hname).
  rewrite (Hname "nginx" Hne). vm_compute. reflexivity.
Defined.

Lemma multiNamespace_HostNamespace_witness :
  multiNamespace_HostNamespace "my-vcluster" (fun _ _ => ("", false))
    (NewMultiNamespaceTranslator "team-a") None "default"
  = "vcluster-37a8eec1-36b063e1".
Proof.
  destruct (multiNamespace_HostNamespace_spec "my-vcluster" (fun _ _ => ("", false))
              (NewMultiNamespaceTranslator "team-a") None "default" eq_refl) as (Hval & _).
  rewrite Hval. vm_compute. reflexivity.
Defined.

(** ** Cluster-scoped label keys *)

Definition emptyStoreContext (synced : list string) : SyncContext :=
  {| Mappings := Some {| labelsCluster := ∅ |}; SyncedLabels := synced |}.

Example HostLabelCluster_example :
  fst (multiNamespace_HostLabelCluster "my-vcluster" "vcluster.loft.sh/label"
         (NewMultiNamespaceTranslator "team-a") "team" (Some (emptyStoreContext [])))
  = "vcluster.loft.sh/label-team-a-x-my-vcluster-x-ca8b22d0db".
Proof. vm_compute. reflexivity. Qed.



(** ** Label selectors *)

Definition unknownHostKey : string := "vcluster.loft.sh/label-team-a-x-my-vcluster-x-0123456789".

Definition unknownSelector : LabelSelector :=
  {| MatchLabels := Some {[ unknownHostKey := "web" ]};
     MatchExpressions :=
       [ {| req_Key := unknownHostKey; req_Operator := "In"; req_Values := ["a"; "b"] |} ] |}.



(** ** Owner references *)

Definition ownerService : Object :=
  {| obj_APIVersion := "v1"; obj_Kind := "Service"; obj_Name := "my-vcluster";
     obj_Namespace := "team-a"; obj_UID := "7d0c3b9e"; obj_Labels := None;
     obj_Annotations := None; obj_OwnerReferences := [] |}.

Definition controlledPod : Object :=
  {| obj_APIVersion := "v1"; obj_Kind := "Pod"; obj_Name := "web-0";
     obj_Namespace := "default"; obj_UID := "41aa"; obj_Labels := None;
     obj_Annotations := None;
     obj_OwnerReferences :=
       [ {| ref_APIVersion := "apps/v1"; ref_Kind := "StatefulSet"; ref_Name := "web";
            ref_UID := "93bf"; ref_Controller := Some true |} ] |}.

Example GetOwnerReference_example :
  GetOwnerReference (Some ownerService) (Some controlledPod)
  = [ {| ref_APIVersion := "v1"; ref_Kind := "Service"; ref_Name := "my-vcluster";
         ref_UID := "7d0c3b9e"; ref_Controller := Some true |} ] /\
  GetOwnerReference (Some ownerService) None
  = [ {| ref_APIVersion := "v1"; ref_Kind := "Service"; ref_Name := "my-vcluster";
         ref_UID := "7d0c3b9e"; ref_Controller := Some false |} ].
Proof. split; reflexivity. Qed.

Lemma GetOwnerReference_spec_witness :
  exists isController,
    GetOwnerReference (Some ownerService) (Some controlledPod)
    = [ {| ref_APIVersion := "v1"; ref_Kind := "Service"; ref_Name := "my-vcluster";
           ref_UID := "7d0c3b9e"; ref_Controller := Some isController |} ] /\
    (isController = true <-> hasControllerRef (Some controlledPod)).
Proof.
  destruct (GetOwnerReference_spec (Some ownerService) (Some controlledPod))
    as (_ & _ & Hone).
  apply (Hone ownerService eq_refl); discriminate.
Defined.

(** ** The schema reconciler *)

Definition widgetKind : GroupVersionKind :=
  {| gvk_Group := "example.com"; gvk_Version := "v1"; gvk_Kind := "Widget" |}.

Definition widgetResource : APIResource :=
  {| res_Name := "widgets"; res_Namespaced := true; res_Group := ""; res_Kind := "Widget" |}.

Definition widgetDefinition (conditions : list CustomResourceDefinitionCondition)
  : CustomResourceDefinition :=
  {| crd_Name := "widgets.example.com"; crd_UID := "5f1c"; crd_ResourceVersion := "812";
     crd_ManagedFields := ["kube-apiserver"]; crd_OwnerReferences := [];
     crd_Scope := NamespaceScoped; crd_PreserveUnknownFields := true;
     crd_Conversion := Some "Webhook";
     crd_Versions :=
       [ {| ver_Name := "v1beta1"; ver_Served := true; ver_Storage := false;
            ver_Subresources := None |};
         {| ver_Name := "v1"; ver_Served := true; ver_Storage := true;
            ver_Subresources := Some {| sub_Status := Some tt; sub_Scale := None |} |} ];
     crd_Conditions := conditions |}.

Definition background : Context := {| ctx_Err := fun _ => None |}.

(** A host cluster that serves the kind and its definition. *)
Definition hostCluster : Cluster :=
  {| NewForConfig := None;
     NewDiscoveryClientForConfig := None;
     ServerResourcesForGroupVersion := fun _ => Ok [widgetResource];
     crd_Get := fun _ _ => Ok (widgetDefinition []);
     crd_Create := fun _ => None |}.





(** A virtual cluster without the kind, where the created definition is
    established at the third poll. *)
Definition virtualFresh : Cluster :=
  {| NewForConfig := None;
     NewDiscoveryClientForConfig := None;
     ServerResourcesForGroupVersion :=
       fun _ => Err (StatusError StatusReasonNotFound "the server could not find the requested resource");
     crd_Get := fun n _ =>
       Ok (widgetDefinition
             (if n <? 2
              then [ {| cond_Type := "Established"; cond_Status := "False";
                        cond_Message := "the initial names have been accepted" |} ]
              else [ {| cond_Type := "NamesAccepted"; cond_Status := "True"; cond_Message := "" |};
                     {| cond_Type := "Established"; cond_Status := "True"; cond_Message := "" |} ]));
     crd_Create := fun crd =>
       match crd_Versions crd, crd_Conversion crd with
       | [v], None =>
           if String.eqb (ver_Name v) "v1" && ver_Served v && ver_Storage v
           then Some (StatusError StatusReasonAlreadyExists "already exists")
           else Some (errorString "unexpected versions")
       | _, _ => Some (errorString "unexpected definition")
       end |}.

Example EnsureCRD_mirrors :
  EnsureCRDFromPhysicalCluster background hostCluster virtualFresh widgetKind
  = ((false, true, None),
     [ LogInfo "Create crd in virtual cluster";
       LogInfo "Wait for crd to become ready in virtual cluster";
       LogInfo "CRD is not ready yet";
       LogInfo "CRD is not ready yet" ]).
Proof. vm_compute. reflexivity. Qed.

(** A caller that gives up before the second poll gets its own error back,
    wrapped. *)
Example EnsureCRD_cancelled :
  snd (fst (EnsureCRDFromPhysicalCluster
              {| ctx_Err := fun i => if i <? 1 then None else Some (errorString "context canceled") |}
              hostCluster virtualFresh widgetKind))
  = Some (wrapError "failed to wait for CRD example.com/v1, Kind=Widget to become ready"
            (errorString "context canceled")).
Proof. vm_compute. reflexivity. Qed.

(** * Instances of the further properties

    The package constants are declared outside src/; the values below are
    those of one deployment, with the multi-namespace translator of host
    namespace "team-a" as [Default], no declared namespace mapping, and no
    owner. *)

Module Deployment.

Definition VClusterName : string := "my-vcluster".
Definition LabelPrefix : string := "vcluster.loft.sh/label".
Definition MarkerLabel : string := "vcluster.loft.sh/managed-by".
Definition NamespaceLabel : string := "vcluster.loft.sh/namespace".
Definition ControllerLabel : string := "vcluster.loft.sh/controlled-by".
Definition NamespaceLabelPrefix : string := "vcluster.loft.sh/ns-label".
Definition NameAnnotation : string := "vcluster.loft.sh/object-name".
Definition UIDAnnotation : string := "vcluster.loft.sh/object-uid".
Definition KindAnnotation : string := "vcluster.loft.sh/object-kind".
Definition NamespaceAnnotation : string := "vcluster.loft.sh/object-namespace".
Definition ManagedAnnotationsAnnotation : string := "vcluster.loft.sh/managed-annotations".
Definition ManagedLabelsAnnotation : string := "vcluster.loft.sh/managed-labels".

Definition noMapping : Ctx -> string -> string * bool := fun _ _ => ("", false).

(** The kind registered for an object, read off its type meta. *)
Definition registeredKind (o : Object) : result GroupVersionKind :=
  Ok {| gvk_Group := ""; gvk_Version := obj_APIVersion o; gvk_Kind := obj_Kind o |}.

Definition translator : Translator multiNamespace :=
  multiNamespace_Translator VClusterName LabelPrefix.

Definition s : multiNamespace := NewMultiNamespaceTranslator "team-a".

Definition applyMetadata := ApplyMetadata ManagedAnnotationsAnnotation ManagedLabelsAnnotation.

Definition hostAnnotations :=
  HostAnnotations NameAnnotation UIDAnnotation KindAnnotation NamespaceAnnotation
    ManagedAnnotationsAnnotation ManagedLabelsAnnotation registeredKind.

Definition virtualAnnotations :=
  VirtualAnnotations NameAnnotation UIDAnnotation KindAnnotation NamespaceAnnotation
    ManagedAnnotationsAnnotation ManagedLabelsAnnotation.

Definition hostMetadata {Body : Type} :=
  @HostMetadata VClusterName MarkerLabel NamespaceLabel ControllerLabel NameAnnotation
    UIDAnnotation KindAnnotation NamespaceAnnotation ManagedAnnotationsAnnotation
    ManagedLabelsAnnotation None noMapping multiNamespace translator s registeredKind Body.

Definition virtualMetadata {Body : Type} :=
  @VirtualMetadata MarkerLabel NamespaceLabel ControllerLabel NamespaceLabelPrefix
    NameAnnotation UIDAnnotation KindAnnotation NamespaceAnnotation
    ManagedAnnotationsAnnotation ManagedLabelsAnnotation None noMapping multiNamespace
    translator s Body.

Definition isManaged :=
  multiNamespace_IsManaged VClusterName MarkerLabel NameAnnotation KindAnnotation noMapping
    registeredKind s.

(** A namespaced virtual object and a cluster-scoped one. *)
Definition webPod : Resource unit :=
  {| r_Object :=
       {| obj_APIVersion := "v1"; obj_Kind := "Pod"; obj_Name := "web-0";
          obj_Namespace := "default"; obj_UID := "41aa";
          obj_Labels := Some {[ "app" := "web" ]};
          obj_Annotations := Some {[ "team" := "a" ]};
          obj_OwnerReferences := [] |};
     r_Meta :=
       {| om_GenerateName := "web-"; om_SelfLink := ""; om_ResourceVersion := "812";
          om_Generation := 3%Z; om_CreationTimestamp := 1700000000%Z;
          om_DeletionTimestamp := None; om_DeletionGracePeriodSeconds := None;
          om_Finalizers := ["example.com/cleanup"]; om_ManagedFields := ["kubectl"] |};
     r_Body := tt |}.

Definition storageClass : Resource unit :=
  {| r_Object :=
       {| obj_APIVersion := "storage.k8s.io/v1"; obj_Kind := "StorageClass";
          obj_Name := "fast"; obj_Namespace := ""; obj_UID := "9c01";
          obj_Labels := None; obj_Annotations := None; obj_OwnerReferences := [] |};
     r_Meta := r_Meta webPod;
     r_Body := tt |}.

(** A host object that carries the annotations made for the pod. *)
Definition annotatedHostPod : Object :=
  {| obj_APIVersion := "v1"; obj_Kind := "Pod"; obj_Name := "web-0";
     obj_Namespace := "vcluster-37a8eec1-36b063e1"; obj_UID := "";
     obj_Labels := None;
     obj_Annotations := Some (hostAnnotations (r_Object webPod) None []);
     obj_OwnerReferences := [] |}.

(** Where the pod goes on the host: the namespace [HostNamespace] gives for
    "default". *)
Definition hostPodName : NamespacedName :=
  {| nn_Namespace := "vcluster-37a8eec1-36b063e1"; nn_Name := "web-0" |}.

Definition virtualPodName : NamespacedName :=
  {| nn_Namespace := "default"; nn_Name := "web-0" |}.

(** A translator that targets a single namespace and rewrites label keys,
    to reach the branch of [HostLabelsMap] that the multi-namespace
    translator never takes. *)
Definition singleNamespace : Translator unit :=
  {| SingleNamespaceTarget := fun _ => true;
     MarkerLabelCluster := fun _ => "team-a-x-my-vcluster";
     HostLabel := fun _ k _ => ret ("vcluster.loft.sh/label-" +:+ k);
     VirtualLabel := fun _ k _ => ret (k, false);
     HostLabelCluster := fun _ k => ret k;
     VirtualLabelCluster := fun _ k => ret (k, true) |}.

End Deployment.

(** ** The merge of maps *)

Lemma applyMaps_order_independent_witness :
  applyMaps_in_order [("b", "2"); ("a", "1")] [("c", "3"); ("b", "9")]
    {| ManagedKeys := []; ExcludeKeys := [] |}
  = ({[ "a" := "1"; "b" := "2"; "c" := "3" ]}, "a" +:+ nl +:+ "b").
Proof.
  rewrite (applyMaps_order_independent {[ "a" := "1"; "b" := "2" ]} {[ "b" := "9"; "c" := "3" ]}).
  - vm_compute. reflexivity.
  - vm_compute. first [reflexivity | apply perm_swap].
  - vm_compute. first [reflexivity | apply perm_swap].
Defined.

Lemma applyMaps_stable_witness :
  let first :=
    applyMaps (Some {[ "a" := "1" ]}) (Some {[ "b" := "2" ]})
      {| ManagedKeys := ["b"]; ExcludeKeys := [] |} in
  applyMaps (Some {[ "a" := "1" ]}) (Some (fst first))
    {| ManagedKeys := Split (snd first) nl; ExcludeKeys := [] |}
  = first.
Proof.
  apply (applyMaps_stable (Some {[ "a" := "1" ]}) (Some {[ "b" := "2" ]})
           {| ManagedKeys := ["b"]; ExcludeKeys := [] |}).
  - apply keys_without_newline. vm_compute. reflexivity.
  - vm_compute. reflexivity.
Defined.

Lemma ApplyMetadata_spec_witness :
  let merged :=
    Deployment.applyMetadata (Some {[ "team" := "a" ]}) (Some {[ "owner" := "ops" ]})
      (Some {[ "app" := "web" ]}) None [] in
  fst merged !! "app" = Some "web" /\
  snd merged !! "team" = Some "a".
Proof.
  destruct (ApplyMetadata_spec Deployment.ManagedAnnotationsAnnotation
              Deployment.ManagedLabelsAnnotation
              (Some {[ "team" := "a" ]}) (Some {[ "owner" := "ops" ]})
              (Some {[ "app" := "web" ]}) None [] "app") as [Hl _]; [discriminate|].
  destruct (ApplyMetadata_spec Deployment.ManagedAnnotationsAnnotation
              Deployment.ManagedLabelsAnnotation
              (Some {[ "team" := "a" ]}) (Some {[ "owner" := "ops" ]})
              (Some {[ "app" := "web" ]}) None [] "team") as [_ Ha]; [discriminate|].
  split; [exact Hl|exact Ha].
Defined.

Lemma ApplyMetadata_stable_witness :
  let merged :=
    Deployment.applyMetadata (Some {[ "team" := "a" ]}) (Some {[ "owner" := "ops" ]})
      (Some {[ "app" := "web" ]}) (Some {[ "pod-template-hash" := "5d4f" ]}) [] in
  Deployment.applyMetadata (Some {[ "team" := "a" ]}) (Some (snd merged))
    (Some {[ "app" := "web" ]}) (Some (fst merged)) []
  = merged.
Proof.
  apply (ApplyMetadata_stable Deployment.ManagedAnnotationsAnnotation
           Deployment.ManagedLabelsAnnotation).
  - discriminate.
  - apply keys_without_newline. vm_compute. reflexivity.
  - apply keys_without_newline. vm_compute. reflexivity.
  - vm_compute. reflexivity.
  - vm_compute. reflexivity.
Defined.

(** ** Names *)

Lemma SafeConcatName_digest_suffix_witness :
  exists q,
    SafeConcatName ["aaaaaaaaaabbbbbbbbbbccccccccccddddddddddeeeeeeeeee."; "ffffffffffgggggggggg"]
    = q +:+ "-" +:+
      slice (sha256_hex
               "aaaaaaaaaabbbbbbbbbbccccccccccddddddddddeeeeeeeeee.-ffffffffffgggggggggg") 0 10 /\
    String.length q <= 52 /\
    String.length
      (SafeConcatName
         ["aaaaaaaaaabbbbbbbbbbccccccccccddddddddddeeeeeeeeee."; "ffffffffffgggggggggg"])
    = String.length q + 11.
Proof.
  apply (SafeConcatName_digest_suffix
           ["aaaaaaaaaabbbbbbbbbbccccccccccddddddddddeeeeeeeeee."; "ffffffffffgggggggggg"]).
  vm_compute. lia.
Defined.

Lemma IsTargetedNamespace_HostNamespace_witness :
  multiNamespace_IsTargetedNamespace Deployment.VClusterName Deployment.noMapping Deployment.s
    None
    (multiNamespace_HostNamespace Deployment.VClusterName Deployment.noMapping Deployment.s
       None "default")
  = true.
Proof.
  apply (IsTargetedNamespace_HostNamespace Deployment.VClusterName Deployment.noMapping
           Deployment.noMapping Deployment.s None None "default").
  reflexivity.
Defined.

(** ** The package's [Split] *)

Lemma translate_Split_no_separator_witness :
  translate.Split " app " "=" = (TrimSpace " app ", "").
Proof. apply translate_Split_no_separator. vm_compute. reflexivity. Defined.

Lemma translate_Split_first_separator_witness :
  translate.Split (" app " +:+ String "=" " web = frontend") "="
  = (TrimSpace " app ", TrimSpace " web = frontend").
Proof. apply translate_Split_first_separator. vm_compute. reflexivity. Defined.

(** ** The schema reconciler *)



(** ** Label maps and selectors *)

Lemma HostLabelsMap_reserved_labels_witness :
  exists newLabels,
    fst (HostLabelsMap Deployment.VClusterName Deployment.MarkerLabel
           Deployment.NamespaceLabel Deployment.ControllerLabel Deployment.noMapping
           (DefaultTranslator := Deployment.singleNamespace) tt
           (Some {[ Deployment.MarkerLabel := "someone-else" ]}) None "default" None)
    = Some newLabels /\
    newLabels !! Deployment.MarkerLabel = Some Deployment.VClusterName /\
    ("default" <> "" -> newLabels !! Deployment.NamespaceLabel = Some "default") /\
    (index None Deployment.ControllerLabel <> "" ->
     newLabels !! Deployment.ControllerLabel = Some (index None Deployment.ControllerLabel)).
Proof.
  apply (HostLabelsMap_reserved_labels Deployment.VClusterName Deployment.MarkerLabel
           Deployment.NamespaceLabel Deployment.ControllerLabel Deployment.noMapping
           (DefaultTranslator := Deployment.singleNamespace) tt);
    first [discriminate | reflexivity].
Defined.

Lemma VirtualLabelsMapCluster_keeps_host_labels_witness :
  exists retLabels,
    fst (VirtualLabelsMapCluster Deployment.MarkerLabel Deployment.ControllerLabel
           Deployment.NamespaceLabelPrefix (DefaultTranslator := Deployment.translator)
           Deployment.s
           (Some {[ "kubernetes.io/metadata.name" := "fast" ]}) None [] None)
    = Some retLabels /\
    is_Some (retLabels !! "kubernetes.io/metadata.name").
Proof.
  apply (VirtualLabelsMapCluster_keeps_host_labels Deployment.MarkerLabel
           Deployment.ControllerLabel Deployment.NamespaceLabelPrefix
           (DefaultTranslator := Deployment.translator) Deployment.s).
  - vm_compute. eexists. reflexivity.
  - vm_compute. reflexivity.
Defined.

Lemma LabelSelector_pass_through_witness :
  HostLabelSelector (DefaultTranslator := Deployment.translator) Deployment.s
    (Some unknownSelector) "default" None = (Some unknownSelector, None) /\
  VirtualLabelSelector (DefaultTranslator := Deployment.translator) Deployment.s
    (Some unknownSelector) "default" None = (Some unknownSelector, None).
Proof.
  apply (LabelSelector_pass_through (DefaultTranslator := Deployment.translator)
           Deployment.s unknownSelector "default" None).
  - intros k c. reflexivity.
  - intros k c. reflexivity.
Defined.

(** ** Whole objects *)

Lemma Annotations_round_trip_witness :
  Deployment.virtualAnnotations Deployment.annotatedHostPod None [] !! "team" = Some "a" /\
  Deployment.virtualAnnotations Deployment.annotatedHostPod None []
    !! Deployment.NameAnnotation = None.
Proof.
  unfold Deployment.virtualAnnotations. split.
  - rewrite (Annotations_round_trip Deployment.NameAnnotation Deployment.UIDAnnotation
               Deployment.KindAnnotation Deployment.NamespaceAnnotation
               Deployment.ManagedAnnotationsAnnotation Deployment.ManagedLabelsAnnotation
               Deployment.registeredKind (r_Object Deployment.webPod)
               Deployment.annotatedHostPod [] [] "team" eq_refl).
    vm_compute. reflexivity.
  - rewrite (Annotations_round_trip Deployment.NameAnnotation Deployment.UIDAnnotation
               Deployment.KindAnnotation Deployment.NamespaceAnnotation
               Deployment.ManagedAnnotationsAnnotation Deployment.ManagedLabelsAnnotation
               Deployment.registeredKind (r_Object Deployment.webPod)
               Deployment.annotatedHostPod [] [] Deployment.NameAnnotation eq_refl).
    vm_compute. reflexivity.
Defined.

Lemma HostAnnotations_identity_witness :
  let annotations := Deployment.hostAnnotations (r_Object Deployment.webPod) None [] in
  annotations !! Deployment.NameAnnotation = Some "web-0" /\
  annotations !! Deployment.UIDAnnotation = Some "41aa" /\
  annotations !! Deployment.NamespaceAnnotation = Some "default" /\
  (forall gvk, Deployment.registeredKind (r_Object Deployment.webPod) = Ok gvk ->
     annotations !! Deployment.KindAnnotation = Some (GroupVersionKind_String gvk)).
Proof.
  apply (HostAnnotations_identity Deployment.NameAnnotation Deployment.UIDAnnotation
           Deployment.KindAnnotation Deployment.NamespaceAnnotation
           Deployment.ManagedAnnotationsAnnotation Deployment.ManagedLabelsAnnotation
           Deployment.registeredKind (r_Object Deployment.webPod) None []);
    discriminate.
Defined.

Lemma Metadata_round_trip_witness :
  let pObj := fst (Deployment.hostMetadata Deployment.webPod Deployment.hostPodName [] None) in
  let back := Deployment.virtualMetadata pObj Deployment.virtualPodName [] None in
  snd (Deployment.hostMetadata Deployment.webPod Deployment.hostPodName [] None) = None /\
  snd back = None /\
  obj_Name (r_Object (fst back)) = "web-0" /\
  obj_Namespace (r_Object (fst back)) = "default" /\
  obj_Labels (r_Object (fst back)) = Some {[ "app" := "web" ]} /\
  (forall k,
     lookupGo (obj_Annotations (r_Object (fst back))) k
     = if exists_ [Deployment.NameAnnotation; Deployment.UIDAnnotation;
                   Deployment.KindAnnotation; Deployment.NamespaceAnnotation;
                   Deployment.ManagedAnnotationsAnnotation;
                   Deployment.ManagedLabelsAnnotation] k
          || exists_ [] k || exists_ [] k
       then None
       else lookupGo (obj_Annotations (r_Object Deployment.webPod)) k) /\
  obj_OwnerReferences (r_Object (fst back)) = [] /\
  r_Body (fst back) = tt.
Proof.
  apply (Metadata_round_trip Deployment.VClusterName Deployment.MarkerLabel
           Deployment.NamespaceLabel Deployment.ControllerLabel
           Deployment.NamespaceLabelPrefix Deployment.NameAnnotation
           Deployment.UIDAnnotation Deployment.KindAnnotation Deployment.NamespaceAnnotation
           Deployment.ManagedAnnotationsAnnotation Deployment.ManagedLabelsAnnotation
           None Deployment.noMapping (DefaultTranslator := Deployment.translator)
           Deployment.s Deployment.registeredKind Deployment.webPod
           Deployment.hostPodName Deployment.virtualPodName [] [] None).
  - reflexivity.
  - discriminate.
  - discriminate.
Defined.

Lemma HostMetadata_managed_cluster_scoped_witness :
  Deployment.isManaged None
    (r_Object (fst (Deployment.hostMetadata Deployment.storageClass
                      {| nn_Namespace := ""; nn_Name := "vcluster-fast-x-team-a-x-my-vcluster" |}
                      [] None)))
  = true.
Proof.
  apply (HostMetadata_managed_cluster_scoped Deployment.VClusterName Deployment.MarkerLabel
           Deployment.NamespaceLabel Deployment.ControllerLabel Deployment.NameAnnotation
           Deployment.UIDAnnotation Deployment.KindAnnotation Deployment.NamespaceAnnotation
           Deployment.ManagedAnnotationsAnnotation Deployment.ManagedLabelsAnnotation
           None Deployment.noMapping (DefaultTranslator := Deployment.translator)
           Deployment.s Deployment.noMapping Deployment.registeredKind Deployment.s
           Deployment.storageClass).
  - reflexivity.
  - reflexivity.
Defined.

Lemma HostMetadata_managed_namespaced_witness :
  Deployment.isManaged None
    (r_Object (fst (Deployment.hostMetadata Deployment.webPod Deployment.hostPodName [] None)))
  = true.
Proof.
  apply (HostMetadata_managed_namespaced Deployment.VClusterName Deployment.MarkerLabel
           Deployment.NamespaceLabel Deployment.ControllerLabel Deployment.NameAnnotation
           Deployment.UIDAnnotation Deployment.KindAnnotation Deployment.NamespaceAnnotation
           Deployment.ManagedAnnotationsAnnotation Deployment.ManagedLabelsAnnotation
           None Deployment.noMapping (DefaultTranslator := Deployment.translator)
           Deployment.s Deployment.noMapping Deployment.registeredKind Deployment.s
           Deployment.webPod Deployment.hostPodName [] None None).
  - discriminate.
  - discriminate.
  - discriminate.
  - discriminate.
  - discriminate.
  - discriminate.
  - vm_compute. reflexivity.
  - intros o Ha Hk. unfold Deployment.registeredKind. rewrite Ha, Hk. reflexivity.
Defined.
